(** * Gender-classification API: the person-count filter and the request handlers

    A shallow embedding of [src/api/app.py]: the fixed-threshold filter
    [count_people_in_image] over the detector's output, and the two request
    handlers [predict_gender] (POST /predict) and [predict_batch]
    (POST /predict-batch).

    The pretrained models, the image codec and the upload object are
    collaborators outside the repository; they are the fields of a context
    record [env], each a function that either returns or raises.  What the
    handlers do to the outside world (calls of the collaborators, records
    written to the logger) is the trace that every computation leaves
    behind. *)

From Stdlib Require Import ZArith String Ascii List Bool Lia.
From Stdlib Require Import Floats.SpecFloat.
From stdpp Require Import base option list gmap strings pretty.

Set Warnings "-register-all".
Open Scope Z_scope.

(** ** Python numbers *)

(** A Python [float] is an IEEE-754 binary64 value: [spec_float] at precision
    53 and maximal exponent 1024. *)
Definition float : Type := spec_float.

Definition prec : Z := 53.
Definition emax : Z := 1024.

(** An [int] seen as an unrounded float: the mantissa is the integer itself.
    [SFdiv] divides the two mantissas exactly and rounds once, so the
    quotient of two such values is the correctly rounded quotient of the
    integers, which is what Python's [int / int] returns. *)
Definition float_of_int (n : Z) : float :=
  match n with
  | Z0 => S754_zero false
  | Zpos p => S754_finite false p 0
  | Zneg p => S754_finite true p 0
  end.

(** The double nearest to the decimal literal [num / den]. *)
Definition float_literal (num den : Z) : float :=
  SFdiv prec emax (float_of_int num) (float_of_int den).

(** The three literals of the filter, and the [0.0] of the error payloads. *)
Definition lit_0_7 : float := S754_finite false 6305039478318694 (-53).
Definition lit_0_05 : float := S754_finite false 7205759403792794 (-57).
Definition lit_0_2 : float := S754_finite false 7205759403792794 (-55).
Definition lit_0_0 : float := S754_zero false.

(** [x > y] and [x <= y] on floats; both are false when an operand is NaN. *)
Definition float_gt (x y : float) : bool := SFltb y x.
Definition float_le (x y : float) : bool := SFleb x y.

Definition is_nan (x : float) : bool :=
  match x with S754_nan => true | _ => false end.

(** ** Exceptions, traces and the computation monad *)

(** An exception is either the framework's [HTTPException] or any other
    Python exception, kept as its class name and its [str(e)]. *)
Inductive exn :=
| PyError (cls : string) (msg : string)
| HTTPException (status_code : Z) (detail : string).

Definition str_exn (e : exn) : string :=
  match e with
  | PyError _ msg => msg
  | HTTPException status_code detail => pretty status_code +:+ ": " +:+ detail
  end.

Inductive result (A : Type) :=
| Ok (a : A)
| Raise (e : exn).
Arguments Ok {A} a.
Arguments Raise {A} e.

Record box := Box { xmin : Z; ymin : Z; xmax : Z; ymax : Z }.

(** One item of the detector's output: [{'label', 'score', 'box'}]. *)
Record detection := Detection { label : string; score : float; det_box : box }.

(** A decoded RGB image: [image.size] and the pixel data. *)
Record image := Image { img_width : Z; img_height : Z; img_pixels : list Z }.

(** An uploaded file.  [filename] and [content_type] are absent when the
    multipart part does not declare them; [file_read] is what
    [await file.read()] gives. *)
Record upload_file := UploadFile {
  filename : option string;
  content_type : option string;
  file_read : result (list Z)
}.

(** What a handler does to the outside world, in order. *)
Inductive event :=
| LogError (msg : string)
| CallRead (file : upload_file)
| CallImageOpen (data : list Z)
| CallDetector (img : image)
| CallClassifier (img : image).

Definition trace : Type := list event.

(** A computation returns or raises, and leaves the trace of what it did.
    Nothing in the program reads the trace back, so it is only written. *)
Definition M (A : Type) : Type := (result A * trace)%type.

Definition ret {A} (a : A) : M A := (Ok a, []).
Definition raise {A} (e : exn) : M A := (Raise e, []).

Definition bind {A B} (m : M A) (k : A -> M B) : M B :=
  match m with
  | (Ok a, t) => let '(r, t') := k a in (r, t ++ t')
  | (Raise e, t) => (Raise e, t)
  end.

Notation "'let*' x ':=' m 'in' k" := (bind m (fun x => k))
  (at level 10, x name, m at level 100, k at level 200).
Notation "m ';;' k" := (bind m (fun _ => k))
  (at level 100, k at level 200, right associativity).

(** [try: body except Exception as e: handler e]. *)
Definition try_except {A} (body : M A) (handler : exn -> M A) : M A :=
  match body with
  | (Ok a, t) => (Ok a, t)
  | (Raise e, t) => let '(r, t') := handler e in (r, t ++ t')
  end.

(** The result of a collaborator, recorded in the trace as a call. *)
Definition call {A} (ev : event) (r : result A) : M A := (r, [ev]).

(** A step that touches nothing outside. *)
Definition lift {A} (r : result A) : M A := (r, []).

(** [logger.error(msg)]. *)
Definition logger_error (msg : string) : M unit := (Ok tt, [LogError msg]).

(** [for x in xs: acc = body acc x], left to right; an exception leaves the
    loop. *)
Fixpoint for_each {A S} (xs : list A) (acc : S) (body : S -> A -> M S) : M S :=
  match xs with
  | [] => ret acc
  | x :: xs' => let* acc' := body acc x in for_each xs' acc' body
  end.

(** ** Strings *)

(** [c.lower()] on one character: the ASCII capitals move to their small
    letters, every other byte stays. *)
Definition ascii_lower (c : ascii) : ascii :=
  let n := N_of_ascii c in
  if ((65 <=? n) && (n <=? 90))%N then ascii_of_N (n + 32) else c.

(** [s.lower()]. *)
Fixpoint lower (s : string) : string :=
  match s with
  | EmptyString => EmptyString
  | String c s' => String (ascii_lower c) (lower s')
  end.

(** [s.startswith(p)]. *)
Fixpoint startswith (s p : string) {struct p} : bool :=
  match p, s with
  | EmptyString, _ => true
  | String _ _, EmptyString => false
  | String a p', String b s' => if Ascii.eqb a b then startswith s' p' else false
  end.

(** [needle in hay]: [needle] starts at some position of [hay]. *)
Fixpoint str_in (needle hay : string) : bool :=
  startswith hay needle ||
  match hay with
  | EmptyString => false
  | String _ hay' => str_in needle hay'
  end.

(** ** Python integer division [a / b]

    True division of two ints: [ZeroDivisionError] on a zero divisor,
    [OverflowError] when the rounded quotient leaves the double range, the
    correctly rounded quotient otherwise. *)
Definition int_true_div (a b : Z) : result float :=
  if b =? 0 then Raise (PyError "ZeroDivisionError" "division by zero")
  else match SFdiv prec emax (float_of_int a) (float_of_int b) with
       | S754_infinity _ =>
           Raise (PyError "OverflowError" "integer division result too large for a float")
       | q => Ok q
       end.

(** ** The context: collaborators outside the repository *)

Record env := Env {
  (** [Image.open(io.BytesIO(data)).convert('RGB')] *)
  image_open : list Z -> result image;
  (** [person_detector(image)]: the object-detection pipeline *)
  person_detector : image -> result (list detection);
  (** [processor], [model] and the softmax over the logits: the row
      [predictions[0]] of class probabilities (the batch holds one image) *)
  classifier : image -> result (list float);
  (** [model.config.id2label] *)
  id2label : gmap Z string
}.

(** ** The person-count filter *)

(** One turn of the loop over the detections. *)
Definition count_detection (img : image) (valid_people : Z) (d : detection) : M Z :=
  if str_in "person" (lower (label d)) then
    let score := score d in
    let box := det_box d in
    let det_width := xmax box - xmin box in
    let det_height := ymax box - ymin box in
    let* relative_area :=
      lift (int_true_div (det_width * det_height) (img_width img * img_height img)) in
    let* relative_height := lift (int_true_div det_height (img_height img)) in
    if float_gt score lit_0_7
       && float_gt relative_area lit_0_05
       && float_gt relative_height lit_0_2
    then ret (valid_people + 1)
    else ret valid_people
  else ret valid_people.

Definition count_people_in_image (E : env) (img : image) : M Z :=
  try_except
    (let* detections := call (CallDetector img) (person_detector E img) in
     let* valid_people := for_each detections 0 (count_detection img) in
     ret valid_people)
    (fun e =>
       logger_error ("Error in person detection: " +:+ str_exn e) ;;
       ret 1).

(** ** JSON payloads *)

(** What a handler returns: [None], ints, floats, strings, lists and dicts
    with string keys. *)
Inductive value :=
| VNone
| VInt (n : Z)
| VFloat (f : float)
| VStr (s : string)
| VList (l : list value)
| VDict (d : gmap string value).

(** A field that may be absent on the upload ([file.filename]). *)
Definition value_of_name (o : option string) : value :=
  match o with
  | Some s => VStr s
  | None => VNone
  end.

(** ** The tensor operations of the handlers *)

(** The order of torch's [max] and [argmax] reductions: [a] replaces the
    running best [b] when [b] is not NaN and [a] is NaN or greater.  The
    first of several equal maxima is kept, and a NaN wins over everything. *)
Definition beats (a b : float) : bool :=
  if is_nan b then false else if is_nan a then true else float_gt a b.

Fixpoint max_from (best_i : Z) (best : float) (i : Z) (row : list float) : Z * float :=
  match row with
  | [] => (best_i, best)
  | x :: row' =>
      if beats x best then max_from i x (i + 1) row'
      else max_from best_i best (i + 1) row'
  end.

Definition empty_reduction {A} : result A :=
  Raise (PyError "IndexError" "argmax(): Expected reduction dim to be specified for input.numel() == 0.").

(** [predictions.argmax().item()]. *)
Definition tensor_argmax (row : list float) : result Z :=
  match row with
  | [] => empty_reduction
  | x :: row' => Ok (fst (max_from 0 x 1 row'))
  end.

(** [predictions.max().item()]. *)
Definition tensor_max (row : list float) : result float :=
  match row with
  | [] => empty_reduction
  | x :: row' => Ok (snd (max_from 0 x 1 row'))
  end.

(** [float(predictions[0][i])] for a literal index [i >= 0]. *)
Definition tensor_item (row : list float) (i : Z) : result float :=
  match row !! Z.to_nat i with
  | Some x => Ok x
  | None =>
      Raise (PyError "IndexError"
               ("index " +:+ pretty i +:+ " is out of bounds for dimension 0 with size "
                +:+ pretty (Z.of_nat (length row))))
  end.

(** [d[k]] on the label dictionary. *)
Definition dict_getitem (d : gmap Z string) (k : Z) : result string :=
  match d !! k with
  | Some v => Ok v
  | None => Raise (PyError "KeyError" (pretty k))
  end.

(** ** POST /predict *)

(** [file.content_type.startswith('image/')]; the attribute access fails on
    an undeclared content type. *)
Definition content_type_is_image (file : upload_file) : result bool :=
  match content_type file with
  | Some ct => Ok (startswith ct "image/")
  | None => Raise (PyError "AttributeError" "'NoneType' object has no attribute 'startswith'")
  end.

(** The body of the handler's [try]. *)
Definition predict_gender_try (E : env) (file : upload_file) : M value :=
  let* image_data := call (CallRead file) (file_read file) in
  let* image := call (CallImageOpen image_data) (image_open E image_data) in
  let* person_count := count_people_in_image E image in
  if person_count =? 0 then
    ret (VDict {[ "error" := VStr "No person detected in image";
                  "person_count" := VInt person_count;
                  "prediction" := VNone;
                  "confidence" := VFloat lit_0_0 ]})
  else if person_count >? 1 then
    ret (VDict {[ "error" := VStr ("Multiple people detected (" +:+ pretty person_count
                                   +:+ " people). Please use single-person images.");
                  "person_count" := VInt person_count;
                  "prediction" := VNone;
                  "confidence" := VFloat lit_0_0 ]})
  else
    let* predictions := call (CallClassifier image) (classifier E image) in
    let* predicted_class_id := lift (tensor_argmax predictions) in
    let* confidence := lift (tensor_max predictions) in
    let* predicted_label := lift (dict_getitem (id2label E) predicted_class_id) in
    let* p_male := lift (tensor_item predictions 0) in
    let* p_female := lift (tensor_item predictions 1) in
    ret (VDict {[ "prediction" := VStr predicted_label;
                  "confidence" := VFloat confidence;
                  "person_count" := VInt person_count;
                  "probabilities" := VDict {[ "male" := VFloat p_male;
                                              "female" := VFloat p_female ]};
                  "error" := VNone ]}).

Definition predict_gender (E : env) (file : upload_file) : M value :=
  let* is_image := lift (content_type_is_image file) in
  if negb is_image then raise (HTTPException 400 "File must be an image")
  else
    try_except
      (predict_gender_try E file)
      (fun e =>
         logger_error ("Error in prediction: " +:+ str_exn e) ;;
         raise (HTTPException 500 ("Prediction failed: " +:+ str_exn e))).

(** ** POST /predict-batch *)

(** The body of the [try] of one turn of the loop; it returns the list
    [results] as the turn leaves it. *)
Definition batch_item (E : env) (results : list value) (file : upload_file)
  : M (list value) :=
  let* is_image := lift (content_type_is_image file) in
  if negb is_image then
    ret (results ++ [VDict {[ "filename" := value_of_name (filename file);
                              "error" := VStr "File must be an image";
                              "prediction" := VNone;
                              "confidence" := VFloat lit_0_0 ]}])
  else
    let* image_data := call (CallRead file) (file_read file) in
    let* image := call (CallImageOpen image_data) (image_open E image_data) in
    let* person_count := count_people_in_image E image in
    if negb (person_count =? 1) then
      ret (results ++ [VDict {[ "filename" := value_of_name (filename file);
                                "error" := VStr ("Expected 1 person, found " +:+ pretty person_count);
                                "person_count" := VInt person_count;
                                "prediction" := VNone;
                                "confidence" := VFloat lit_0_0 ]}])
    else
      let* predictions := call (CallClassifier image) (classifier E image) in
      let* predicted_class_id := lift (tensor_argmax predictions) in
      let* confidence := lift (tensor_max predictions) in
      let* predicted_label := lift (dict_getitem (id2label E) predicted_class_id) in
      ret (results ++ [VDict {[ "filename" := value_of_name (filename file);
                                "prediction" := VStr predicted_label;
                                "confidence" := VFloat confidence;
                                "person_count" := VInt person_count;
                                "error" := VNone ]}]).

(** One turn of the loop: the [try] and its [except]. *)
Definition batch_step (E : env) (results : list value) (file : upload_file)
  : M (list value) :=
  try_except
    (batch_item E results file)
    (fun e =>
       ret (results ++ [VDict {[ "filename" := value_of_name (filename file);
                                 "error" := VStr (str_exn e);
                                 "prediction" := VNone;
                                 "confidence" := VFloat lit_0_0 ]}])).

Definition predict_batch (E : env) (files : list upload_file) : M value :=
  if Z.of_nat (length files) >? 10 then
    raise (HTTPException 400 "Maximum 10 images per batch")
  else
    let* results := for_each files [] (batch_step E) in
    ret (VDict {[ "results" := VList results ]}).

(** ** The framework's side of a handler *)

Record response := Response { status : Z; content : value }.

(** How the web framework answers: a returned payload is sent with status
    200, an [HTTPException] with its own status and its detail, any other
    exception as a bare 500. *)
Definition respond (r : result value) : response :=
  match r with
  | Ok v => Response 200 v
  | Raise (HTTPException status_code detail) =>
      Response status_code (VDict {[ "detail" := VStr detail ]})
  | Raise (PyError _ _) => Response 500 (VStr "Internal Server Error")
  end.

(** ** The filter's rule, in the words of the specification *)

(** The rounded quotient of two ints, as a float. *)
Definition float_quotient (a b : Z) : float :=
  SFdiv prec emax (float_of_int a) (float_of_int b).

Definition box_width (b : box) : Z := xmax b - xmin b.
Definition box_height (b : box) : Z := ymax b - ymin b.

(** relative_area = (box width x box height) / (image width x image height) *)
Definition relative_area (img : image) (d : detection) : float :=
  float_quotient (box_width (det_box d) * box_height (det_box d))
                 (img_width img * img_height img).

(** relative_height = box height / image height *)
Definition relative_height (img : image) (d : detection) : float :=
  float_quotient (box_height (det_box d)) (img_height img).

(** A label denotes a person when it holds the word in any letter case:
    some part of it spells "person" once capitals are ignored. *)
Definition denotes_person (l : string) : Prop :=
  exists pre mid post, l = pre +:+ mid +:+ post /\ lower mid = "person".

(** A valid detection: confidence > 0.7 and relative_area > 0.05 and
    relative_height > 0.2, on a detection that passes the label test. *)
Definition valid_person (img : image) (d : detection) : bool :=
  str_in "person" (lower (label d))
  && float_gt (score d) lit_0_7
  && float_gt (relative_area img d) lit_0_05
  && float_gt (relative_height img d) lit_0_2.

(** Pixel coordinates as the detector's integer tensor holds them. *)
Definition pixel_coordinate (z : Z) : Prop := - 2 ^ 31 <= z < 2 ^ 31.

Definition pixel_box (b : box) : Prop :=
  pixel_coordinate (xmin b) /\ pixel_coordinate (ymin b) /\
  pixel_coordinate (xmax b) /\ pixel_coordinate (ymax b).

(** The upload declares an image type, decodes to [img], and the filter
    counts [n] people on it. *)
Definition reaches_count (E : env) (file : upload_file) (img : image) (n : Z) : Prop :=
  exists ct data,
    content_type file = Some ct /\ startswith ct "image/" = true /\
    file_read file = Ok data /\ image_open E data = Ok img /\
    fst (count_people_in_image E img) = Ok n.

(** What one file of a batch does to the outside world. *)
Definition item_trace (E : env) (file : upload_file) : trace :=
  snd (batch_step E [] file).

(** The same collaborators with another label dictionary. *)
Definition with_labels (E : env) (labels : gmap Z string) : env :=
  Env (image_open E) (person_detector E) (classifier E) labels.

(** ** Reading a rounding record

    [located mrs N D]: the mantissa of [mrs] is the integer part of the
    ratio [N / D], and its round and sticky bits place the ratio against the
    half-way point, as the rounding step reads them. *)
Definition located (mrs : shr_record) (N D : Z) : Prop :=
  0 < D /\ 0 <= shr_m mrs /\
  shr_m mrs * D <= N < (shr_m mrs + 1) * D /\
  loc_of_shr_record mrs
  = (if N - shr_m mrs * D =? 0 then loc_Exact
     else loc_Inexact (2 * (N - shr_m mrs * D) ?= D)).

(** The real value of a double exceeds the ratio [num / den] (for positive
    [num] and [den]): stated on the integers, with the power of two moved to
    the side where it is a multiplication. *)
Definition exceeds (x : float) (num den : Z) : Prop :=
  match x with
  | S754_finite false m e => num * 2 ^ Z.max (- e) 0 < den * Zpos m * 2 ^ Z.max e 0
  | S754_infinity false => True
  | _ => False
  end.

(** ** Small fixtures for running the handlers *)

Definition det (l : string) (s : float) (x0 y0 x1 y1 : Z) : detection :=
  Detection l s (Box x0 y0 x1 y1).

Definition img_100 : image := Image 100 100 [].

Definition close_up : detection := det "person" (float_literal 9 10) 10 10 60 90.

Definition env_of (dets : result (list detection)) (probs : result (list float))
    (labels : gmap Z string) : env :=
  Env (fun _ => Ok img_100) (fun _ => dets) (fun _ => probs) labels.

Definition male_female : gmap Z string := {[ 0 := "male"; 1 := "female" ]}.
Definition female_male : gmap Z string := {[ 0 := "female"; 1 := "male" ]}.

Definition jpeg (name : string) : upload_file :=
  UploadFile (Some name) (Some "image/jpeg") (Ok []).

Definition probs_9_1 : list float := [float_literal 9 10; float_literal 1 10].

(** One close-up person in frame, a classifier that favours class 0. *)
Definition E_single : env := env_of (Ok [close_up]) (Ok probs_9_1) male_female.

(** The same with the two labels the other way round. *)
Definition E_swapped : env := env_of (Ok [close_up]) (Ok probs_9_1) female_male.

(** Nobody in frame. *)
Definition E_empty : env := env_of (Ok []) (Ok probs_9_1) male_female.

(** A detector that fails. *)
Definition detector_down : exn := PyError "RuntimeError" "detector unavailable".
Definition E_down : env := env_of (Raise detector_down) (Ok probs_9_1) male_female.

(** Three detections on a 100 x 100 image: a close-up person, a person whose
    box covers exactly 0.05 of the image, and a dog. *)
Definition crowd : list detection :=
  [close_up; det "person" (float_literal 9 10) 0 0 20 25; det "dog" (float_literal 9 10) 0 0 90 90].
Definition E_crowd : env := env_of (Ok crowd) (Ok probs_9_1) male_female.

(** Two close-up people. *)
Definition E_pair : env := env_of (Ok [close_up; close_up]) (Ok probs_9_1) male_female.

(** A codec that keeps the bytes as pixels and a detector that finds one
    person on every image that has pixels, and nobody on an empty one. *)
Definition E_mixed : env :=
  Env (fun data => Ok (Image 100 100 data))
      (fun img => match img_pixels img with [] => Ok [] | _ => Ok [close_up] end)
      (fun _ => Ok probs_9_1)
      male_female.

Definition portrait : upload_file := UploadFile (Some "portrait.jpg") (Some "image/jpeg") (Ok [7]).
Definition landscape : upload_file := UploadFile (Some "landscape.jpg") (Some "image/jpeg") (Ok []).

(** A text file, and a codec that cannot decode. *)
Definition notes : upload_file := UploadFile (Some "notes.txt") (Some "text/plain") (Ok []).

Definition cannot_identify : exn := PyError "UnidentifiedImageError" "cannot identify image file".
Definition E_undecodable : env :=
  Env (fun _ => Raise cannot_identify) (fun _ => Ok [close_up]) (fun _ => Ok probs_9_1) male_female.

(** ** More of the person-count filter *)

(** The label test of the filter, as a function. *)
Definition person_label (d : detection) : bool := str_in "person" (lower (label d)).

(** The exception a turn of the filter's loop can raise on an image: the
    division by the pixel count fails on an image without pixels, and
    overflows otherwise. *)
Definition image_fault (img : image) : exn :=
  if img_width img * img_height img =? 0
  then PyError "ZeroDivisionError" "division by zero"
  else PyError "OverflowError" "integer division result too large for a float".

(** ** More of the batch *)

(** The entry the batch gives a file on which something failed. *)
Definition failure_entry (file : upload_file) (msg : string) : value :=
  VDict {[ "filename" := value_of_name (filename file);
           "error" := VStr msg;
           "prediction" := VNone;
           "confidence" := VFloat lit_0_0 ]}.

(** * Loading the models at startup

    [download_model_from_s3], [load_models], [startup_event] and
    [health_check] work on the local file system, the module's three
    globals and the log, and call S3 and the model loaders.  They are
    embedded as state transformers over a [world]. *)

(** [s.endswith(suffix)]. *)
Definition endswith (s suffix : string) : bool :=
  let n := String.length s in
  let k := String.length suffix in
  (k <=? n)%nat && String.eqb (substring (n - k) k s) suffix.

(** [os.path.basename(p)]: what follows the last slash of [p]. *)
Fixpoint basename (p : string) : string :=
  match p with
  | EmptyString => EmptyString
  | String c p' =>
      if str_in "/" p' then basename p'
      else if Ascii.eqb c "/" then p' else String c p'
  end.

(** [os.path.join(a, b)] on POSIX paths. *)
Definition path_join (a b : string) : string :=
  if startswith b "/" then b
  else if String.eqb a "" || endswith a "/" then a +:+ b
  else a +:+ "/" +:+ b.

(** A path of the file system holds a directory or a file with its bytes;
    paths are told apart as they are written. *)
Inductive node :=
| Dir
| File (body : list Z).

(** A loaded object: the processor, the classifier, or the detector
    pipeline, named by where it was loaded from. *)
Inductive handle := Handle (source : string).

(** The module's globals [processor], [model] and [person_detector];
    [None] until assigned. *)
Record models := Models {
  the_processor : option handle;
  the_model : option handle;
  the_person_detector : option handle
}.

Inductive log_level := INFO | ERROR.

(** What the startup code does to the outside world, in order. *)
Inductive effect :=
| Logged (lvl : log_level) (msg : string)
| Boto3Client
| MakeDirs (path : string)
| Paginate (bucket prefix : string)
| DownloadFile (bucket key local_path : string)
| ProcessorFromPretrained (dir : string)
| ModelFromPretrained (dir : string)
| Pipeline (kind model_name : string).

Record world := World {
  fs : gmap string node;
  journal : list effect;
  globals : models
}.

(** One page of the listing: the keys of the objects under its 'Contents',
    when the page has the entry. *)
Definition page : Type := option (list string).

(** The collaborators of the startup code. *)
Record outside := Outside {
  (** [os.environ] *)
  environ : gmap string string;
  (** [boto3.client('s3')] *)
  boto3_client : result unit;
  (** [os.makedirs(path, exist_ok=True)] on a path that does not exist *)
  makedirs : string -> result unit;
  (** the pages that [paginate(Bucket, Prefix)] yields, and the exception
      that ends the iteration when a request for a page fails *)
  paginate : string -> string -> list page * option exn;
  (** [s3.download_file(bucket, key, local_path)]: the bytes it leaves at
      [local_path], or its exception *)
  download_file : string -> string -> string -> result (list Z);
  (** [ViTImageProcessor.from_pretrained(dir)].  A loader reads the file
      system, and may fetch what it misses into its local cache: it gives
      its result and the files it wrote, also when it fails *)
  processor_from_pretrained : string -> gmap string node -> result handle * gmap string node;
  (** [ViTForImageClassification.from_pretrained(dir)] *)
  model_from_pretrained : string -> gmap string node -> result handle * gmap string node;
  (** [pipeline(kind, model=name)] *)
  pipeline : string -> string -> gmap string node -> result handle * gmap string node
}.

(** A computation on the world returns or raises, and leaves a world. *)
Definition IO (A : Type) : Type := world -> result A * world.

Definition io_ret {A} (a : A) : IO A := fun w => (Ok a, w).
Definition io_raise {A} (e : exn) : IO A := fun w => (Raise e, w).

Definition io_bind {A B} (m : IO A) (k : A -> IO B) : IO B :=
  fun w =>
    match m w with
    | (Ok a, w') => k a w'
    | (Raise e, w') => (Raise e, w')
    end.

Notation "'let!' x ':=' m 'in' k" := (io_bind m (fun x => k))
  (at level 10, x name, m at level 100, k at level 200).
Notation "m ';;;' k" := (io_bind m (fun _ => k))
  (at level 100, k at level 200, right associativity).

(** [try: body except Exception as e: handler e]. *)
Definition io_try {A} (body : IO A) (handler : exn -> IO A) : IO A :=
  fun w =>
    match body w with
    | (Ok a, w') => (Ok a, w')
    | (Raise e, w') => handler e w'
    end.

(** [for x in xs: body x]; an exception leaves the loop. *)
Fixpoint io_for {A} (xs : list A) (body : A -> IO unit) : IO unit :=
  match xs with
  | [] => io_ret tt
  | x :: xs' => body x ;;; io_for xs' body
  end.

Definition note (ef : effect) : IO unit :=
  fun w => (Ok tt, World (fs w) (journal w ++ [ef]) (globals w)).

Definition logger_info (msg : string) : IO unit := note (Logged INFO msg).
Definition logger_error_io (msg : string) : IO unit := note (Logged ERROR msg).

(** The result of a collaborator that leaves the world as it is. *)
Definition outcome {A} (ef : effect) (r : result A) : IO A :=
  note ef ;;; fun w => (r, w).

(** [os.path.exists(path)]. *)
Definition path_exists (path : string) : IO bool :=
  fun w => (Ok (match fs w !! path with Some _ => true | None => false end), w).

(** [os.getenv(name, default)]. *)
Definition getenv (O : outside) (name default : string) : string :=
  match environ O !! name with
  | Some v => v
  | None => default
  end.

(** [os.makedirs(path, exist_ok=True)]: nothing to do on a directory, an
    error on a file, and the directory made where the path is free and the
    system allows it. *)
Definition os_makedirs (O : outside) (path : string) : IO unit :=
  note (MakeDirs path) ;;;
  fun w =>
    match fs w !! path with
    | Some Dir => (Ok tt, w)
    | Some (File _) =>
        (Raise (PyError "FileExistsError"
                  ("[Errno 17] File exists: '" +:+ path +:+ "'")), w)
    | None =>
        match makedirs O path with
        | Ok _ => (Ok tt, World (<[path := Dir]> (fs w)) (journal w) (globals w))
        | Raise e => (Raise e, w)
        end
    end.

(** [s3.download_file(bucket, key, local_path)]. *)
Definition s3_download_file (O : outside) (bucket key local_path : string) : IO unit :=
  note (DownloadFile bucket key local_path) ;;;
  fun w =>
    match download_file O bucket key local_path with
    | Ok body => (Ok tt, World (<[local_path := File body]> (fs w)) (journal w) (globals w))
    | Raise e => (Raise e, w)
    end.

(** A call of a loader: it runs on the file system as it stands, and what
    it wrote is on the file system afterwards. *)
Definition loading (ef : effect)
    (run : gmap string node -> result handle * gmap string node) : IO handle :=
  note ef ;;;
  fun w =>
    let '(r, written) := run (fs w) in
    (r, World (written ∪ fs w) (journal w) (globals w)).

Definition model_dir : string := "./model".

(** The body of the loop over the objects of a page. *)
Definition download_object (O : outside) (bucket_name key : string) : IO unit :=
  if negb (endswith key "/") then
    let local_path := path_join model_dir (basename key) in
    s3_download_file O bucket_name key local_path ;;;
    logger_info ("Downloaded " +:+ key +:+ " to " +:+ local_path)
  else io_ret tt.

(** The body of the loop over the pages. *)
Definition download_page (O : outside) (bucket_name : string) (pg : page) : IO unit :=
  match pg with
  | Some contents => io_for contents (download_object O bucket_name)
  | None => io_ret tt
  end.

Definition download_model_from_s3 (O : outside) : IO string :=
  let! present := path_exists model_dir in
  (if negb present then
     logger_info "Downloading model from S3..." ;;;
     outcome Boto3Client (boto3_client O) ;;;
     let bucket_name := getenv O "MODEL_BUCKET" "your-bucket-name" in
     let model_prefix := getenv O "MODEL_PREFIX" "models/gender-classification-final/" in
     os_makedirs O model_dir ;;;
     note (Paginate bucket_name model_prefix) ;;;
     let '(pages, failure) := paginate O bucket_name model_prefix in
     io_for pages (download_page O bucket_name) ;;;
     match failure with
     | Some e => io_raise e
     | None => logger_info "Model download completed!"
     end
   else io_ret tt) ;;;
  io_ret model_dir.

Definition set_processor (h : handle) : IO unit :=
  fun w => (Ok tt, World (fs w) (journal w)
                     (Models (Some h) (the_model (globals w))
                             (the_person_detector (globals w)))).

Definition set_model (h : handle) : IO unit :=
  fun w => (Ok tt, World (fs w) (journal w)
                     (Models (the_processor (globals w)) (Some h)
                             (the_person_detector (globals w)))).

Definition set_person_detector (h : handle) : IO unit :=
  fun w => (Ok tt, World (fs w) (journal w)
                     (Models (the_processor (globals w)) (the_model (globals w))
                             (Some h))).

(** The body of the [try] of [load_models].  [model.eval()] switches the
    loaded classifier to evaluation mode and cannot fail; it leaves the
    world as it is. *)
Definition load_models_try (O : outside) : IO unit :=
  let! dir := download_model_from_s3 O in
  logger_info "Loading gender classification model..." ;;;
  let! p := loading (ProcessorFromPretrained dir) (processor_from_pretrained O dir) in
  set_processor p ;;;
  let! m := loading (ModelFromPretrained dir) (model_from_pretrained O dir) in
  set_model m ;;;
  logger_info "Loading person detection model..." ;;;
  let! d := loading (Pipeline "object-detection" "facebook/detr-resnet-50")
                    (pipeline O "object-detection" "facebook/detr-resnet-50") in
  set_person_detector d ;;;
  logger_info "All models loaded successfully!".

Definition load_models (O : outside) : IO unit :=
  io_try (load_models_try O)
         (fun e =>
            logger_error_io ("Error loading models: " +:+ str_exn e) ;;;
            io_raise e).

Definition startup_event (O : outside) : IO unit := load_models O.

(** The values of the health payload. *)
Inductive health_value :=
| HStr (s : string)
| HBool (b : bool).

Definition is_not_none {A} (x : option A) : bool :=
  match x with Some _ => true | None => false end.

(** GET /health. *)
Definition health_check (w : world) : gmap string health_value :=
  {[ "status" := HStr "healthy";
     "model_loaded" := HBool (is_not_none (the_model (globals w)));
     "processor_loaded" := HBool (is_not_none (the_processor (globals w)));
     "detector_loaded" := HBool (is_not_none (the_person_detector (globals w))) ]}.

(** The world of a fresh process: the module's globals are [None] and
    nothing has been done yet. *)
Definition fresh (files : gmap string node) : world :=
  World files [] (Models None None None).

(** ** The handlers before the models are loaded *)

(** Calling a global that is still [None]. *)
Definition not_callable : exn :=
  PyError "TypeError" "'NoneType' object is not callable".

(** The handlers' collaborators while the three globals are [None], as in a
    process whose startup has not run: calling the detector fails, and the
    classifier stage fails at its first call, the processor's. *)
Definition before_startup (decode : list Z -> result image) : env :=
  Env decode (fun _ => Raise not_callable) (fun _ => Raise not_callable) ∅.

(** ** What the download leaves behind *)

(** The keys of a listing that name an object to download, in the order of
    the listing: those of the pages' contents that do not end in a slash. *)
Definition listed_keys (pages : list page) : list string :=
  List.filter (fun key => negb (endswith key "/")) (concat (omap id pages)).

(** [w'] differs from [w] by log records and calls, and by files under the
    model directory; nothing else of the file system moved, the globals did
    not, and nothing was removed. *)
Definition adds_under_model_dir (w w' : world) : Prop :=
  globals w' = globals w
  /\ journal w `prefix_of` journal w'
  /\ forall path,
       fs w' !! path = fs w !! path
       \/ (is_Some (fs w' !! path)
           /\ (path = model_dir
               \/ exists name, path = "./model/" +:+ name /\ str_in "/" name = false)).

(** The file system after one successful transfer of [key]. *)
Definition stored (O : outside) (bucket : string) (files : gmap string node) (key : string)
  : gmap string node :=
  match download_file O bucket key (path_join model_dir (basename key)) with
  | Ok body => <[path_join model_dir (basename key) := File body]> files
  | Raise _ => files
  end.

(** The calls that go to S3. *)
Definition is_s3_call (ef : effect) : bool :=
  match ef with
  | Boto3Client | Paginate _ _ | DownloadFile _ _ _ => true
  | _ => false
  end.

(** The world when the loop over the pages starts, on a machine without the
    model directory: the directory is made, and the client and the listing
    are asked for. *)
Definition opened (O : outside) (w : world) : world :=
  World (<[model_dir := Dir]> (fs w))
        (journal w ++ [Logged INFO "Downloading model from S3..."; Boto3Client;
                       MakeDirs model_dir;
                       Paginate (getenv O "MODEL_BUCKET" "your-bucket-name")
                                (getenv O "MODEL_PREFIX"
                                        "models/gender-classification-final/")])
        (globals w).

(** What the transfer of one object adds to the journal. *)
Definition transfer (bucket key : string) : list effect :=
  [DownloadFile bucket key ("./model/" +:+ basename key);
   Logged INFO ("Downloaded " +:+ key +:+ " to " +:+ "./model/" +:+ basename key)].

(** ** More fixtures *)

(** An image without pixels. *)
Definition img_flat : image := Image 0 100 [].

(** The detections of [crowd], listed the other way round. *)
Definition E_crowd_reversed : env := env_of (Ok (reverse crowd)) (Ok probs_9_1) male_female.

(** An upload whose part declares no content type. *)
Definition untyped : upload_file := UploadFile (Some "raw.bin") None (Ok []).

(** A classifier with a single class. *)
Definition E_one_class : env :=
  env_of (Ok [close_up]) (Ok [float_of_int 1]) {[ 0 := "person" ]}.

(** A bucket with the model under the default prefix: a marker for the
    prefix itself, the model's two files, and an older checkpoint with a
    configuration of its own, over three pages of which one is empty.  The
    body of an object tells its key by the key's length. *)
Definition bucket_pages : list page :=
  [ Some [ "models/gender-classification-final/";
           "models/gender-classification-final/config.json";
           "models/gender-classification-final/model.safetensors" ];
    None;
    Some [ "models/gender-classification-final/checkpoint-10/config.json" ] ].

(** A loader of a local directory: it needs the configuration, and writes
    nothing. *)
Definition loader (dir : string) (files : gmap string node)
  : result handle * gmap string node :=
  match files !! (dir +:+ "/config.json") with
  | Some (File _) => (Ok (Handle dir), ∅)
  | _ => (Raise (PyError "OSError"
                   (dir +:+ " does not appear to have a file named config.json")), ∅)
  end.

(** A pipeline that fetches its model into the cache unless it is there. *)
Definition hub_cache : string := "/home/app/.cache/huggingface/hub/".

Definition fetching (kind name : string) (files : gmap string node)
  : result handle * gmap string node :=
  match files !! (hub_cache +:+ name) with
  | Some _ => (Ok (Handle name), ∅)
  | None => (Ok (Handle name), {[ hub_cache +:+ name := File [1] ]})
  end.

Definition O_bucket : outside :=
  Outside ∅ (Ok tt) (fun _ => Ok tt)
          (fun _ _ => (bucket_pages, None))
          (fun _ key _ => Ok [Z.of_nat (String.length key)])
          loader loader fetching.

(** A listing that breaks after its first page, which holds the
    configuration only. *)
Definition connection_lost : exn :=
  PyError "EndpointConnectionError" "Could not connect to the endpoint URL".

Definition O_cut_off : outside :=
  Outside ∅ (Ok tt) (fun _ => Ok tt)
          (fun _ _ => ([ Some [ "models/gender-classification-final/config.json" ] ],
                       Some connection_lost))
          (fun _ key _ => Ok [Z.of_nat (String.length key)])
          loader loader fetching.

(** A machine that holds one file outside the model directory. *)
Definition elsewhere : gmap string node := {[ "./app.py" := File [35] ]}.

(** * Proofs *)

(** ** The quotient of two ints does not overflow on pixel data *)

Lemma digits2_pos_bounds p :
  2 ^ (Zpos (digits2_pos p) - 1) <= Zpos p < 2 ^ Zpos (digits2_pos p).
Proof.
  induction p as [p IH | p IH |]; cbn [digits2_pos].
  - rewrite Pos2Z.inj_succ, Z.pow_succ_r by lia.
    replace (Z.succ (Zpos (digits2_pos p)) - 1) with (Z.succ (Zpos (digits2_pos p) - 1)) by lia.
    rewrite Z.pow_succ_r by lia. lia.
  - rewrite Pos2Z.inj_succ, Z.pow_succ_r by lia.
    replace (Z.succ (Zpos (digits2_pos p)) - 1) with (Z.succ (Zpos (digits2_pos p) - 1)) by lia.
    rewrite Z.pow_succ_r by lia. lia.
  - cbn. lia.
Qed.

Lemma Zdigits2_nonneg m : 0 <= Zdigits2 m.
Proof. destruct m; simpl; lia. Qed.

Lemma Zdigits2_le m k : 0 <= k -> 0 <= m < 2 ^ k -> Zdigits2 m <= k.
Proof.
  intros Hk [Hm Hlt]. destruct m as [| p | p]; simpl; try lia.
  destruct (Z_le_gt_dec (Zpos (digits2_pos p)) k) as [|Hgt]; [done|].
  pose proof (digits2_pos_bounds p) as [Hlo _].
  assert (2 ^ k <= 2 ^ (Zpos (digits2_pos p) - 1)) by (apply Z.pow_le_mono_r; lia).
  lia.
Qed.

Lemma shr_1_m mrs : 0 <= shr_m mrs -> 0 <= shr_m (shr_1 mrs) <= shr_m mrs.
Proof.
  destruct mrs as [m r s]; simpl. intros Hm.
  destruct m as [| [p | p |] | p]; simpl; lia.
Qed.

Lemma iter_shr_1_m n : forall mrs,
  0 <= shr_m mrs -> 0 <= shr_m (SpecFloat.iter_pos shr_1 n mrs) <= shr_m mrs.
Proof.
  induction n as [n IH | n IH |]; intros mrs Hm; cbn [SpecFloat.iter_pos].
  - pose proof (shr_1_m mrs Hm).
    pose proof (IH (shr_1 mrs) ltac:(lia)).
    pose proof (IH (SpecFloat.iter_pos shr_1 n (shr_1 mrs)) ltac:(lia)). lia.
  - pose proof (IH mrs Hm).
    pose proof (IH (SpecFloat.iter_pos shr_1 n mrs) ltac:(lia)). lia.
  - by apply shr_1_m.
Qed.

Lemma shr_m_of_loc m l : shr_m (shr_record_of_loc m l) = m.
Proof. by destruct l as [| []]. Qed.

(** One shift to the exponent [fexp] asks for: the mantissa does not grow and
    the exponent becomes the larger of the two. *)
Lemma shr_fexp_bounds m e l :
  0 <= m ->
  0 <= shr_m (fst (shr_fexp prec emax m e l)) <= m /\
  snd (shr_fexp prec emax m e l) = Z.max e (fexp prec emax (Zdigits2 m + e)).
Proof.
  intros Hm. unfold shr_fexp, shr.
  destruct (fexp prec emax (Zdigits2 m + e) - e) as [| n | n] eqn:Hn; cbn [fst snd].
  - rewrite shr_m_of_loc. lia.
  - split; [|lia].
    pose proof (iter_shr_1_m n (shr_record_of_loc m l)) as H.
    rewrite shr_m_of_loc in H. by apply H.
  - rewrite shr_m_of_loc. lia.
Qed.

Lemma round_nearest_even_bounds m l : m <= round_nearest_even m l <= m + 1.
Proof. destruct l as [| []]; simpl; try lia. destruct (Z.even m); lia. Qed.

Lemma fexp_le e k : e <= k + 53 -> -1074 <= k -> fexp prec emax e <= k.
Proof. unfold fexp, SpecFloat.emin, prec, emax. lia. Qed.

(** The rounding step stays finite as long as the mantissa and the exponent
    it starts from are far below the double range. *)
Lemma binary_round_aux_finite sx mx ex lx :
  0 <= mx < 2 ^ 66 -> ex <= 0 -> Zdigits2 mx + ex <= 66 ->
  forall s, binary_round_aux prec emax sx mx ex lx <> S754_infinity s.
Proof.
  intros [Hm0 Hm1] Hex Hd s. unfold binary_round_aux.
  destruct (shr_fexp prec emax mx ex lx) as [mrs' e'] eqn:H1.
  pose proof (shr_fexp_bounds mx ex lx Hm0) as [Hb1 He1]. rewrite H1 in Hb1, He1.
  cbn [fst snd] in Hb1, He1.
  set (m2 := round_nearest_even (shr_m mrs') (loc_of_shr_record mrs')).
  pose proof (round_nearest_even_bounds (shr_m mrs') (loc_of_shr_record mrs')) as Hr.
  fold m2 in Hr.
  destruct (shr_fexp prec emax m2 e' loc_Exact) as [mrs'' e''] eqn:H2.
  pose proof (shr_fexp_bounds m2 e' loc_Exact ltac:(lia)) as [Hb2 He2].
  rewrite H2 in Hb2, He2. cbn [fst snd] in Hb2, He2.
  assert (e' <= 13) as He'.
  { rewrite He1. apply Z.max_lub; [lia|]. apply fexp_le; lia. }
  assert (Zdigits2 m2 <= 67) as Hd2.
  { apply Zdigits2_le; [lia|]. split; [lia|].
    assert (2 ^ 67 = 2 * 2 ^ 66) as -> by reflexivity. lia. }
  assert (e'' <= 971) as He''.
  { rewrite He2. apply Z.max_lub; [lia|]. apply fexp_le; lia. }
  destruct (shr_m mrs'') as [| p | p]; try discriminate.
  destruct (Z.leb_spec e'' (emax - prec)) as [|Hgt]; [discriminate|].
  unfold emax, prec in Hgt. lia.
Qed.

(** The exact quotient that [SFdiv] hands to the rounding step, for a
    dividend below [2^64]. *)
Lemma SFdiv_core_binary_bounds m1 m2 :
  Zpos m1 < 2 ^ 64 ->
  forall q e l, SFdiv_core_binary prec emax (Zpos m1) 0 (Zpos m2) 0 = (q, e, l) ->
  0 <= q < 2 ^ 66 /\ e <= 0 /\ Zdigits2 q + e <= 66.
Proof.
  intros Hm1 q e l. unfold SFdiv_core_binary.
  cbn [Zdigits2]. rewrite !Z.add_0_r, !Z.sub_0_r, Z.sub_0_l.
  pose proof (digits2_pos_bounds m1) as [_ Hd1].
  pose proof (digits2_pos_bounds m2) as [Hd2 _].
  set (d1 := Zpos (digits2_pos m1)) in *. set (d2 := Zpos (digits2_pos m2)) in *.
  assert (0 < d1) by (unfold d1; lia). assert (0 < d2) by (unfold d2; lia).
  set (e' := Z.min (fexp prec emax (d1 - d2)) 0).
  assert (e' <= 0) as He' by (unfold e'; lia).
  assert (d1 - d2 - 53 <= e' \/ e' = 0) as Hlow.
  { unfold e', fexp, SpecFloat.emin, prec, emax. lia. }
  set (m' := match - e' with Zpos _ => Z.shiftl (Zpos m1) (- e') | 0 => Zpos m1 | Zneg _ => 0 end).
  assert (m' = Zpos m1 * 2 ^ (- e')) as Hm'.
  { unfold m'. destruct (- e') as [| p | p] eqn:Hs; [| |lia].
    - rewrite Z.pow_0_r. lia.
    - rewrite Z.shiftl_mul_pow2 by lia. reflexivity. }
  clearbody m'.
  pose proof (Z_div_mod m' (Zpos m2) ltac:(lia)) as Hdiv.
  destruct (Z.div_eucl m' (Zpos m2)) as [q' r'].
  destruct Hdiv as [Heq Hr]. intros [= <- <- <-].
  assert (0 < 2 ^ (- e')) as Hpow by (apply Z.pow_pos_nonneg; lia).
  assert (0 <= q') as Hq0 by nia.
  assert (Zdigits2 q' + e' <= 64) as Hdig.
  { destruct Hlow as [Hlow | He0].
    - destruct (Z.eq_dec e' 0) as [He0 | Hne].
      + rewrite He0 in *. rewrite Z.add_0_r.
        apply Zdigits2_le; [lia|]. split; [lia|].
        change (- 0) with 0 in *. rewrite Z.pow_0_r in *. nia.
      + assert (Zdigits2 q' <= 54); [|lia].
        apply Zdigits2_le; [lia|]. split; [lia|].
        assert (2 ^ d1 * 2 ^ (- e') <= 2 ^ 54 * 2 ^ (d2 - 1)) as Hle.
        { rewrite <- !Z.pow_add_r by lia. apply Z.pow_le_mono_r; lia. }
        assert (0 < 2 ^ (d2 - 1)) by (apply Z.pow_pos_nonneg; lia).
        nia.
    - rewrite He0 in *. rewrite Z.add_0_r.
      apply Zdigits2_le; [lia|]. split; [lia|].
      change (- 0) with 0 in *. rewrite Z.pow_0_r in *. nia. }
  split; [|split; lia].
  split; [lia|].
  destruct Hlow as [Hlow | He0].
  - destruct (Z.eq_dec e' 0) as [He0 | Hne].
    + rewrite He0 in *. change (- 0) with 0 in *. rewrite Z.pow_0_r in *.
      assert (2 ^ 64 < 2 ^ 66) by reflexivity. nia.
    + assert (2 ^ d1 * 2 ^ (- e') <= 2 ^ 54 * 2 ^ (d2 - 1)) as Hle.
      { rewrite <- !Z.pow_add_r by lia. apply Z.pow_le_mono_r; lia. }
      assert (0 < 2 ^ (d2 - 1)) by (apply Z.pow_pos_nonneg; lia).
      assert (2 ^ 54 < 2 ^ 66) by reflexivity. nia.
  - rewrite He0 in *. change (- 0) with 0 in *. rewrite Z.pow_0_r in *.
    assert (2 ^ 64 < 2 ^ 66) by reflexivity. nia.
Qed.

(** On ints below [2^64] in magnitude and a divisor other than zero, Python's
    true division returns, and returns the rounded quotient. *)
Lemma int_true_div_returns a b :
  Z.abs a < 2 ^ 64 -> b <> 0 ->
  int_true_div a b = Ok (SFdiv prec emax (float_of_int a) (float_of_int b)).
Proof.
  intros Ha Hb. unfold int_true_div.
  destruct (Z.eqb_spec b 0) as [|_]; [done|].
  destruct (SFdiv prec emax (float_of_int a) (float_of_int b)) as [| s | |] eqn:Hq; try done.
  exfalso. revert Hq.
  destruct a as [| m1 | m1], b as [| m2 | m2]; cbn [float_of_int SFdiv]; try done;
    destruct (SFdiv_core_binary prec emax (Zpos m1) 0 (Zpos m2) 0) as [[q e] l] eqn:Hcore;
    destruct (SFdiv_core_binary_bounds m1 m2 ltac:(lia) q e l Hcore) as (Hq & He & Hd);
    apply binary_round_aux_finite; lia.
Qed.

(** ** The quotient of two ints is the nearest double *)

(** One shift keeps the record on the ratio, at twice the denominator. *)
Lemma shr_1_located mrs N D : located mrs N D -> located (shr_1 mrs) N (2 * D).
Proof.
  destruct mrs as [m r s]. unfold located. cbn [shr_m].
  intros (HD & Hm & [Hlo Hhi] & Hloc).
  assert (exists k b, m = 2 * k + b /\ 0 <= k /\ (b = 0 \/ b = 1) /\
                      shr_1 (Build_shr_record m r s) = Build_shr_record k (b =? 1) (r || s))
    as (k & b & -> & Hk & Hb & ->).
  { destruct m as [| [p | p |] | p]; try lia.
    - exists 0, 0. repeat split; auto; lia.
    - exists (Zpos p), 1. rewrite Pos2Z.inj_xI. repeat split; auto; lia.
    - exists (Zpos p), 0. rewrite Pos2Z.inj_xO. repeat split; auto; lia.
    - exists 0, 1. repeat split; auto; lia. }
  cbn [shr_m]. split; [lia|]. split; [done|].
  set (kD := k * D) in *.
  assert ((2 * k + b) * D = 2 * kD + b * D) as Hexp by (unfold kD; ring).
  assert (k * (2 * D) = 2 * kD) as Hexp' by (unfold kD; ring).
  assert ((k + 1) * (2 * D) = 2 * kD + 2 * D) as Hexp'' by (unfold kD; ring).
  rewrite Hexp in *. rewrite Hexp', Hexp''.
  replace ((2 * k + b + 1) * D) with (2 * kD + b * D + D) in Hhi by (unfold kD; ring).
  clearbody kD.
  destruct Hb as [-> | ->]; rewrite ?Z.mul_0_l, ?Z.mul_1_l, ?Z.add_0_r in *.
  - split; [lia|]. cbn [Z.eqb].
    revert Hloc.
    destruct (Z.eqb_spec (N - 2 * kD) 0) as [E | E].
    + destruct r, s; cbn; try discriminate. done.
    + intros Hloc. destruct (Z.compare_spec (2 * (N - 2 * kD)) (2 * D)); try lia.
      destruct r, s; cbn in *; try discriminate; done.
  - split; [lia|]. change (1 =? 1) with true.
    revert Hloc.
    destruct (Z.eqb_spec (N - (2 * kD + D)) 0) as [E | E];
      destruct (Z.eqb_spec (N - 2 * kD) 0) as [E' | E']; try lia.
    + destruct (Z.compare_spec (2 * (N - 2 * kD)) (2 * D)); try lia.
      destruct r, s; cbn; try discriminate; done.
    + destruct (Z.compare_spec (2 * (N - 2 * kD)) (2 * D)); try lia.
      destruct r, s; cbn; try discriminate; done.
Qed.

Lemma iter_shr_1_located n : forall mrs N D,
  located mrs N D -> located (SpecFloat.iter_pos shr_1 n mrs) N (D * 2 ^ Zpos n).
Proof.
  assert (forall mrs N D D', located mrs N D -> D = D' -> located mrs N D') as Hcast
    by (by intros ? ? ? ? ? <-).
  induction n as [n IH | n IH |]; intros mrs N D Hloc; cbn [SpecFloat.iter_pos].
  - apply shr_1_located in Hloc. apply IH in Hloc. apply IH in Hloc.
    eapply Hcast; [exact Hloc|].
    assert (2 ^ Zpos n~1 = 2 * (2 ^ Zpos n * 2 ^ Zpos n)) as ->; [|ring].
    rewrite <- Z.pow_add_r, <- Z.pow_succ_r by lia. f_equal. lia.
  - apply IH in Hloc. apply IH in Hloc.
    eapply Hcast; [exact Hloc|].
    assert (2 ^ Zpos n~0 = 2 ^ Zpos n * 2 ^ Zpos n) as ->; [|ring].
    rewrite <- Z.pow_add_r by lia. f_equal. lia.
  - apply shr_1_located in Hloc. eapply Hcast; [exact Hloc|]. rewrite Z.pow_1_r. ring.
Qed.

(** The location the division reports for a remainder [r] of a division
    by [b]. *)
Lemma new_location_remainder b r :
  0 < b -> 0 <= r < b ->
  new_location b r = (if r =? 0 then loc_Exact else loc_Inexact (2 * r ?= b)).
Proof.
  intros Hb Hr. unfold new_location, new_location_even, new_location_odd.
  destruct (Z.even b) eqn:Heven; cbv beta iota; [done|].
  destruct (Z.eqb_spec r 0) as [-> | Hne]; [done|].
  f_equal.
  assert (Z.odd b = true) as Hodd by (by rewrite <- Z.negb_even, Heven).
  apply Z.odd_spec in Hodd as [k ->].
  destruct (Z.compare_spec (2 * r + 1) (2 * k + 1)), (Z.compare_spec (2 * r) (2 * k + 1));
    try done; lia.
Qed.

Lemma located_of_division N b q r l :
  0 < b -> 0 <= q -> N = b * q + r -> 0 <= r < b -> l = new_location b r ->
  located (shr_record_of_loc q l) N b.
Proof.
  intros Hb Hq -> Hr ->. unfold located. rewrite shr_m_of_loc.
  split; [done|]. split; [done|]. split; [lia|].
  replace (b * q + r - q * b) with r by ring.
  rewrite (new_location_remainder b r Hb Hr).
  by destruct (r =? 0), (2 * r ?= b).
Qed.

(** Rounding to nearest, ties to even, moves the mantissa by at most a half. *)
Lemma round_nearest_even_nearest mrs N D :
  located mrs N D ->
  let m := round_nearest_even (shr_m mrs) (loc_of_shr_record mrs) in
  (2 * m - 1) * D <= 2 * N <= (2 * m + 1) * D /\ shr_m mrs <= m <= shr_m mrs + 1.
Proof.
  intros (HD & Hm & [Hlo Hhi] & Hloc). rewrite Hloc. clear Hloc.
  set (m0 := shr_m mrs) in *. set (mD := m0 * D) in *.
  replace ((m0 + 1) * D) with (mD + D) in Hhi by (unfold mD; ring).
  assert (forall m, m = m0 \/ m = m0 + 1 ->
            (m = m0 -> 2 * (N - mD) <= D) -> (m = m0 + 1 -> D <= 2 * (N - mD)) ->
            (2 * m - 1) * D <= 2 * N <= (2 * m + 1) * D /\ m0 <= m <= m0 + 1) as Hgen.
  { intros m [-> | ->] H1 H2.
    - specialize (H1 eq_refl).
      replace ((2 * m0 - 1) * D) with (2 * mD - D) by (unfold mD; ring).
      replace ((2 * m0 + 1) * D) with (2 * mD + D) by (unfold mD; ring). lia.
    - specialize (H2 eq_refl).
      replace ((2 * (m0 + 1) - 1) * D) with (2 * mD + D) by (unfold mD; ring).
      replace ((2 * (m0 + 1) + 1) * D) with (2 * mD + 3 * D) by (unfold mD; ring). lia. }
  cbv zeta.
  destruct (Z.eqb_spec (N - mD) 0) as [E | E]; cbn [round_nearest_even].
  - apply Hgen; [by left | lia | lia].
  - destruct (Z.compare_spec (2 * (N - mD)) D) as [E' | E' | E'].
    + destruct (Z.even m0); apply Hgen; auto; lia.
    + apply Hgen; [by left | lia | lia].
    + apply Hgen; [by right | lia | lia].
Qed.

Lemma Zdigits2_eq m k : 0 < k -> 2 ^ (k - 1) <= m < 2 ^ k -> Zdigits2 m = k.
Proof.
  intros Hk [Hlo Hhi].
  assert (0 < 2 ^ (k - 1)) by (apply Z.pow_pos_nonneg; lia).
  destruct m as [| p | p]; try lia. cbn [Zdigits2].
  pose proof (digits2_pos_bounds p) as [Hlo' Hhi'].
  set (d := Zpos (digits2_pos p)) in *.
  assert (0 < d) by (unfold d; lia).
  destruct (Z.lt_trichotomy d k) as [Hlt | [Heq | Hgt]]; [|done|].
  - assert (2 ^ d <= 2 ^ (k - 1)) by (apply Z.pow_le_mono_r; lia). lia.
  - assert (2 ^ k <= 2 ^ (d - 1)) by (apply Z.pow_le_mono_r; lia). lia.
Qed.

Lemma shr_located mrs e n N D :
  0 <= n -> located mrs N D ->
  located (fst (shr mrs e n)) N (D * 2 ^ n) /\ snd (shr mrs e n) = e + n.
Proof.
  intros Hn Hloc. destruct n as [| p | p]; [| |lia]; cbn [shr fst snd].
  - rewrite Z.pow_0_r, Z.mul_1_r, Z.add_0_r. done.
  - split; [|done]. by apply iter_shr_1_located.
Qed.

(** Cancelling the common power of two of a comparison. *)
Lemma pow2_cancel_le X Y u s :
  0 <= u -> 0 <= s -> X * 2 ^ u <= Y * 2 ^ s ->
  X * 2 ^ Z.max (u - s) 0 <= Y * 2 ^ Z.max (s - u) 0.
Proof.
  intros Hu Hs H. destruct (Z.le_ge_cases s u) as [Hle | Hle].
  - rewrite (Z.max_l (u - s) 0), (Z.max_r (s - u) 0), Z.pow_0_r, Z.mul_1_r by lia.
    replace u with (s + (u - s)) in H by lia. rewrite Z.pow_add_r in H by lia.
    assert (0 < 2 ^ s) by (apply Z.pow_pos_nonneg; lia). nia.
  - rewrite (Z.max_r (u - s) 0), (Z.max_l (s - u) 0), Z.pow_0_r, Z.mul_1_r by lia.
    replace s with (u + (s - u)) in H by lia. rewrite Z.pow_add_r in H by lia.
    assert (0 < 2 ^ u) by (apply Z.pow_pos_nonneg; lia). nia.
Qed.

Lemma pow2_cancel_ge X Y u s :
  0 <= u -> 0 <= s -> Y * 2 ^ s <= X * 2 ^ u ->
  Y * 2 ^ Z.max (s - u) 0 <= X * 2 ^ Z.max (u - s) 0.
Proof. intros Hu Hs H. by apply pow2_cancel_le. Qed.

Lemma fexp_unclamped e : - 1021 <= e -> fexp prec emax e = e - 53.
Proof. unfold fexp, SpecFloat.emin, prec, emax. lia. Qed.

(** The rounding step on a mantissa of at least 53 bits that is placed on a
    ratio [N / D]: the result is a normal double [m * 2^e], and its mantissa
    is within a half of the ratio scaled to the exponent. *)
Lemma binary_round_aux_nearest sx q e' l N D :
  2 ^ 52 <= q -> - 1000 <= e' -> Zdigits2 q + e' <= 900 ->
  located (shr_record_of_loc q l) N D ->
  exists m e u,
    binary_round_aux prec emax sx q e' l = S754_finite sx m e /\
    2 ^ 52 <= Zpos m < 2 ^ 53 /\ 0 <= u /\ e = e' + u /\
    (2 * Zpos m - 1) * D * 2 ^ u <= 2 * N /\
    2 * N <= (2 * Zpos m + 1) * D * 2 ^ u.
Proof.
  intros Hq He' Hdig Hloc.
  assert (0 < 2 ^ 52) as Hp52 by done.
  set (dq := Zdigits2 q) in *.
  assert (2 ^ (dq - 1) <= q < 2 ^ dq) as Hqd.
  { unfold dq. destruct q as [| p | p]; try lia. apply digits2_pos_bounds. }
  assert (53 <= dq) as Hdq.
  { destruct (Z_lt_le_dec dq 53) as [Hlt|]; [|done].
    assert (0 <= dq) by apply Zdigits2_nonneg.
    assert (2 ^ dq <= 2 ^ 52) by (apply Z.pow_le_mono_r; lia). lia. }
  unfold binary_round_aux, shr_fexp. fold dq.
  rewrite (fexp_unclamped (dq + e')) by lia.
  replace (dq + e' - 53 - e') with (dq - 53) by lia.
  destruct (shr_located (shr_record_of_loc q l) e' (dq - 53) N D ltac:(lia) Hloc)
    as [Hloc1 He1].
  destruct (shr (shr_record_of_loc q l) e' (dq - 53)) as [mrs1 e1].
  cbn [fst snd] in Hloc1, He1. subst e1.
  set (n1 := dq - 53) in *. set (P := 2 ^ n1) in *.
  assert (0 < P) as HP by (apply Z.pow_pos_nonneg; lia).
  assert (2 ^ (dq - 1) = 2 ^ 52 * P) as Hlow.
  { unfold P, n1. rewrite <- Z.pow_add_r by lia. f_equal. lia. }
  assert (2 ^ dq = 2 ^ 53 * P) as Hup.
  { unfold P, n1. rewrite <- Z.pow_add_r by lia. f_equal. lia. }
  assert (q * D <= N < (q + 1) * D /\ 0 < D) as [HqN HD].
  { destruct Hloc as (? & _ & Hb & _). rewrite shr_m_of_loc in Hb. done. }
  pose proof (round_nearest_even_nearest mrs1 N (D * P) Hloc1) as [Hnear Hm2].
  set (m2 := round_nearest_even (shr_m mrs1) (loc_of_shr_record mrs1)) in *.
  cbv zeta in Hnear, Hm2.
  destruct Hloc1 as (_ & Hm1 & Hb1 & _).
  set (m1 := shr_m mrs1) in *.
  assert (2 ^ 52 <= m1 < 2 ^ 53) as Hm1b.
  { change (2 ^ 53) with 9007199254740992 in *. change (2 ^ 52) with 4503599627370496 in *.
    rewrite Hlow, Hup in Hqd. nia. }
  destruct (Z_lt_le_dec m2 (2 ^ 53)) as [Hlt | Hge].
  - assert (Zdigits2 m2 = 53) as -> by (apply Zdigits2_eq; [lia|]; change (53 - 1) with 52; lia).
    rewrite (fexp_unclamped (53 + (e' + n1))) by (unfold n1; lia).
    replace (53 + (e' + n1) - 53 - (e' + n1)) with 0 by lia.
    cbn [shr]. rewrite shr_m_of_loc.
    destruct m2 as [| m | m] eqn:Em; try lia.
    destruct (Z.leb_spec (e' + n1) (emax - prec)) as [_ | Hbad];
      [|unfold emax, prec, n1 in Hbad; lia].
    exists m, (e' + n1), n1. split; [done|]. split; [lia|]. split; [unfold n1; lia|].
    split; [done|]. fold P. rewrite <- !Z.mul_assoc. lia.
  - assert (m2 = 2 ^ 53) as Em by lia. rewrite Em.
    change (Zdigits2 (2 ^ 53)) with 54.
    rewrite (fexp_unclamped (54 + (e' + n1))) by (unfold n1; lia).
    replace (54 + (e' + n1) - 53 - (e' + n1)) with 1 by lia.
    cbn.
    destruct (Z.leb_spec (e' + n1 + 1) (emax - prec)) as [_ | Hbad];
      [|unfold emax, prec, n1 in Hbad; lia].
    exists 4503599627370496%positive, (e' + n1 + 1), (n1 + 1).
    split; [done|]. split; [done|]. split; [unfold n1; lia|]. split; [lia|].
    rewrite Z.pow_add_r, Z.pow_1_r by (unfold n1; lia). fold P.
    rewrite Em in Hnear. change (2 ^ 53) with 9007199254740992 in Hnear.
    set (DP := D * P) in *.
    replace ((2 * 4503599627370496 - 1) * D * (P * 2)) with (9007199254740991 * 2 * DP)
      by (unfold DP; ring).
    replace ((2 * 4503599627370496 + 1) * D * (P * 2)) with (9007199254740993 * 2 * DP)
      by (unfold DP; ring).
    assert (0 < DP) by (unfold DP; nia). lia.
Qed.

(** The exact quotient that [SFdiv] computes for two ints: at least 53 bits,
    placed on the ratio of the ints scaled by a power of two. *)
Lemma SFdiv_core_binary_located (a b : positive) :
  Zpos a < 2 ^ 64 -> Zpos b <= 2 ^ 52 ->
  exists q e l,
    SFdiv_core_binary prec emax (Zpos a) 0 (Zpos b) 0 = (q, e, l) /\
    - 105 <= e <= 0 /\ 2 ^ 52 <= q /\ Zdigits2 q + e <= 66 /\
    located (shr_record_of_loc q l) (Zpos a * 2 ^ (- e)) (Zpos b).
Proof.
  intros Ha Hb.
  destruct (SFdiv_core_binary prec emax (Zpos a) 0 (Zpos b) 0) as [[q e] l] eqn:Hcore.
  destruct (SFdiv_core_binary_bounds a b Ha q e l Hcore) as (Hq & He & Hdig).
  exists q, e, l. split; [done|].
  revert Hcore. unfold SFdiv_core_binary.
  cbn [Zdigits2]. rewrite !Z.add_0_r, !Z.sub_0_r, Z.sub_0_l.
  pose proof (digits2_pos_bounds a) as [Hd1lo Hd1].
  pose proof (digits2_pos_bounds b) as [Hd2lo Hd2].
  set (d1 := Zpos (digits2_pos a)) in *. set (d2 := Zpos (digits2_pos b)) in *.
  assert (0 < d1) by (unfold d1; lia). assert (0 < d2) by (unfold d2; lia).
  assert (d2 <= 53) as Hd2le.
  { apply (Zdigits2_le (Zpos b) 53); [lia|]. change (2 ^ 53) with (2 * 2 ^ 52). lia. }
  assert (d1 <= 64) as Hd1le by (apply (Zdigits2_le (Zpos a) 64); lia).
  rewrite (fexp_unclamped (d1 - d2)) by lia.
  set (e0 := Z.min (d1 - d2 - 53) 0).
  set (m' := match - e0 with Zpos _ => Z.shiftl (Zpos a) (- e0) | 0 => Zpos a | Zneg _ => 0 end).
  assert (m' = Zpos a * 2 ^ (- e0)) as Hm'.
  { unfold m'. destruct (- e0) as [| p | p] eqn:Hs; [| |unfold e0 in Hs; lia].
    - rewrite Z.pow_0_r. lia.
    - rewrite Z.shiftl_mul_pow2 by lia. reflexivity. }
  clearbody m'.
  pose proof (Z_div_mod m' (Zpos b) ltac:(lia)) as Hdiv.
  destruct (Z.div_eucl m' (Zpos b)) as [q' r'].
  destruct Hdiv as [Heq Hr]. intros [= <- <- <-].
  split; [unfold e0; lia|].
  assert (2 ^ 52 <= q') as Hq52.
  { assert (2 ^ (52 + d2) <= 2 ^ (d1 - 1) * 2 ^ (- e0)) as Hpow.
    { rewrite <- Z.pow_add_r by (unfold e0; lia). apply Z.pow_le_mono_r; unfold e0; lia. }
    rewrite Z.pow_add_r in Hpow by lia.
    assert (0 < 2 ^ (- e0)) by (apply Z.pow_pos_nonneg; unfold e0; lia).
    assert (2 ^ 52 * 2 ^ d2 <= Zpos a * 2 ^ (- e0)) as Hbig by nia.
    rewrite <- Hm', Heq in Hbig.
    change (2 ^ 52) with 4503599627370496 in *. nia. }
  split; [done|]. split; [done|].
  rewrite <- Hm'. by apply (located_of_division m' (Zpos b) q' r'); try lia.
Qed.

(** The quotient of two positive ints, the dividend below [2^64] and the
    divisor at most [2^52], is a normal double whose mantissa is within a
    half of the exact ratio scaled to its exponent. *)
Lemma SFdiv_int_nearest (a b : positive) :
  Zpos a < 2 ^ 64 -> Zpos b <= 2 ^ 52 ->
  exists m e,
    SFdiv prec emax (S754_finite false a 0) (S754_finite false b 0) = S754_finite false m e /\
    2 ^ 52 <= Zpos m < 2 ^ 53 /\
    (2 * Zpos m - 1) * Zpos b * 2 ^ Z.max e 0 <= 2 * Zpos a * 2 ^ Z.max (- e) 0 /\
    2 * Zpos a * 2 ^ Z.max (- e) 0 <= (2 * Zpos m + 1) * Zpos b * 2 ^ Z.max e 0.
Proof.
  intros Ha Hb. cbn [SFdiv xorb].
  destruct (SFdiv_core_binary_located a b Ha Hb) as (q & e' & l & -> & He' & Hq & Hdig & Hloc).
  destruct (binary_round_aux_nearest false q e' l _ _ Hq ltac:(lia) ltac:(lia) Hloc)
    as (m & e & u & -> & Hm & Hu & -> & Hlo & Hhi).
  exists m, (e' + u). split; [done|]. split; [done|].
  replace (e' + u) with (u - - e') by lia.
  replace (- (u - - e')) with (- e' - u) by lia.
  split.
  - apply pow2_cancel_le; [lia|lia|]. lia.
  - apply pow2_cancel_ge; [lia|lia|]. lia.
Qed.

(** A quotient that is not positive is never above a positive double. *)
Lemma float_quotient_nonpos_not_gt (a b : Z) (M : positive) (ec : Z) :
  a <= 0 -> 0 < b -> float_gt (float_quotient a b) (S754_finite false M ec) = false.
Proof.
  intros Ha Hb. unfold float_gt, SFltb, float_quotient.
  destruct a as [| pa | pa], b as [| pb | pb]; try lia; [done|].
  cbn [float_of_int SFdiv xorb].
  destruct (SFdiv_core_binary prec emax (Zpos pa) 0 (Zpos pb) 0) as [[q e] l].
  unfold binary_round_aux.
  destruct (shr_fexp prec emax q e l) as [mrs e1].
  destruct (shr_fexp prec emax _ e1 loc_Exact) as [mrs' e2].
  destruct (shr_m mrs') as [| m | m]; [done| |done].
  by destruct (e2 <=? emax - prec).
Qed.

(** Comparing a normal double [m * 2^e] that is nearest to [a / b] with a
    double of exponent [- k], in three cases: a larger exponent, a smaller
    exponent, the same exponent. *)

(** With [e >= - k], the ratio is at least [(2^53 - 1) / 2^(k+1)]. *)
Lemma nearest_larger_exponent (a b m e k : Z) :
  0 < a -> 0 < b -> 2 ^ 52 <= m < 2 ^ 53 ->
  (2 * m - 1) * b * 2 ^ Z.max e 0 <= 2 * a * 2 ^ Z.max (- e) 0 ->
  0 <= k -> - k <= e -> (2 ^ 53 - 1) * b <= 2 * a * 2 ^ k.
Proof.
  intros a_pos b_pos m_normal nearest_lo Hk He.
  assert ((2 ^ 53 - 1) * b <= (2 * m - 1) * b) as Hmb
    by (apply Z.mul_le_mono_nonneg_r; lia).
  destruct (Z.le_ge_cases e 0) as [He0 | He0].
  - rewrite (Z.max_r e 0), (Z.max_l (- e) 0), Z.pow_0_r, Z.mul_1_r in nearest_lo by lia.
    assert (2 ^ (- e) <= 2 ^ k) as HX by (apply Z.pow_le_mono_r; lia).
    assert (2 * a * 2 ^ (- e) <= 2 * a * 2 ^ k) by (apply Z.mul_le_mono_nonneg_l; lia).
    lia.
  - rewrite (Z.max_l e 0), (Z.max_r (- e) 0), Z.pow_0_r, Z.mul_1_r in nearest_lo by lia.
    assert (0 < 2 ^ e) as HX by (apply Z.pow_pos_nonneg; lia).
    assert (0 < 2 ^ k) as HK by (apply Z.pow_pos_nonneg; lia).
    assert ((2 * m - 1) * b * 1 <= (2 * m - 1) * b * 2 ^ e)
      by (apply Z.mul_le_mono_nonneg_l; [apply Z.mul_nonneg_nonneg|]; lia).
    assert (2 * a * 1 <= 2 * a * 2 ^ k) by (apply Z.mul_le_mono_nonneg_l; lia).
    lia.
Qed.

(** With [e <= - k], the ratio is at most [2^53 / 2^(k+1)]. *)
Lemma nearest_smaller_exponent (a b m e k : Z) :
  0 < a -> 0 < b -> 2 ^ 52 <= m < 2 ^ 53 ->
  2 * a * 2 ^ Z.max (- e) 0 <= (2 * m + 1) * b * 2 ^ Z.max e 0 ->
  0 <= k -> e <= - k -> 2 * a * 2 ^ k <= 2 ^ 54 * b.
Proof.
  intros a_pos b_pos m_normal nearest_hi Hk He.
  rewrite (Z.max_r e 0), (Z.max_l (- e) 0), Z.pow_0_r, Z.mul_1_r in nearest_hi by lia.
  assert ((2 * m + 1) * b <= 2 ^ 54 * b) as Hmb.
  { apply Z.mul_le_mono_nonneg_r; [lia|]. change (2 ^ 54) with (2 * 2 ^ 53). lia. }
  assert (2 ^ k <= 2 ^ (- e)) as HX by (apply Z.pow_le_mono_r; lia).
  assert (2 * a * 2 ^ k <= 2 * a * 2 ^ (- e)) by (apply Z.mul_le_mono_nonneg_l; lia).
  lia.
Qed.

(** With [e = - k], the ratio is within half a unit of [m]. *)
Lemma nearest_same_exponent (a b m e k M : Z) :
  0 < b ->
  (2 * m - 1) * b * 2 ^ Z.max e 0 <= 2 * a * 2 ^ Z.max (- e) 0 ->
  2 * a * 2 ^ Z.max (- e) 0 <= (2 * m + 1) * b * 2 ^ Z.max e 0 ->
  0 <= k -> e = - k ->
  (M + 1 <= m -> (2 * M + 1) * b <= 2 * a * 2 ^ k) /\
  (m <= M -> 2 * a * 2 ^ k <= (2 * M + 1) * b).
Proof.
  intros b_pos nearest_lo nearest_hi Hk ->.
  rewrite (Z.max_r (- k) 0), (Z.max_l (- - k) 0), Z.pow_0_r, Z.mul_1_r, Z.opp_involutive
    in nearest_lo, nearest_hi by lia.
  split; intros HM.
  - assert ((2 * M + 1) * b <= (2 * m - 1) * b) by (apply Z.mul_le_mono_nonneg_r; lia). lia.
  - assert ((2 * m + 1) * b <= (2 * M + 1) * b) by (apply Z.mul_le_mono_nonneg_r; lia). lia.
Qed.

Lemma float_gt_finite (M m : positive) (ec e : Z) :
  float_gt (S754_finite false m e) (S754_finite false M ec) = true
  <-> ec < e \/ (e = ec /\ Zpos M < Zpos m).
Proof.
  unfold float_gt, SFltb. cbn [SFcompare].
  change (Pos.compare_cont Eq M m) with (Pos.compare M m).
  rewrite Pos2Z.inj_compare.
  destruct (Z.compare_spec ec e), (Z.compare_spec (Zpos M) (Zpos m));
    split; try discriminate; try reflexivity; lia.
Qed.

(** On sizes up to [2^52], the double comparison of a quotient of ints with
    the literal [0.05] is the exact comparison of the ratio with [1/20]. *)
Lemma float_quotient_gt_0_05 (a b : Z) :
  Z.abs a < 2 ^ 64 -> 0 < b <= 2 ^ 52 ->
  float_gt (float_quotient a b) lit_0_05 = true <-> b < 20 * a.
Proof.
  intros Ha Hb.
  destruct (Z_le_gt_dec a 0) as [Hneg | Hpos].
  { unfold lit_0_05. rewrite float_quotient_nonpos_not_gt by lia. split; [done | lia]. }
  destruct a as [| pa | pa], b as [| pb | pb]; try lia.
  destruct (SFdiv_int_nearest pa pb ltac:(lia) ltac:(lia)) as (m & e & Heq & Hm & Hlo & Hhi).
  unfold float_quotient, float_of_int. rewrite Heq. unfold lit_0_05.
  rewrite float_gt_finite.
  pose proof (nearest_larger_exponent (Zpos pa) (Zpos pb) (Zpos m) e 56 ltac:(lia) ltac:(lia) Hm Hlo ltac:(lia)) as Hlarger.
  pose proof (nearest_smaller_exponent (Zpos pa) (Zpos pb) (Zpos m) e 58 ltac:(lia) ltac:(lia) Hm Hhi ltac:(lia)) as Hsmaller.
  pose proof (nearest_same_exponent (Zpos pa) (Zpos pb) (Zpos m) e 57 7205759403792794 ltac:(lia) Hlo Hhi ltac:(lia))
    as Hsame.
  change (2 ^ 52) with 4503599627370496 in *. change (2 ^ 53) with 9007199254740992 in *.
  change (2 ^ 54) with 18014398509481984 in *. change (2 ^ 56) with 72057594037927936 in *.
  change (2 ^ 57) with 144115188075855872 in *. change (2 ^ 58) with 288230376151711744 in *.
  clear Heq Hlo Hhi Ha.
  set (A := Zpos pa) in *. set (B := Zpos pb) in *. set (m' := Zpos m) in *.
  assert (0 < A) by (unfold A; apply Pos2Z.is_pos). clearbody A B m'.
  destruct (Z.lt_trichotomy e (-57)) as [He | [He | He]].
  - specialize (Hsmaller ltac:(lia)). clear Hlarger Hsame. lia.
  - specialize (Hsame He) as [H1 H2]. clear Hlarger Hsmaller.
    destruct (Z_lt_le_dec 7205759403792794 m') as [Hm' | Hm'].
    + specialize (H1 ltac:(lia)). clear H2. lia.
    + specialize (H2 ltac:(lia)). clear H1. lia.
  - specialize (Hlarger ltac:(lia)). clear Hsmaller Hsame. lia.
Qed.

(** The same for the literal [0.2] and the ratio [1/5]. *)
Lemma float_quotient_gt_0_2 (a b : Z) :
  Z.abs a < 2 ^ 64 -> 0 < b <= 2 ^ 52 ->
  float_gt (float_quotient a b) lit_0_2 = true <-> b < 5 * a.
Proof.
  intros Ha Hb.
  destruct (Z_le_gt_dec a 0) as [Hneg | Hpos].
  { unfold lit_0_2. rewrite float_quotient_nonpos_not_gt by lia. split; [done | lia]. }
  destruct a as [| pa | pa], b as [| pb | pb]; try lia.
  destruct (SFdiv_int_nearest pa pb ltac:(lia) ltac:(lia)) as (m & e & Heq & Hm & Hlo & Hhi).
  unfold float_quotient, float_of_int. rewrite Heq. unfold lit_0_2.
  rewrite float_gt_finite.
  pose proof (nearest_larger_exponent (Zpos pa) (Zpos pb) (Zpos m) e 54 ltac:(lia) ltac:(lia) Hm Hlo ltac:(lia)) as Hlarger.
  pose proof (nearest_smaller_exponent (Zpos pa) (Zpos pb) (Zpos m) e 56 ltac:(lia) ltac:(lia) Hm Hhi ltac:(lia)) as Hsmaller.
  pose proof (nearest_same_exponent (Zpos pa) (Zpos pb) (Zpos m) e 55 7205759403792794 ltac:(lia) Hlo Hhi ltac:(lia))
    as Hsame.
  change (2 ^ 52) with 4503599627370496 in *. change (2 ^ 53) with 9007199254740992 in *.
  change (2 ^ 54) with 18014398509481984 in *. change (2 ^ 55) with 36028797018963968 in *.
  change (2 ^ 56) with 72057594037927936 in *.
  clear Heq Hlo Hhi Ha.
  set (A := Zpos pa) in *. set (B := Zpos pb) in *. set (m' := Zpos m) in *.
  assert (0 < A) by (unfold A; apply Pos2Z.is_pos). clearbody A B m'.
  destruct (Z.lt_trichotomy e (-55)) as [He | [He | He]].
  - specialize (Hsmaller ltac:(lia)). clear Hlarger Hsame. lia.
  - specialize (Hsame He) as [H1 H2]. clear Hlarger Hsmaller.
    destruct (Z_lt_le_dec 7205759403792794 m') as [Hm' | Hm'].
    + specialize (H1 ltac:(lia)). clear H2. lia.
    + specialize (H2 ltac:(lia)). clear H1. lia.
  - specialize (Hlarger ltac:(lia)). clear Hsmaller Hsame. lia.
Qed.

(** On a well-formed double the comparison with the literal [0.7] is the
    exact comparison of its value with [7/10]. *)
Lemma float_gt_0_7_exact (s : float) :
  valid_binary prec emax s = true ->
  float_gt s lit_0_7 = true <-> exceeds s 7 10.
Proof.
  destruct s as [sg | [] | | [] m e]; cbn [valid_binary exceeds]; try done.
  intros Hvalid. unfold lit_0_7. rewrite float_gt_finite.
  unfold bounded, canonical_mantissa in Hvalid.
  apply andb_prop in Hvalid as [Hcanon Hmax].
  apply Z.eqb_eq in Hcanon. clear Hmax.
  pose proof (digits2_pos_bounds m) as [Hlo Hhi].
  set (d := Zpos (digits2_pos m)) in *.
  assert (0 < d) as Hd by (unfold d; lia).
  unfold fexp, SpecFloat.emin, prec, emax in Hcanon.
  destruct (Z.lt_trichotomy e (-53)) as [He | [-> | He]].
  - assert (d <= 53) as Hd53 by lia.
    assert (2 ^ d <= 2 ^ 53) as Hpow by (apply Z.pow_le_mono_r; lia).
    assert (2 ^ 54 <= 2 ^ (- e)) as HX by (apply Z.pow_le_mono_r; lia).
    rewrite (Z.max_l (- e) 0), (Z.max_r e 0), Z.pow_0_r, Z.mul_1_r by lia.
    change (2 ^ 53) with 9007199254740992 in *. change (2 ^ 54) with 18014398509481984 in *.
    set (X := 2 ^ (- e)) in *. clearbody X. split; [lia|]. intros Hex. exfalso.
    clear Hcanon Hlo Hd53. lia.
  - change (Z.max (- -53) 0) with 53. change (Z.max (-53) 0) with 0.
    change (2 ^ 53) with 9007199254740992. rewrite Z.pow_0_r, Z.mul_1_r.
    clear. split; [intros [H | [_ H]]; lia | intros H; right; split; [done | lia]].
  - assert (d = 53) as Hd53 by lia. rewrite Hd53 in Hlo. change (53 - 1) with 52 in Hlo.
    split; [intros _ | by left].
    destruct (Z.le_ge_cases e 0) as [He0 | He0].
    + rewrite (Z.max_l (- e) 0), (Z.max_r e 0), Z.pow_0_r, Z.mul_1_r by lia.
      assert (2 ^ (- e) <= 2 ^ 52) as HX by (apply Z.pow_le_mono_r; lia).
      change (2 ^ 52) with 4503599627370496 in *.
      set (X := 2 ^ (- e)) in *. clearbody X. clear Hcanon Hhi Hd53. lia.
    + rewrite (Z.max_r (- e) 0), (Z.max_l e 0), Z.pow_0_r, Z.mul_1_r by lia.
      assert (0 < 2 ^ e) as HX by (apply Z.pow_pos_nonneg; lia).
      change (2 ^ 52) with 4503599627370496 in *.
      assert (10 * Zpos m * 1 <= 10 * Zpos m * 2 ^ e)
        by (apply Z.mul_le_mono_nonneg_l; lia).
      clear Hcanon Hhi Hd53. lia.
Qed.

(** ** The order of floats *)

Ltac compare_cases :=
  repeat match goal with
    | H : context [Pos.compare_cont Eq ?a ?b] |- _ =>
        change (Pos.compare_cont Eq a b) with (Pos.compare a b) in H
    | |- context [Pos.compare_cont Eq ?a ?b] =>
        change (Pos.compare_cont Eq a b) with (Pos.compare a b)
    end;
  repeat match goal with
    | H : context [Z.compare ?a ?b] |- _ => destruct (Z.compare_spec a b); cbn in H
    | |- context [Z.compare ?a ?b] => destruct (Z.compare_spec a b); cbn
    | H : context [Pos.compare ?a ?b] |- _ => destruct (Pos.compare_spec a b); cbn in H
    | |- context [Pos.compare ?a ?b] => destruct (Pos.compare_spec a b); cbn
    end;
  try congruence; try lia.

Lemma SFcompare_antisym x y c :
  SFcompare x y = Some c -> SFcompare y x = Some (CompOpp c).
Proof.
  destruct x as [[] | [] | | [] m1 e1], y as [[] | [] | | [] m2 e2]; cbn;
    intros [= <-]; try reflexivity; compare_cases.
Qed.


(** [x <= y] excludes [x > y]. *)
Lemma float_le_not_gt x y : float_le x y = true -> float_gt x y = false.
Proof.
  unfold float_le, float_gt, SFleb, SFltb.
  destruct (SFcompare x y) as [c|] eqn:H; [|done].
  rewrite (SFcompare_antisym _ _ _ H). by destruct c.
Qed.


(** ** The person-count filter *)

Lemma box_extent_bound (b : box) :
  pixel_box b ->
  Z.abs (box_width b * box_height b) < 2 ^ 64 /\ Z.abs (box_height b) < 2 ^ 64.
Proof.
  unfold pixel_box, pixel_coordinate, box_width, box_height.
  change (2 ^ 31) with 2147483648. change (2 ^ 64) with 18446744073709551616.
  intros (? & ? & ? & ?). split; [nia|lia].
Qed.

Section Filter.

Variable img : image.
Hypothesis width_pos : 0 < img_width img.
Hypothesis height_pos : 0 < img_height img.

(** One turn of the loop on an image that has pixels: no exception, and the
    counter moves by one exactly on a valid detection. *)
Lemma count_detection_valid (n : Z) (d : detection) :
  pixel_box (det_box d) ->
  count_detection img n d = (Ok (if valid_person img d then n + 1 else n), []).
Proof.
  intros Hbox. destruct (box_extent_bound _ Hbox) as [Harea Hheight].
  unfold count_detection, valid_person, relative_area, relative_height, float_quotient.
  unfold box_width, box_height in *.
  destruct (str_in "person" (lower (label d))); [|reflexivity].
  rewrite !int_true_div_returns by (try assumption; nia).
  cbn [lift bind andb].
  by destruct (float_gt (score d) lit_0_7 && _ && _).
Qed.

Lemma for_each_count_detection (dets : list detection) : forall n,
  Forall (fun d => pixel_box (det_box d)) dets ->
  for_each dets n (count_detection img)
  = (Ok (n + Z.of_nat (length (List.filter (valid_person img) dets))), []).
Proof.
  induction dets as [| d dets IH]; intros n Hall; cbn [for_each List.filter].
  - unfold ret. do 2 f_equal. cbn. lia.
  - inversion Hall as [| ? ? Hd Hrest]; subst.
    rewrite (count_detection_valid n d Hd). cbn [bind].
    rewrite IH by assumption. cbn [app]. do 2 f_equal.
    destruct (valid_person img d); cbn [length]; lia.
Qed.

End Filter.

(** ** Strings *)

Lemma startswith_app (s p : string) :
  startswith s p = true <-> exists rest, s = p +:+ rest.
Proof.
  revert s. induction p as [| a p IH]; intros s; cbn.
  - split; [by exists s | done].
  - destruct s as [| b s].
    + split; [done | intros [rest H]; cbn in H; done].
    + destruct (Ascii.eqb_spec a b) as [-> | Hne].
      * rewrite IH. split.
        -- intros [rest ->]. by exists rest.
        -- intros [rest H]. cbn in H. injection H as ->. by exists rest.
      * split; [done | intros [rest H]; cbn in H; injection H; congruence].
Qed.

Lemma str_in_app (needle hay : string) :
  str_in needle hay = true <-> exists pre post, hay = pre +:+ needle +:+ post.
Proof.
  induction hay as [| c hay IH]; cbn.
  - rewrite orb_false_r, startswith_app. split.
    + intros [rest H]. by exists "", rest.
    + intros ([| ? pre] & post & H); [by exists post | cbn in H; done].
  - rewrite orb_true_iff, startswith_app, IH. split.
    + intros [[rest H] | (pre & post & ->)].
      * by exists "", rest.
      * by exists (String c pre), post.
    + intros ([| c' pre] & post & H).
      * left. by exists post.
      * right. cbn in H. injection H as -> ->. by exists pre, post.
Qed.

Lemma lower_app (a b : string) : lower (a +:+ b) = lower a +:+ lower b.
Proof. induction a as [| c a IH]; simpl; [done | by rewrite IH]. Qed.

(** A split of [lower s] is the image of a split of [s]. *)
Lemma lower_app_inv (s a' b' : string) :
  lower s = a' +:+ b' ->
  exists a b, s = a +:+ b /\ lower a = a' /\ lower b = b'.
Proof.
  revert s. induction a' as [| c a' IH]; intros s H; cbn in H.
  - by exists "", s.
  - destruct s as [| c0 s]; [done|]. cbn in H. injection H as Hc Hs.
    destruct (IH s Hs) as (a & b & -> & <- & <-).
    exists (String c0 a), b. cbn. by rewrite Hc.
Qed.

(** The label test of the filter is the case-blind containment of the
    specification. *)
Lemma denotes_person_str_in (l : string) :
  str_in "person" (lower l) = true <-> denotes_person l.
Proof.
  unfold denotes_person. rewrite str_in_app. split.
  - intros (pre' & post' & H).
    destruct (lower_app_inv _ _ _ H) as (pre & rest & -> & _ & Hrest).
    destruct (lower_app_inv _ _ _ Hrest) as (mid & post & -> & Hmid & _).
    by exists pre, mid, post.
  - intros (pre & mid & post & -> & Hmid).
    exists (lower pre), (lower post). by rewrite !lower_app, Hmid.
Qed.

(** The loop of the filter never lowers the counter and leaves no trace,
    also when it is left by an exception. *)
Lemma for_each_count_detection_grows (img : image) (dets : list detection) : forall n,
  snd (for_each dets n (count_detection img)) = [] /\
  forall n', fst (for_each dets n (count_detection img)) = Ok n' -> n <= n'.
Proof.
  induction dets as [| d dets IH]; intros n; cbn [for_each].
  - split; [done|]. intros n' [= <-]. lia.
  - assert (exists r, count_detection img n d = (r, []) /\
                      forall m, r = Ok m -> n <= m) as (r & -> & Hr).
    { unfold count_detection.
      destruct (str_in "person" (lower (label d))); [|eexists; split; [done|]; intros m [= <-]; lia].
      destruct (int_true_div _ (img_width img * img_height img)); cbn;
        [|eexists; split; [done|]; done].
      destruct (int_true_div _ (img_height img)); cbn;
        [|eexists; split; [done|]; done].
      destruct (_ && _ && _); eexists; (split; [done|]); intros m [= <-]; lia. }
    destruct r as [m | e]; cbn [bind].
    + destruct (IH m) as [Ht Hn].
      destruct (for_each dets m (count_detection img)) as [r' t'].
      cbn in *. subst t'. split; [done|].
      intros n' ->. specialize (Hr m eq_refl). specialize (Hn n' eq_refl). lia.
    + split; [done|]. done.
Qed.

(** The filter always returns a count, the count is not negative, and its
    trace is the detector call, followed by a log record when it failed. *)
Lemma count_people_in_image_returns (E : env) (img : image) :
  exists n t, count_people_in_image E img = (Ok n, t) /\ 0 <= n /\
              (t = [CallDetector img] \/ exists msg, t = [CallDetector img; LogError msg]).
Proof.
  unfold count_people_in_image.
  destruct (person_detector E img) as [dets | e]; cbn.
  - destruct (for_each_count_detection_grows img dets 0) as [Ht Hn].
    destruct (for_each dets 0 (count_detection img)) as [[n | e] t]; cbn in *; subst t.
    + exists n, [CallDetector img]. split; [done|]. split; [by apply Hn | by left].
    + eexists 1, _. split; [done|]. split; [lia | right; by eexists].
  - eexists 1, _. split; [done|]. split; [lia | right; by eexists].
Qed.

(** On an image of at most [2^52] pixels, the validity test on doubles is
    the test on exact numbers. *)
Lemma valid_person_exact (img : image) (d : detection) :
  0 < img_width img -> 0 < img_height img ->
  img_width img * img_height img <= 2 ^ 52 ->
  pixel_box (det_box d) -> valid_binary prec emax (score d) = true ->
  valid_person img d = true <->
  denotes_person (label d)
  /\ exceeds (score d) 7 10
  /\ img_width img * img_height img
     < 20 * (box_width (det_box d) * box_height (det_box d))
  /\ img_height img < 5 * box_height (det_box d).
Proof.
  intros Hw Hh Harea Hbox Hscore.
  destruct (box_extent_bound _ Hbox) as [Ha Hb].
  assert (img_height img <= 2 ^ 52) as Hh52.
  { change (2 ^ 52) with 4503599627370496 in *. nia. }
  unfold valid_person. rewrite !andb_true_iff.
  rewrite denotes_person_str_in, (float_gt_0_7_exact _ Hscore).
  unfold relative_area, relative_height.
  rewrite float_quotient_gt_0_05 by (try assumption; lia).
  rewrite float_quotient_gt_0_2 by (try assumption; lia).
  tauto.
Qed.

(** C1. Over an image that has pixels, the filter returns the number of
    detections that are valid in the sense of the specification: a detection
    moves the counter by one iff its label denotes a person, its confidence
    is above 0.7, its relative area above 0.05 and its relative height above
    0.2; a detection with confidence <= 0.7, relative area <= 0.05 or
    relative height <= 0.2 leaves the counter as it is.  The comparisons are
    those of the program, on doubles; on an image of at most [2^52] pixels
    they are the comparisons of the exact score with 7/10, of the exact area
    ratio with 1/20 and of the exact height ratio with 1/5. *)
Theorem count_people_counts_valid_detections
    (E : env) (img : image) (dets : list detection) :
  0 < img_width img -> 0 < img_height img ->
  person_detector E img = Ok dets ->
  Forall (fun d => pixel_box (det_box d)) dets ->
  count_people_in_image E img
    = (Ok (Z.of_nat (length (List.filter (valid_person img) dets))), [CallDetector img])
  /\ (forall n d, pixel_box (det_box d) ->
        count_detection img n d = (Ok (n + 1), []) <->
        denotes_person (label d)
        /\ float_gt (score d) lit_0_7 = true
        /\ float_gt (relative_area img d) lit_0_05 = true
        /\ float_gt (relative_height img d) lit_0_2 = true)
  /\ (forall n d, pixel_box (det_box d) ->
        float_le (score d) lit_0_7 = true
        \/ float_le (relative_area img d) lit_0_05 = true
        \/ float_le (relative_height img d) lit_0_2 = true ->
        count_detection img n d = (Ok n, []))
  /\ (img_width img * img_height img <= 2 ^ 52 ->
      forall n d, pixel_box (det_box d) -> valid_binary prec emax (score d) = true ->
        count_detection img n d = (Ok (n + 1), []) <->
        denotes_person (label d)
        /\ exceeds (score d) 7 10
        /\ img_width img * img_height img
           < 20 * (box_width (det_box d) * box_height (det_box d))
        /\ img_height img < 5 * box_height (det_box d)).
Proof.
  intros Hw Hh Hdet Hall. split; [|split; [|split]].
  - unfold count_people_in_image. rewrite Hdet. cbn [call bind].
    rewrite (for_each_count_detection img Hw Hh dets 0 Hall). reflexivity.
  - intros n d Hbox. rewrite (count_detection_valid img Hw Hh n d Hbox).
    rewrite <- denotes_person_str_in. unfold valid_person.
    destruct (str_in "person" (lower (label d))), (float_gt (score d) lit_0_7),
      (float_gt (relative_area img d) lit_0_05),
      (float_gt (relative_height img d) lit_0_2); cbn [andb];
      split; try done; try (intros [= H]; lia); intros (? & ? & ? & ?); done.
  - intros n d Hbox Hle. rewrite (count_detection_valid img Hw Hh n d Hbox).
    unfold valid_person.
    destruct Hle as [H | [H | H]]; apply float_le_not_gt in H; rewrite H;
      by rewrite ?andb_false_r.
  - intros Harea n d Hbox Hscore.
    rewrite <- (valid_person_exact img d Hw Hh Harea Hbox Hscore).
    rewrite (count_detection_valid img Hw Hh n d Hbox).
    destruct (valid_person img d); split; try done. intros [= H]. lia.
Qed.

(** C2. When the detector call raises, the filter does not raise: it returns
    exactly 1 and writes the failure to the error log. *)
Theorem detector_failure_counts_one (E : env) (img : image) (e : exn) :
  person_detector E img = Raise e ->
  count_people_in_image E img
    = (Ok 1, [CallDetector img; LogError ("Error in person detection: " +:+ str_exn e)]).
Proof.
  intros Hdet. unfold count_people_in_image. rewrite Hdet. reflexivity.
Qed.


(** ** The batch loop *)

Ltac mstep :=
  cbn [bind lift call ret raise try_except logger_error fst snd app negb].

(** One turn of the batch loop appends exactly one entry, tagged with the
    file's name, whatever the list was and whatever failed on the way. *)
Lemma batch_step_entry (E : env) (file : upload_file) :
  exists entry,
    entry !! "filename" = Some (value_of_name (filename file)) /\
    forall results,
      batch_step E results file = (Ok (results ++ [VDict entry]), item_trace E file).
Proof.
  unfold item_trace, batch_step, batch_item, content_type_is_image.
  destruct (content_type file) as [ct|]; mstep;
    [|eexists; split; [|intros results; reflexivity]; by simplify_map_eq].
  destruct (startswith ct "image/"); mstep;
    [|eexists; split; [|intros results; reflexivity]; by simplify_map_eq].
  destruct (file_read file) as [data|]; mstep;
    [|eexists; split; [|intros results; reflexivity]; by simplify_map_eq].
  destruct (image_open E data) as [img|]; mstep;
    [|eexists; split; [|intros results; reflexivity]; by simplify_map_eq].
  destruct (count_people_in_image_returns E img) as (n & t & -> & _ & _); mstep.
  destruct (n =? 1); mstep;
    [|eexists; split; [|intros results; reflexivity]; by simplify_map_eq].
  destruct (classifier E img) as [probs|]; mstep;
    [|eexists; split; [|intros results; reflexivity]; by simplify_map_eq].
  destruct (tensor_argmax probs) as [i|]; mstep;
    [|eexists; split; [|intros results; reflexivity]; by simplify_map_eq].
  destruct (tensor_max probs) as [conf|]; mstep;
    [|eexists; split; [|intros results; reflexivity]; by simplify_map_eq].
  destruct (dict_getitem (id2label E) i) as [lbl|]; mstep;
    eexists; (split; [|intros results; reflexivity]); by simplify_map_eq.
Qed.

(** The loop over the files: the entries of the files, in their order, after
    what the list held, and the traces of the files one after the other. *)
Lemma for_each_batch_step (E : env) (files : list upload_file) : forall acc,
  exists entries,
    for_each files acc (batch_step E)
      = (Ok (acc ++ (VDict <$> entries)), mjoin (item_trace E <$> files)) /\
    Forall2 (fun file entry =>
               entry !! "filename" = Some (value_of_name (filename file)) /\
               forall results,
                 batch_step E results file
                   = (Ok (results ++ [VDict entry]), item_trace E file))
            files entries.
Proof.
  induction files as [| file files IH]; intros acc; cbn [for_each].
  - exists []. split; [|constructor]. unfold ret. cbn. by rewrite app_nil_r.
  - destruct (batch_step_entry E file) as (entry & Hname & Hstep).
    destruct (IH (acc ++ [VDict entry])) as (entries & Hloop & Hall).
    exists (entry :: entries). split; [|by constructor].
    rewrite Hstep. cbn [bind]. rewrite Hloop. cbn [fmap list_fmap mjoin list_join].
    by rewrite <- app_assoc.
Qed.

Lemma predict_batch_within_limit (E : env) (files : list upload_file) :
  (length files <= 10)%nat ->
  exists entries,
    predict_batch E files
      = (Ok (VDict {[ "results" := VList (VDict <$> entries) ]}),
         mjoin (item_trace E <$> files)) /\
    Forall2 (fun file entry =>
               entry !! "filename" = Some (value_of_name (filename file)) /\
               forall results,
                 batch_step E results file
                   = (Ok (results ++ [VDict entry]), item_trace E file))
            files entries.
Proof.
  intros Hlen. unfold predict_batch.
  destruct (Z.gtb_spec (Z.of_nat (length files)) 10) as [Hgt|_]; [lia|].
  destruct (for_each_batch_step E files []) as (entries & Hloop & Hall).
  exists entries. split; [|done].
  rewrite Hloop. cbn [bind ret app]. by rewrite app_nil_r.
Qed.

Lemma reaches_count_unique (E : env) (file : upload_file) img n img' n' :
  reaches_count E file img n -> reaches_count E file img' n' -> img = img' /\ n = n'.
Proof.
  intros (ct & data & _ & _ & Hr & Ho & Hc) (ct' & data' & _ & _ & Hr' & Ho' & Hc').
  rewrite Hr in Hr'. injection Hr' as <-. rewrite Ho in Ho'. injection Ho' as <-.
  rewrite Hc in Hc'. by injection Hc' as <-.
Qed.

(** An item whose count is not one gets the per-item error entry. *)
Lemma batch_step_other_count (E : env) (file : upload_file) img n results :
  reaches_count E file img n -> n <> 1 ->
  fst (batch_step E results file)
    = Ok (results ++
            [VDict {[ "filename" := value_of_name (filename file);
                      "error" := VStr ("Expected 1 person, found " +:+ pretty n);
                      "person_count" := VInt n;
                      "prediction" := VNone;
                      "confidence" := VFloat lit_0_0 ]}]).
Proof.
  intros (ct & data & Hct & Hsw & Hr & Ho & Hc) Hn.
  unfold batch_step, batch_item, content_type_is_image.
  rewrite Hct. mstep. rewrite Hsw. mstep. rewrite Hr. mstep. rewrite Ho. mstep.
  destruct (count_people_in_image E img) as [r t]. cbn [fst] in Hc. subst r. mstep.
  destruct (Z.eqb_spec n 1) as [|_]; [done|]. reflexivity.
Qed.

(** The classifier is called for a file only after the filter counted exactly
    one person on it. *)
Lemma item_trace_classifier (E : env) (file : upload_file) img :
  CallClassifier img ∈ item_trace E file -> reaches_count E file img 1.
Proof.
  unfold item_trace, batch_step, batch_item, content_type_is_image, reaches_count.
  destruct (content_type file) as [ct|] eqn:Hct; mstep; [|by intros ?%elem_of_nil].
  destruct (startswith ct "image/") eqn:Hsw; mstep; [|by intros ?%elem_of_nil].
  destruct (file_read file) as [data|] eqn:Hr; mstep;
    [|rewrite ?elem_of_cons, ?elem_of_nil; intuition congruence].
  destruct (image_open E data) as [img0|] eqn:Ho; mstep;
    [|rewrite ?elem_of_cons, ?elem_of_nil; intuition congruence].
  destruct (count_people_in_image_returns E img0) as (n & t & Hc & _ & Ht).
  rewrite Hc. mstep.
  assert (CallClassifier img ∉ t) as Hnot.
  { destruct Ht as [-> | [msg ->]]; rewrite ?elem_of_cons, ?elem_of_nil; intuition congruence. }
  destruct (Z.eqb_spec n 1) as [-> | Hne]; mstep.
  - intros Hin. assert (img = img0) as ->.
    { revert Hin. destruct (classifier E img0); mstep;
        [destruct (tensor_argmax _); mstep;
         [destruct (tensor_max _); mstep;
          [destruct (dict_getitem _ _); mstep|]|]|];
        rewrite ?app_nil_r, ?elem_of_cons, ?elem_of_app, ?elem_of_cons, ?elem_of_nil;
        intuition congruence. }
    exists ct, data. rewrite Hc. done.
  - rewrite ?app_nil_r, ?elem_of_cons, ?elem_of_app, ?elem_of_nil. intuition congruence.
Qed.

(** ** Maximum and argmax of a row *)


Lemma float_gt_nan_l x y : is_nan x = true -> float_gt x y = false.
Proof. destruct x; try done. intros _. by destruct y as [[] | [] | | [] ? ?]. Qed.





(** ** POST /predict *)

Lemma str_in_middle (pre needle post : string) :
  str_in needle (pre +:+ needle +:+ post) = true.
Proof. apply str_in_app. by exists pre, post. Qed.

Lemma str_in_end (pre needle : string) : str_in needle (pre +:+ needle) = true.
Proof.
  apply str_in_app. exists pre, "". f_equal.
  induction needle as [| c needle IH]; [done|].
  change (String c needle = String c (needle +:+ "")). by f_equal.
Qed.

(** Runs the handler up to the count, on an upload that reaches it. *)
Ltac run_to_count Hreach E img n t Hc Hpos Ht :=
  let ct := fresh "ct" in
  let data := fresh "data" in
  let Hct := fresh "Hct" in
  let Hsw := fresh "Hsw" in
  let Hr := fresh "Hr" in
  let Ho := fresh "Ho" in
  let Hfst := fresh "Hfst" in
  let n0 := fresh "n0" in
  destruct Hreach as (ct & data & Hct & Hsw & Hr & Ho & Hfst);
  destruct (count_people_in_image_returns E img) as (n0 & t & Hc & Hpos & Ht);
  rewrite Hc in Hfst; cbn [fst] in Hfst; injection Hfst as ->;
  unfold predict_gender, content_type_is_image, predict_gender_try;
  rewrite Hct, Hsw, Hr; mstep; rewrite Ho; mstep; rewrite Hc; mstep.

(** C3 (as the code has it). When the upload decodes and the filter counts
    other than one person, the answer is a 200 whose payload carries the
    error: for a count of 0 the message is "No person detected in image", for
    a count N above 1 a message that holds N; the prediction is null, the
    confidence 0.0 and person_count the count.  No other count occurs. *)
Theorem predict_reports_other_counts (E : env) (file : upload_file) img n :
  reaches_count E file img n -> n <> 1 ->
  exists msg,
    respond (fst (predict_gender E file))
      = Response 200 (VDict {[ "error" := VStr msg;
                               "person_count" := VInt n;
                               "prediction" := VNone;
                               "confidence" := VFloat lit_0_0 ]})
    /\ (n = 0 -> msg = "No person detected in image")
    /\ (1 < n ->
          msg = "Multiple people detected (" +:+ pretty n
                +:+ " people). Please use single-person images."
          /\ str_in (pretty n) msg = true)
    /\ (n = 0 \/ 1 < n).
Proof.
  intros Hreach Hn. run_to_count Hreach E img n t Hc Hpos Ht.
  destruct (Z.eqb_spec n 0) as [-> | Hn0].
  - eexists. split; [reflexivity|]. split; [done|]. split; [lia | by left].
  - destruct (Z.gtb_spec n 1) as [Hgt | Hle]; [|lia].
    eexists. split; [reflexivity|]. split; [lia|]. split; [|by right].
    intros _. split; [done|]. apply str_in_middle.
Qed.


(** X22. For an upload that declares its content type.  On a type that is
    not an image type the handler raises the 400 before it reads, decodes or
    calls anything.  On an image type, whatever exception leaves the body of
    the handler (a failed read, a failed decode, a failed classifier among
    them) is logged and becomes a 500 whose detail holds the exception's
    message. *)
Theorem predict_rejects_and_reports_failures (E : env) (file : upload_file) ct :
  content_type file = Some ct ->
  (startswith ct "image/" = false ->
     predict_gender E file = (Raise (HTTPException 400 "File must be an image"), [])
     /\ status (respond (fst (predict_gender E file))) = 400)
  /\ (startswith ct "image/" = true ->
      forall e, fst (predict_gender_try E file) = Raise e ->
        respond (fst (predict_gender E file))
          = Response 500 (VDict {[ "detail" := VStr ("Prediction failed: " +:+ str_exn e) ]})
        /\ str_in (str_exn e) ("Prediction failed: " +:+ str_exn e) = true
        /\ LogError ("Error in prediction: " +:+ str_exn e) ∈ snd (predict_gender E file))
  /\ (forall e, file_read file = Raise e -> fst (predict_gender_try E file) = Raise e)
  /\ (forall data e, file_read file = Ok data -> image_open E data = Raise e ->
        fst (predict_gender_try E file) = Raise e)
  /\ (forall img e, reaches_count E file img 1 -> classifier E img = Raise e ->
        fst (predict_gender_try E file) = Raise e).
Proof.
  intros Hct. split; [|split; [|split; [|split]]].
  - intros Hsw. unfold predict_gender, content_type_is_image.
    rewrite Hct, Hsw. done.
  - intros Hsw e Hbody. unfold predict_gender, content_type_is_image.
    rewrite Hct, Hsw. mstep.
    destruct (predict_gender_try E file) as [r t]. cbn [fst] in Hbody. subst r. mstep.
    split; [reflexivity|]. split.
    + apply str_in_end.
    + rewrite elem_of_app, elem_of_cons. auto.
  - intros e Hr. unfold predict_gender_try. by rewrite Hr.
  - intros data e Hr Ho. unfold predict_gender_try. rewrite Hr. mstep. by rewrite Ho.
  - intros img e (ct' & data & _ & _ & Hr & Ho & Hc) Hcl.
    unfold predict_gender_try. rewrite Hr. mstep. rewrite Ho. mstep.
    destruct (count_people_in_image E img) as [r t]. cbn [fst] in Hc. subst r. mstep.
    change (1 =? 0) with false. change (1 >? 1) with false. cbn iota.
    by rewrite Hcl.
Qed.

(** C7. The code misses the claim on an upload that declares no content
    type.  The attribute access fails before the handler's [try], so the
    exception is neither logged nor wrapped: the framework answers a bare
    500 whose body does not hold the exception's message.  The batch
    handler makes the same test inside its [try] and reports the message. *)
Theorem predict_undeclared_type_unreported :
  predict_gender E_single untyped
    = (Raise (PyError "AttributeError" "'NoneType' object has no attribute 'startswith'"), [])
  /\ respond (fst (predict_gender E_single untyped))
     = Response 500 (VStr "Internal Server Error")
  /\ str_in "'NoneType' object has no attribute 'startswith'" "Internal Server Error" = false
  /\ (forall detail,
        respond (fst (predict_gender E_single untyped))
        <> Response 500 (VDict {[ "detail" := VStr detail ]}))
  /\ batch_step E_single [] untyped
     = (Ok [failure_entry untyped "'NoneType' object has no attribute 'startswith'"], []).
Proof.
  split; [reflexivity|]. split; [reflexivity|]. split; [reflexivity|].
  split; [|reflexivity].
  intros detail H.
  change (Response 500 (VStr "Internal Server Error")
          = Response 500 (VDict {[ "detail" := VStr detail ]})) in H.
  discriminate H.
Qed.

(** Every payload the handler returns: an error payload for a count of zero
    or above one, and the prediction payload after a count of one and a
    classifier stage that went through. *)
Lemma predict_gender_returns_inv (E : env) (file : upload_file) (d : gmap string value) :
  fst (predict_gender E file) = Ok (VDict d) ->
  exists img n,
    reaches_count E file img n /\
    ((n <> 1 /\ d !! "prediction" = Some VNone /\ d !! "probabilities" = None)
     \/ (n = 1 /\ exists probs i conf lbl p0 p1,
           classifier E img = Ok probs /\ tensor_argmax probs = Ok i /\
           tensor_max probs = Ok conf /\ id2label E !! i = Some lbl /\
           probs !! 0%nat = Some p0 /\ probs !! 1%nat = Some p1 /\
           d = {[ "prediction" := VStr lbl;
                  "confidence" := VFloat conf;
                  "person_count" := VInt 1;
                  "probabilities" := VDict {[ "male" := VFloat p0;
                                              "female" := VFloat p1 ]};
                  "error" := VNone ]})).
Proof.
  unfold predict_gender, content_type_is_image, predict_gender_try, reaches_count.
  destruct (content_type file) as [ct|] eqn:Hct; mstep; [|done].
  destruct (startswith ct "image/") eqn:Hsw; mstep; [|done].
  destruct (file_read file) as [data|] eqn:Hr; mstep; [|done].
  destruct (image_open E data) as [img|] eqn:Ho; mstep; [|done].
  destruct (count_people_in_image_returns E img) as (n & t & Hc & Hpos & Ht).
  rewrite Hc. mstep. intros Hret. exists img, n. split.
  { exists ct, data. by rewrite Hc. }
  revert Hret. destruct (Z.eqb_spec n 0) as [-> | Hn0]; mstep.
  { intros [= <-]. left. split; [done|]. by simplify_map_eq. }
  destruct (Z.gtb_spec n 1) as [Hgt | Hle]; mstep.
  { intros [= <-]. left. split; [lia|]. by simplify_map_eq. }
  assert (n = 1) as -> by lia. right. split; [done|]. revert Hret.
  destruct (classifier E img) as [probs|] eqn:Hcl; mstep; [|done].
  destruct (tensor_argmax probs) as [i|] eqn:Hi; mstep; [|done].
  destruct (tensor_max probs) as [conf|] eqn:Hm; mstep; [|done].
  unfold dict_getitem.
  destruct (id2label E !! i) as [lbl|] eqn:Hlbl; mstep; [|done].
  unfold tensor_item. change (Z.to_nat 0) with 0%nat. change (Z.to_nat 1) with 1%nat.
  destruct (probs !! 0%nat) as [p0|] eqn:H0; mstep; [|done].
  destruct (probs !! 1%nat) as [p1|] eqn:H1; mstep; [|done].
  intros [= <-]. by exists probs, i, conf, lbl, p0, p1.
Qed.

Lemma reaches_count_with_labels (E : env) labels file img n :
  reaches_count (with_labels E labels) file img n <-> reaches_count E file img n.
Proof. reflexivity. Qed.

(** C10. A returned prediction payload holds under "probabilities" exactly
    the keys "male" and "female", with the classifier's entries 0 and 1; the
    label dictionary has no part in it, so under another dictionary the
    mapping is the same.  With the labels the other way round the key named
    by the prediction holds the smaller probability, not the confidence. *)
Theorem probabilities_are_positional :
  (forall E file d lbl,
     fst (predict_gender E file) = Ok (VDict d) ->
     d !! "prediction" = Some (VStr lbl) ->
     exists img probs p0 p1,
       reaches_count E file img 1 /\ classifier E img = Ok probs /\
       probs !! 0%nat = Some p0 /\ probs !! 1%nat = Some p1 /\
       d !! "probabilities"
         = Some (VDict {[ "male" := VFloat p0; "female" := VFloat p1 ]}))
  /\ (forall p0 p1 : float,
        dom ({[ "male" := VFloat p0; "female" := VFloat p1 ]} : gmap string value)
          = {[ "male"; "female" ]})
  /\ (forall E labels file d d',
        fst (predict_gender E file) = Ok (VDict d) ->
        fst (predict_gender (with_labels E labels) file) = Ok (VDict d') ->
        d !! "probabilities" = d' !! "probabilities")
  /\ (exists d probs,
        fst (predict_gender E_swapped (jpeg "a.jpg")) = Ok (VDict d)
        /\ d !! "prediction" = Some (VStr "female")
        /\ d !! "confidence" = Some (VFloat (float_literal 9 10))
        /\ d !! "probabilities" = Some (VDict probs)
        /\ probs !! "female" = Some (VFloat (float_literal 1 10))
        /\ float_gt (float_literal 9 10) (float_literal 1 10) = true).
Proof.
  split; [|split; [|split]].
  - intros E file d lbl Hret Hpred.
    destruct (predict_gender_returns_inv E file d Hret) as (img & n & Hreach & Hcase).
    destruct Hcase as [(_ & Hnone & _) | (-> & probs & i & conf & lbl' & p0 & p1 & H)].
    { rewrite Hnone in Hpred. done. }
    destruct H as (Hcl & _ & _ & _ & H0 & H1 & ->).
    exists img, probs, p0, p1. do 4 (split; [done|]). by simplify_map_eq.
  - intros p0 p1. rewrite dom_insert_L, dom_singleton_L. done.
  - intros E labels file d d' Hret Hret'.
    destruct (predict_gender_returns_inv _ _ _ Hret) as (img & n & Hreach & Hcase).
    destruct (predict_gender_returns_inv _ _ _ Hret') as (img' & n' & Hreach' & Hcase').
    apply reaches_count_with_labels in Hreach'.
    destruct (reaches_count_unique _ _ _ _ _ _ Hreach Hreach') as [<- <-].
    destruct Hcase as [(Hn & _ & Hp) | (-> & probs & i & conf & lbl & p0 & p1 & H)],
        Hcase' as [(Hn' & _ & Hp') | (Hn' & probs' & i' & conf' & lbl' & p0' & p1' & H')];
      try done; try congruence.
    destruct H as (Hcl & _ & _ & _ & H0 & H1 & ->).
    destruct H' as (Hcl' & _ & _ & _ & H0' & H1' & ->).
    cbn [with_labels classifier] in Hcl'. rewrite Hcl in Hcl'. injection Hcl' as <-.
    rewrite H0 in H0'. injection H0' as <-. rewrite H1 in H1'. injection H1' as <-.
    by simplify_map_eq.
  - eexists _, _. split; [reflexivity|].
    split; [by simplify_map_eq|]. split; [by simplify_map_eq|].
    split; [by simplify_map_eq|]. split; [by simplify_map_eq|]. reflexivity.
Qed.

(** An item on which the filter counts one person and the classifier stage
    goes through gets the prediction entry. *)
Lemma batch_step_single_person (E : env) (file : upload_file) img probs k conf lbl results :
  reaches_count E file img 1 -> classifier E img = Ok probs ->
  tensor_argmax probs = Ok k -> tensor_max probs = Ok conf ->
  id2label E !! k = Some lbl ->
  fst (batch_step E results file)
    = Ok (results ++
            [VDict {[ "filename" := value_of_name (filename file);
                      "prediction" := VStr lbl;
                      "confidence" := VFloat conf;
                      "person_count" := VInt 1;
                      "error" := VNone ]}]).
Proof.
  intros (ct & data & Hct & Hsw & Hr & Ho & Hc) Hcl Hk Hm Hlbl.
  unfold batch_step, batch_item, content_type_is_image.
  rewrite Hct. mstep. rewrite Hsw. mstep. rewrite Hr. mstep. rewrite Ho. mstep.
  destruct (count_people_in_image E img) as [r t]. cbn [fst] in Hc. subst r. mstep.
  change (1 =? 1) with true. mstep. rewrite Hcl. mstep. rewrite Hk. mstep.
  rewrite Hm. mstep. unfold dict_getitem. rewrite Hlbl. reflexivity.
Qed.

(** C5. A batch of at most ten files returns one entry per file, in the
    order of the files, each with the file's name.  Whatever fails on a file
    stays in its entry.  The classifier is called for a file only when the
    filter counted exactly one person on it; a file with another count N
    gets the entry with error "Expected 1 person, found N" and a null
    prediction, and no classifier call. *)
Theorem predict_batch_entries (E : env) (files : list upload_file) :
  (length files <= 10)%nat ->
  exists results,
    predict_batch E files
      = (Ok (VDict {[ "results" := VList results ]}), mjoin (item_trace E <$> files))
    /\ length results = length files
    /\ forall i file, files !! i = Some file ->
         exists entry,
           results !! i = Some (VDict entry)
           /\ entry !! "filename" = Some (value_of_name (filename file))
           /\ (forall img, CallClassifier img ∈ item_trace E file ->
                 reaches_count E file img 1)
           /\ (forall img n, reaches_count E file img n -> n <> 1 ->
                 entry = {[ "filename" := value_of_name (filename file);
                            "error" := VStr ("Expected 1 person, found " +:+ pretty n);
                            "person_count" := VInt n;
                            "prediction" := VNone;
                            "confidence" := VFloat lit_0_0 ]}
                 /\ forall img', CallClassifier img' ∉ item_trace E file).
Proof.
  intros Hlen.
  destruct (predict_batch_within_limit E files Hlen) as (entries & Hrun & Hall).
  exists (VDict <$> entries). split; [done|]. split.
  { rewrite length_fmap. symmetry. by eapply Forall2_length. }
  intros i file Hfile.
  destruct (Forall2_lookup_l _ _ _ _ _ Hall Hfile) as (entry & Hentry & Hname & Hstep).
  exists entry. split; [by rewrite list_lookup_fmap, Hentry|]. split; [done|].
  split; [apply item_trace_classifier|].
  intros img n Hreach Hn. split.
  - pose proof (batch_step_other_count E file img n [] Hreach Hn) as Hother.
    rewrite Hstep in Hother. cbn in Hother. by injection Hother.
  - intros img' Hin. apply item_trace_classifier in Hin.
    destruct (reaches_count_unique _ _ _ _ _ _ Hreach Hin) as [_ ->]. done.
Qed.

(** C6. A batch of more than ten files is refused as a whole: the handler
    raises the 400 before it touches any file, and returns no list.  A batch
    of at most ten files is processed file by file and answered with 200. *)
Theorem predict_batch_limit (E : env) (files : list upload_file) :
  ((10 < length files)%nat ->
     predict_batch E files
       = (Raise (HTTPException 400 "Maximum 10 images per batch"), [])
     /\ respond (fst (predict_batch E files))
        = Response 400 (VDict {[ "detail" := VStr "Maximum 10 images per batch" ]}))
  /\ ((length files <= 10)%nat ->
      exists results,
        predict_batch E files
          = (Ok (VDict {[ "results" := VList results ]}), mjoin (item_trace E <$> files))
        /\ length results = length files
        /\ status (respond (fst (predict_batch E files))) = 200).
Proof.
  split.
  - intros Hlen. unfold predict_batch.
    destruct (Z.gtb_spec (Z.of_nat (length files)) 10) as [_|Hle]; [done|lia].
  - intros Hlen.
    destruct (predict_batch_within_limit E files Hlen) as (entries & Hrun & Hall).
    exists (VDict <$> entries). split; [done|]. split.
    + rewrite length_fmap. symmetry. by eapply Forall2_length.
    + by rewrite Hrun.
Qed.

(** C8 (as the code has it). A batch item on which the filter counts one
    person and the classifier stage goes through gets the entry with the
    file's name, the prediction, the confidence, person_count 1 and a null
    error; the entry has these five keys and no "probabilities". *)
Theorem batch_entry_single_person
    (E : env) (files : list upload_file) i file img probs k conf lbl :
  (length files <= 10)%nat -> files !! i = Some file ->
  reaches_count E file img 1 -> classifier E img = Ok probs ->
  tensor_argmax probs = Ok k -> tensor_max probs = Ok conf ->
  id2label E !! k = Some lbl ->
  exists results entry,
    fst (predict_batch E files) = Ok (VDict {[ "results" := VList results ]})
    /\ results !! i = Some (VDict entry)
    /\ entry = {[ "filename" := value_of_name (filename file);
                  "prediction" := VStr lbl;
                  "confidence" := VFloat conf;
                  "person_count" := VInt 1;
                  "error" := VNone ]}
    /\ dom entry = {[ "filename"; "prediction"; "confidence"; "person_count"; "error" ]}
    /\ entry !! "probabilities" = None.
Proof.
  intros Hlen Hfile Hreach Hcl Hk Hm Hlbl.
  destruct (predict_batch_within_limit E files Hlen) as (entries & Hrun & Hall).
  destruct (Forall2_lookup_l _ _ _ _ _ Hall Hfile) as (entry & Hentry & Hname & Hstep).
  exists (VDict <$> entries), entry. split; [by rewrite Hrun|].
  split; [by rewrite list_lookup_fmap, Hentry|].
  pose proof (batch_step_single_person E file img probs k conf lbl [] Hreach Hcl Hk Hm Hlbl)
    as Hone.
  rewrite Hstep in Hone. cbn in Hone. injection Hone as ->.
  split; [done|]. split; [|by simplify_map_eq].
  rewrite !dom_insert_L, dom_singleton_L. done.
Qed.

(** ** The theorems at concrete inputs *)

(** The literals of the filter are the doubles nearest to 0.7, 0.05, 0.2. *)
Example literals_are_nearest_doubles :
  lit_0_7 = float_literal 7 10 /\ lit_0_05 = float_literal 5 100 /\
  lit_0_2 = float_literal 2 10.
Proof. done. Qed.

(** A box of exactly a twentieth of the image is not above 0.05; one more
    pixel row is. *)
Example area_boundary :
  valid_person img_100 (det "person" (float_literal 9 10) 0 0 20 25) = false /\
  valid_person img_100 (det "person" (float_literal 9 10) 0 0 20 26) = true.
Proof. done. Qed.

(** Far beyond any real image the rounding shows: a ratio just above 1/20
    rounds to the literal itself and is not above it. *)
Example huge_image_rounds_to_literal :
  1000000000000000000 < 20 * 50000000000000001 /\
  float_gt (float_quotient 50000000000000001 1000000000000000000) lit_0_05 = false.
Proof. done. Qed.

(** On an image without pixels the division fails and the filter falls back
    to one. *)
Example empty_image_counts_one :
  count_people_in_image E_single (Image 0 100 [])
  = (Ok 1, [CallDetector (Image 0 100 []);
            LogError "Error in person detection: division by zero"]).
Proof. reflexivity. Qed.

(** The batch of the specification: a portrait and an empty landscape. *)
Example batch_portrait_landscape :
  fst (predict_batch E_mixed [portrait; landscape])
  = Ok (VDict {[ "results" :=
         VList [VDict {[ "filename" := VStr "portrait.jpg";
                         "prediction" := VStr "male";
                         "confidence" := VFloat (float_literal 9 10);
                         "person_count" := VInt 1;
                         "error" := VNone ]};
                VDict {[ "filename" := VStr "landscape.jpg";
                         "error" := VStr "Expected 1 person, found 0";
                         "person_count" := VInt 0;
                         "prediction" := VNone;
                         "confidence" := VFloat lit_0_0 ]}] ]}).
Proof. vm_compute. reflexivity. Qed.

Lemma reaches_count_jpeg (E : env) name img n :
  image_open E [] = Ok img -> fst (count_people_in_image E img) = Ok n ->
  reaches_count E (jpeg name) img n.
Proof. intros Ho Hc. by exists "image/jpeg", []. Qed.

Lemma count_people_counts_valid_detections_witness :
  count_people_in_image E_crowd img_100 = (Ok 1, [CallDetector img_100]).
Proof.
  refine (proj1 (count_people_counts_valid_detections E_crowd img_100 crowd _ _ _ _)).
  - reflexivity.
  - reflexivity.
  - reflexivity.
  - unfold crowd, pixel_box, pixel_coordinate; repeat constructor; simpl; lia.
Defined.

Lemma detector_failure_counts_one_witness :
  count_people_in_image E_down img_100
  = (Ok 1, [CallDetector img_100;
            LogError "Error in person detection: detector unavailable"]).
Proof. apply (detector_failure_counts_one E_down img_100 detector_down). reflexivity. Defined.

Lemma predict_reports_other_counts_witness :
  exists msg,
    respond (fst (predict_gender E_pair (jpeg "pair.jpg")))
      = Response 200 (VDict {[ "error" := VStr msg;
                               "person_count" := VInt 2;
                               "prediction" := VNone;
                               "confidence" := VFloat lit_0_0 ]})
    /\ (2 = 0 -> msg = "No person detected in image")
    /\ (1 < 2 ->
          msg = "Multiple people detected (" +:+ pretty 2
                +:+ " people). Please use single-person images."
          /\ str_in (pretty 2) msg = true)
    /\ (2 = 0 \/ 1 < 2).
Proof.
  apply (predict_reports_other_counts E_pair (jpeg "pair.jpg") img_100 2).
  - apply reaches_count_jpeg; reflexivity.
  - lia.
Defined.

(** With nobody in frame the payload's error is not the text
    "No person detected". *)
Lemma no_person_message_differs :
  reaches_count E_empty (jpeg "empty.jpg") img_100 0 /\
  respond (fst (predict_gender E_empty (jpeg "empty.jpg")))
  <> Response 200 (VDict {[ "error" := VStr "No person detected";
                             "person_count" := VInt 0;
                             "prediction" := VNone;
                             "confidence" := VFloat lit_0_0 ]}).
Proof.
  split; [apply reaches_count_jpeg; reflexivity|].
  intros H.
  apply (f_equal (fun r => match content r with
                           | VDict d => d !! "error"
                           | _ => None
                           end)) in H.
  vm_compute in H. discriminate H.
Qed.


Lemma predict_batch_entries_witness :
  exists results,
    predict_batch E_mixed [portrait; landscape]
      = (Ok (VDict {[ "results" := VList results ]}),
         mjoin (item_trace E_mixed <$> [portrait; landscape]))
    /\ length results = length [portrait; landscape]
    /\ forall i file, [portrait; landscape] !! i = Some file ->
         exists entry,
           results !! i = Some (VDict entry)
           /\ entry !! "filename" = Some (value_of_name (filename file))
           /\ (forall img, CallClassifier img ∈ item_trace E_mixed file ->
                 reaches_count E_mixed file img 1)
           /\ (forall img n, reaches_count E_mixed file img n -> n <> 1 ->
                 entry = {[ "filename" := value_of_name (filename file);
                            "error" := VStr ("Expected 1 person, found " +:+ pretty n);
                            "person_count" := VInt n;
                            "prediction" := VNone;
                            "confidence" := VFloat lit_0_0 ]}
                 /\ forall img', CallClassifier img' ∉ item_trace E_mixed file).
Proof. apply (predict_batch_entries E_mixed [portrait; landscape]). simpl. lia. Defined.

Lemma predict_batch_limit_witness :
  (predict_batch E_single (replicate 11 (jpeg "one.jpg"))
     = (Raise (HTTPException 400 "Maximum 10 images per batch"), [])
   /\ respond (fst (predict_batch E_single (replicate 11 (jpeg "one.jpg"))))
      = Response 400 (VDict {[ "detail" := VStr "Maximum 10 images per batch" ]}))
  /\ (exists results,
        predict_batch E_single (replicate 10 (jpeg "one.jpg"))
          = (Ok (VDict {[ "results" := VList results ]}),
             mjoin (item_trace E_single <$> replicate 10 (jpeg "one.jpg")))
        /\ length results = length (replicate 10 (jpeg "one.jpg"))
        /\ status (respond (fst (predict_batch E_single (replicate 10 (jpeg "one.jpg"))))) = 200).
Proof.
  split.
  - apply (proj1 (predict_batch_limit E_single (replicate 11 (jpeg "one.jpg")))).
    simpl. lia.
  - apply (proj2 (predict_batch_limit E_single (replicate 10 (jpeg "one.jpg")))).
    simpl. lia.
Defined.

Lemma predict_rejects_and_reports_failures_witness :
  (predict_gender E_single notes = (Raise (HTTPException 400 "File must be an image"), [])
   /\ status (respond (fst (predict_gender E_single notes))) = 400)
  /\ (respond (fst (predict_gender E_undecodable (jpeg "broken.jpg")))
        = Response 500
            (VDict {[ "detail" := VStr "Prediction failed: cannot identify image file" ]})
      /\ str_in "cannot identify image file"
           "Prediction failed: cannot identify image file" = true
      /\ LogError "Error in prediction: cannot identify image file"
           ∈ snd (predict_gender E_undecodable (jpeg "broken.jpg"))).
Proof.
  split.
  - apply (proj1 (predict_rejects_and_reports_failures E_single notes "text/plain" eq_refl)).
    reflexivity.
  - apply (proj1 (proj2 (predict_rejects_and_reports_failures
                           E_undecodable (jpeg "broken.jpg") "image/jpeg" eq_refl))
             eq_refl cannot_identify).
    reflexivity.
Defined.

Lemma batch_entry_single_person_witness :
  exists results entry,
    fst (predict_batch E_single [jpeg "one.jpg"]) = Ok (VDict {[ "results" := VList results ]})
    /\ results !! 0%nat = Some (VDict entry)
    /\ entry = {[ "filename" := VStr "one.jpg";
                  "prediction" := VStr "male";
                  "confidence" := VFloat (float_literal 9 10);
                  "person_count" := VInt 1;
                  "error" := VNone ]}
    /\ dom entry = {[ "filename"; "prediction"; "confidence"; "person_count"; "error" ]}
    /\ entry !! "probabilities" = None.
Proof.
  apply (batch_entry_single_person E_single [jpeg "one.jpg"] 0%nat (jpeg "one.jpg")
           img_100 probs_9_1 0 (float_literal 9 10) "male").
  - simpl. lia.
  - reflexivity.
  - apply reaches_count_jpeg; reflexivity.
  - reflexivity.
  - reflexivity.
  - reflexivity.
  - reflexivity.
Defined.

(** On a batch of one portrait the filter counts one person, the entry
    carries the prediction and a null error, and it has no "probabilities". *)
Lemma batch_entry_lacks_probabilities :
  reaches_count E_single (jpeg "one.jpg") img_100 1 /\
  exists entry,
    fst (predict_batch E_single [jpeg "one.jpg"])
      = Ok (VDict {[ "results" := VList [VDict entry] ]})
    /\ entry !! "prediction" = Some (VStr "male")
    /\ entry !! "error" = Some VNone
    /\ entry !! "probabilities" = None.
Proof.
  split; [apply reaches_count_jpeg; reflexivity|].
  eexists. split; [reflexivity|]. by simplify_map_eq.
Qed.


Lemma probabilities_are_positional_witness :
  exists img probs p0 p1,
    reaches_count E_swapped (jpeg "one.jpg") img 1 /\ classifier E_swapped img = Ok probs /\
    probs !! 0%nat = Some p0 /\ probs !! 1%nat = Some p1 /\
    ({[ "prediction" := VStr "female";
        "confidence" := VFloat (float_literal 9 10);
        "person_count" := VInt 1;
        "probabilities" := VDict {[ "male" := VFloat (float_literal 9 10);
                                    "female" := VFloat (float_literal 1 10) ]};
        "error" := VNone ]} : gmap string value) !! "probabilities"
      = Some (VDict {[ "male" := VFloat p0; "female" := VFloat p1 ]}).
Proof.
  apply (proj1 probabilities_are_positional E_swapped (jpeg "one.jpg") _ "female").
  - reflexivity.
  - reflexivity.
Defined.

(** * Further properties of the code *)

(** ** The filter on arbitrary detector output *)

Lemma int_true_div_cases (a b : Z) :
  b <> 0 ->
  int_true_div a b
    = Raise (PyError "OverflowError" "integer division result too large for a float")
  \/ exists q, int_true_div a b = Ok q.
Proof.
  intros Hb. unfold int_true_div. destruct (Z.eqb_spec b 0) as [|_]; [done|].
  destruct (SFdiv prec emax (float_of_int a) (float_of_int b)); eauto.
Qed.

(** One turn of the loop either adds nothing or one to the counter, or
    raises the fault of the image; what it does depends on the detection and
    the image, not on the counter, and it can only count or raise on a
    detection that passes the label test. *)
Lemma count_detection_shape (img : image) (d : detection) :
  (exists delta, (delta = 0 \/ (delta = 1 /\ person_label d = true)) /\
                 forall n, count_detection img n d = (Ok (n + delta), []))
  \/ (person_label d = true /\
      forall n, count_detection img n d = (Raise (image_fault img), [])).
Proof.
  unfold count_detection, person_label, image_fault.
  destruct (str_in "person" (lower (label d))).
  2: { left. exists 0. split; [by left|]. intros n. by rewrite Z.add_0_r. }
  destruct (Z.eqb_spec (img_width img * img_height img) 0) as [Hz | Hnz].
  { right. split; [reflexivity|]. intros n. unfold int_true_div at 1.
    rewrite Hz. reflexivity. }
  assert (img_height img <> 0) as Hh by (intros Hh; apply Hnz; rewrite Hh; lia).
  destruct (int_true_div_cases
              ((xmax (det_box d) - xmin (det_box d)) * (ymax (det_box d) - ymin (det_box d)))
              _ Hnz) as [-> | [area ->]]; cbn [lift bind].
  { right. split; reflexivity. }
  destruct (int_true_div_cases (ymax (det_box d) - ymin (det_box d)) _ Hh)
    as [-> | [height ->]]; cbn [lift bind].
  { right. split; reflexivity. }
  destruct (float_gt (score d) lit_0_7 && float_gt area lit_0_05 && float_gt height lit_0_2).
  - left. exists 1. split; [by right|]. intros n. reflexivity.
  - left. exists 0. split; [by left|]. intros n. by rewrite Z.add_0_r.
Qed.

Lemma for_each_count_detection_bounds (img : image) (dets : list detection) : forall n,
  (exists n', for_each dets n (count_detection img) = (Ok n', []) /\
              n <= n' <= n + Z.of_nat (length (List.filter person_label dets)))
  \/ (for_each dets n (count_detection img) = (Raise (image_fault img), []) /\
      1 <= Z.of_nat (length (List.filter person_label dets))).
Proof.
  induction dets as [| d dets IH]; intros n; cbn [for_each List.filter].
  - left. exists n. split; [done|]. cbn. lia.
  - destruct (count_detection_shape img d) as [(delta & Hdelta & Hstep) | [Hlabel Hstep]];
      rewrite Hstep; cbn [bind].
    + destruct (IH (n + delta)) as [(n' & -> & Hn') | [-> Hlen]].
      * left. exists n'. split; [done|].
        destruct Hdelta as [-> | [-> ->]]; [destruct (person_label d)|];
          cbn [length]; lia.
      * right. split; [done|]. destruct (person_label d); cbn [length]; lia.
    + right. split; [done|]. rewrite Hlabel. cbn [length]. lia.
Qed.

(** X1. When the detector returns, the filter never reports more people
    than the detector labelled as persons, also when it falls back to one. *)
Theorem count_people_at_most_labelled (E : env) (img : image) (dets : list detection) :
  person_detector E img = Ok dets ->
  exists n t,
    count_people_in_image E img = (Ok n, t) /\
    0 <= n <= Z.of_nat (length (List.filter person_label dets)).
Proof.
  intros Hdet. unfold count_people_in_image. rewrite Hdet. cbn [call bind].
  destruct (for_each_count_detection_bounds img dets 0) as [(n & -> & Hn) | [-> Hlen]].
  - exists n, [CallDetector img]. split; [done|]. lia.
  - eexists 1, _. split; [reflexivity|]. lia.
Qed.

(** X2. On an image without pixels (zero width or height) the filter
    cannot measure anything: it answers 1 and logs a division by zero as
    soon as one detection passes the label test, whatever the detections
    are, and 0 when none passes it. *)
Theorem count_people_on_empty_image (E : env) (img : image) (dets : list detection) :
  img_width img * img_height img = 0 ->
  person_detector E img = Ok dets ->
  count_people_in_image E img
  = if existsb person_label dets
    then (Ok 1, [CallDetector img;
                 LogError "Error in person detection: division by zero"])
    else (Ok 0, [CallDetector img]).
Proof.
  intros Hzero Hdet. unfold count_people_in_image. rewrite Hdet. cbn [call bind].
  assert (forall n, for_each dets n (count_detection img)
                    = if existsb person_label dets
                      then (Raise (PyError "ZeroDivisionError" "division by zero"), [])
                      else (Ok n, [])) as ->.
  { clear Hdet.
    induction dets as [| d dets IH]; intros n; cbn [for_each existsb]; [done|].
    unfold count_detection at 1. fold (person_label d).
    destruct (person_label d); cbn [orb].
    - unfold int_true_div at 1. rewrite Hzero. reflexivity.
    - cbn [ret bind]. rewrite IH. destruct (existsb person_label dets); reflexivity. }
  by destruct (existsb person_label dets).
Qed.

(** The loop of the filter does not depend on the order of the detections. *)
Lemma for_each_count_detection_perm (img : image) (dets dets' : list detection) :
  dets ≡ₚ dets' ->
  forall n, for_each dets n (count_detection img) = for_each dets' n (count_detection img).
Proof.
  induction 1 as [| d l l' _ IH | d1 d2 l | l1 l2 l3 _ IH1 _ IH2]; intros n.
  - done.
  - cbn [for_each].
    destruct (count_detection img n d) as [[m | e] t]; cbn [bind]; [|done].
    by rewrite IH.
  - cbn [for_each].
    destruct (count_detection_shape img d1) as [(k1 & _ & H1) | [_ H1]],
             (count_detection_shape img d2) as [(k2 & _ & H2) | [_ H2]];
      rewrite ?H1, ?H2; cbn [bind]; rewrite ?H1, ?H2; cbn [bind]; try done.
    by replace (n + k2 + k1) with (n + k1 + k2) by lia.
  - by rewrite IH1, IH2.
Qed.

(** X3. The filter does not depend on the order in which the detector lists
    its detections: the count, the fallback and the log record are the same
    for any rearrangement. *)
Theorem count_people_order_independent
    (E E' : env) (img : image) (dets dets' : list detection) :
  person_detector E img = Ok dets -> person_detector E' img = Ok dets' ->
  dets ≡ₚ dets' ->
  count_people_in_image E img = count_people_in_image E' img.
Proof.
  intros Hdet Hdet' Hperm. unfold count_people_in_image.
  rewrite Hdet, Hdet'. cbn [call bind].
  by rewrite (for_each_count_detection_perm img dets dets' Hperm 0).
Qed.

(** ** The payloads of POST /predict *)

(** The three payloads the handler can return, with the count that leads to
    each, and the trace up to the return. *)
Lemma predict_gender_payloads (E : env) (file : upload_file) (v : value) (t : trace) :
  predict_gender E file = (Ok v, t) ->
  exists ct data img n tc,
    content_type file = Some ct /\ startswith ct "image/" = true /\
    file_read file = Ok data /\ image_open E data = Ok img /\
    count_people_in_image E img = (Ok n, tc) /\ 0 <= n /\
    ((n = 0 /\ t = [CallRead file; CallImageOpen data] ++ tc /\
      v = VDict {[ "error" := VStr "No person detected in image";
                   "person_count" := VInt 0;
                   "prediction" := VNone;
                   "confidence" := VFloat lit_0_0 ]})
     \/ (1 < n /\ t = [CallRead file; CallImageOpen data] ++ tc /\
         v = VDict {[ "error" := VStr ("Multiple people detected (" +:+ pretty n
                                       +:+ " people). Please use single-person images.");
                      "person_count" := VInt n;
                      "prediction" := VNone;
                      "confidence" := VFloat lit_0_0 ]})
     \/ (n = 1 /\ t = [CallRead file; CallImageOpen data] ++ tc ++ [CallClassifier img] /\
         exists probs k conf lbl p0 p1,
           classifier E img = Ok probs /\ tensor_argmax probs = Ok k /\
           tensor_max probs = Ok conf /\ id2label E !! k = Some lbl /\
           probs !! 0%nat = Some p0 /\ probs !! 1%nat = Some p1 /\
           v = VDict {[ "prediction" := VStr lbl;
                        "confidence" := VFloat conf;
                        "person_count" := VInt 1;
                        "probabilities" := VDict {[ "male" := VFloat p0;
                                                    "female" := VFloat p1 ]};
                        "error" := VNone ]})).
Proof.
  unfold predict_gender, content_type_is_image, predict_gender_try.
  destruct (content_type file) as [ct|] eqn:Hct; mstep; [|done].
  destruct (startswith ct "image/") eqn:Hsw; mstep; [|done].
  destruct (file_read file) as [data|] eqn:Hr; mstep; [|done].
  destruct (image_open E data) as [img|] eqn:Ho; mstep; [|done].
  destruct (count_people_in_image_returns E img) as (n & tc & Hc & Hpos & Ht).
  rewrite Hc. mstep. intros Hret.
  exists ct, data, img, n, tc. do 6 (split; [done|]).
  revert Hret. destruct (Z.eqb_spec n 0) as [-> | Hn0]; mstep.
  { intros [= <- <-]. left. split; [done|]. split; [|done]. do 2 f_equal. apply app_nil_r. }
  destruct (Z.gtb_spec n 1) as [Hgt | Hle]; mstep.
  { intros [= <- <-]. right. left. split; [done|]. split; [|done].
    do 2 f_equal. apply app_nil_r. }
  assert (n = 1) as -> by lia. right. right. split; [done|]. revert Hret.
  destruct (classifier E img) as [probs|] eqn:Hcl; mstep; [|done].
  destruct (tensor_argmax probs) as [k|] eqn:Hk; mstep; [|done].
  destruct (tensor_max probs) as [conf|] eqn:Hm; mstep; [|done].
  unfold dict_getitem.
  destruct (id2label E !! k) as [lbl|] eqn:Hlbl; mstep; [|done].
  unfold tensor_item. change (Z.to_nat 0) with 0%nat. change (Z.to_nat 1) with 1%nat.
  destruct (probs !! 0%nat) as [p0|] eqn:H0; mstep; [|done].
  destruct (probs !! 1%nat) as [p1|] eqn:H1; mstep; [|done].
  intros [= <- <-]. split; [do 2 f_equal; apply app_nil_r|].
  by exists probs, k, conf, lbl, p0, p1.
Qed.

(** X4. Every payload the handler returns with status 200 is one of two
    kinds, told apart by person_count: with person_count 1 the error is null
    and prediction and confidence are set; with any other count (never
    negative) the error is a message, the prediction null, the confidence
    0.0 and there is no probabilities mapping. *)
Theorem predict_payload_kinds (E : env) (file : upload_file) (v : value) :
  fst (predict_gender E file) = Ok v ->
  exists d n,
    v = VDict d /\ d !! "person_count" = Some (VInt n) /\ 0 <= n /\
    ((n = 1 /\ d !! "error" = Some VNone /\
      (exists lbl, d !! "prediction" = Some (VStr lbl)) /\
      (exists conf, d !! "confidence" = Some (VFloat conf)) /\
      (exists probs, d !! "probabilities" = Some (VDict probs)))
     \/ (n <> 1 /\ (exists msg, d !! "error" = Some (VStr msg)) /\
         d !! "prediction" = Some VNone /\
         d !! "confidence" = Some (VFloat lit_0_0) /\
         d !! "probabilities" = None)).
Proof.
  destruct (predict_gender E file) as [r t] eqn:Hrun. cbn [fst]. intros ->.
  destruct (predict_gender_payloads E file v t Hrun)
    as (ct & data & img & n & tc & _ & _ & _ & _ & _ & Hpos & Hcase).
  destruct Hcase as [(-> & _ & ->) | [(Hn & _ & ->) | (-> & _ & H)]].
  - eexists _, 0. split; [done|]. split; [by simplify_map_eq|]. split; [done|].
    right. split; [done|]. split; [eexists; by simplify_map_eq|]. by simplify_map_eq.
  - eexists _, n. split; [done|]. split; [by simplify_map_eq|]. split; [done|].
    right. split; [lia|]. split; [eexists; by simplify_map_eq|]. by simplify_map_eq.
  - destruct H as (probs & k & conf & lbl & p0 & p1 & _ & _ & _ & _ & _ & _ & ->).
    eexists _, 1. split; [done|]. split; [by simplify_map_eq|]. split; [done|].
    left. split; [done|]. split; [by simplify_map_eq|].
    split; [eexists; by simplify_map_eq|]. split; eexists; by simplify_map_eq.
Qed.

(** X5. A failing detector does not stop a request: the filter's fallback
    of one person sends the image on to the classifier.  The handler logs
    the detector's failure, calls the classifier, and whatever it returns is
    a prediction payload with person_count 1, never an error payload; when
    the classifier stage goes through, the prediction is returned. *)
Theorem predict_after_detector_failure
    (E : env) (file : upload_file) ct data img e :
  content_type file = Some ct -> startswith ct "image/" = true ->
  file_read file = Ok data -> image_open E data = Ok img ->
  person_detector E img = Raise e ->
  LogError ("Error in person detection: " +:+ str_exn e) ∈ snd (predict_gender E file)
  /\ CallClassifier img ∈ snd (predict_gender E file)
  /\ (forall v, fst (predict_gender E file) = Ok v ->
        exists d lbl, v = VDict d /\ d !! "person_count" = Some (VInt 1) /\
                      d !! "prediction" = Some (VStr lbl) /\ d !! "error" = Some VNone)
  /\ (forall probs k conf lbl p0 p1,
        classifier E img = Ok probs -> tensor_argmax probs = Ok k ->
        tensor_max probs = Ok conf -> id2label E !! k = Some lbl ->
        probs !! 0%nat = Some p0 -> probs !! 1%nat = Some p1 ->
        predict_gender E file
        = (Ok (VDict {[ "prediction" := VStr lbl;
                        "confidence" := VFloat conf;
                        "person_count" := VInt 1;
                        "probabilities" := VDict {[ "male" := VFloat p0;
                                                    "female" := VFloat p1 ]};
                        "error" := VNone ]}),
           [CallRead file; CallImageOpen data; CallDetector img;
            LogError ("Error in person detection: " +:+ str_exn e);
            CallClassifier img])).
Proof.
  intros Hct Hsw Hr Ho Hdet.
  assert (count_people_in_image E img
          = (Ok 1, [CallDetector img;
                    LogError ("Error in person detection: " +:+ str_exn e)])) as Hc.
  { unfold count_people_in_image. by rewrite Hdet. }
  assert (forall v t, predict_gender E file = (v, t) ->
            exists t', t = [CallRead file; CallImageOpen data; CallDetector img;
                            LogError ("Error in person detection: " +:+ str_exn e);
                            CallClassifier img] ++ t') as Htrace.
  { unfold predict_gender, content_type_is_image, predict_gender_try.
    rewrite Hct, Hsw, Hr. mstep. rewrite Ho. mstep. rewrite Hc. mstep.
    change (1 =? 0) with false. change (1 >? 1) with false. cbn iota.
    intros v t.
    destruct (classifier E img) as [probs|]; mstep; [|intros [= <- <-]; by eexists].
    destruct (tensor_argmax probs); mstep; [|intros [= <- <-]; by eexists].
    destruct (tensor_max probs); mstep; [|intros [= <- <-]; by eexists].
    destruct (dict_getitem (id2label E) _); mstep; [|intros [= <- <-]; by eexists].
    destruct (tensor_item probs 0); mstep; [|intros [= <- <-]; by eexists].
    destruct (tensor_item probs 1); mstep; intros [= <- <-]; by eexists. }
  destruct (predict_gender E file) as [r t] eqn:Hrun.
  destruct (Htrace r t eq_refl) as [t' ->]. cbn [fst snd].
  split; [rewrite elem_of_app, !elem_of_cons; tauto|].
  split; [rewrite elem_of_app, !elem_of_cons; tauto|].
  split.
  - intros v ->.
    destruct (predict_gender_payloads E file v _ Hrun)
      as (ct' & data' & img' & n & tc & _ & _ & Hr' & Ho' & Hc' & _ & Hcase).
    rewrite Hr in Hr'. injection Hr' as <-. rewrite Ho in Ho'. injection Ho' as <-.
    rewrite Hc in Hc'. injection Hc' as <- <-.
    destruct Hcase as [(Hn & _) | [(Hn & _) | (_ & _ & H)]]; try lia.
    destruct H as (probs & k & conf & lbl & p0 & p1 & _ & _ & _ & _ & _ & _ & ->).
    eexists _, lbl. split; [done|]. by simplify_map_eq.
  - intros probs k conf lbl p0 p1 Hcl Hk Hm Hlbl H0 H1. revert Hrun.
    unfold predict_gender, content_type_is_image, predict_gender_try.
    rewrite Hct, Hsw, Hr. mstep. rewrite Ho. mstep. rewrite Hc. mstep.
    change (1 =? 0) with false. change (1 >? 1) with false. cbn iota.
    rewrite Hcl. mstep. rewrite Hk. mstep. rewrite Hm. mstep.
    unfold dict_getitem. rewrite Hlbl. mstep.
    unfold tensor_item. change (Z.to_nat 0) with 0%nat. change (Z.to_nat 1) with 1%nat.
    rewrite H0. mstep. rewrite H1. mstep. intros [= <- <-]. reflexivity.
Qed.

(** X6. An upload that declares no content type is handled differently by
    the two endpoints.  POST /predict fails on the attribute access before
    its [try], so nothing is read or logged and the framework answers a bare
    500; POST /predict-batch catches the same failure and records it as
    that file's entry. *)
Theorem undeclared_content_type (E : env) (file : upload_file) :
  content_type file = None ->
  predict_gender E file
    = (Raise (PyError "AttributeError" "'NoneType' object has no attribute 'startswith'"), [])
  /\ respond (fst (predict_gender E file)) = Response 500 (VStr "Internal Server Error")
  /\ forall results,
       batch_step E results file
       = (Ok (results ++
                [VDict {[ "filename" := value_of_name (filename file);
                          "error" := VStr "'NoneType' object has no attribute 'startswith'";
                          "prediction" := VNone;
                          "confidence" := VFloat lit_0_0 ]}]),
          []).
Proof.
  intros Hct. split; [|split].
  - unfold predict_gender, content_type_is_image. by rewrite Hct.
  - unfold predict_gender, content_type_is_image. by rewrite Hct.
  - intros results. unfold batch_step, batch_item, content_type_is_image. by rewrite Hct.
Qed.

(** ** The outcomes of POST /predict *)

(** The filter's trace: the detector call, and after it at most one log
    record, which is the filter's own. *)
Lemma count_people_in_image_trace (E : env) (img : image) :
  exists n t,
    count_people_in_image E img = (Ok n, t) /\
    (t = [CallDetector img]
     \/ exists e, t = [CallDetector img;
                       LogError ("Error in person detection: " +:+ str_exn e)]).
Proof.
  unfold count_people_in_image.
  destruct (person_detector E img) as [dets | e]; mstep.
  - destruct (for_each_count_detection_bounds img dets 0) as [(n & -> & _) | [-> _]]; mstep.
    + exists n, [CallDetector img]. split; [reflexivity|]. by left.
    + eexists 1, _. split; [reflexivity|]. right. by eexists.
  - eexists 1, _. split; [reflexivity|]. right. by eexists.
Qed.

Lemma log_messages_differ (a b : string) :
  "Error in prediction: " +:+ a <> "Error in person detection: " +:+ b.
Proof. cbv [String.append]. discriminate. Qed.

(** X7. The four outcomes of a request to POST /predict, and no other: a
    payload (status 200), with no "Error in prediction" record in the log;
    the 400 for a declared type that is not an image type, with nothing
    done; the 500 whose detail wraps an exception's message, with the
    "Error in prediction" record of the same message as the last thing the
    handler did; and the unhandled attribute error of an undeclared type. *)
Theorem predict_outcomes (E : env) (file : upload_file) :
  (exists v, fst (predict_gender E file) = Ok v /\
             forall msg, LogError ("Error in prediction: " +:+ msg) ∉ snd (predict_gender E file))
  \/ predict_gender E file = (Raise (HTTPException 400 "File must be an image"), [])
  \/ (exists e,
        fst (predict_gender E file)
          = Raise (HTTPException 500 ("Prediction failed: " +:+ str_exn e)) /\
        last (snd (predict_gender E file))
          = Some (LogError ("Error in prediction: " +:+ str_exn e)))
  \/ (content_type file = None /\
      predict_gender E file
        = (Raise (PyError "AttributeError" "'NoneType' object has no attribute 'startswith'"),
           [])).
Proof.
  destruct (predict_gender E file) as [[v | e] t] eqn:Hrun.
  - left. exists v. split; [done|]. cbn [snd]. intros msg Hin.
    destruct (predict_gender_payloads E file v t Hrun)
      as (ct & data & img & n & tc & _ & _ & _ & _ & Hc & _ & Hcase).
    destruct (count_people_in_image_trace E img) as (n' & tc' & Hc' & Htc).
    rewrite Hc in Hc'. injection Hc' as <- <-.
    assert (LogError ("Error in prediction: " +:+ msg) ∉ tc) as Hnot.
    { destruct Htc as [-> | [e ->]]; rewrite ?elem_of_cons, elem_of_nil.
      - intros [H | H]; [discriminate H | done].
      - intros [H | [H | H]]; [discriminate H | | done].
        apply (log_messages_differ msg (str_exn e)). congruence. }
    assert (t = [CallRead file; CallImageOpen data] ++ tc
            \/ t = [CallRead file; CallImageOpen data] ++ tc ++ [CallClassifier img]) as Ht.
    { destruct Hcase as [(_ & -> & _) | [(_ & -> & _) | (_ & -> & _)]]; auto. }
    destruct Ht as [-> | ->]; revert Hin;
      rewrite ?elem_of_app, ?elem_of_cons, elem_of_nil; intros Hin.
    + destruct Hin as [[H | [H | H]] | H]; try discriminate H; done.
    + destruct Hin as [[H | [H | H]] | [H | [H | H]]]; try discriminate H; done.
  - right. revert Hrun. unfold predict_gender, content_type_is_image.
    destruct (content_type file) as [ct|]; mstep.
    2: { intros [= <- <-]. right. right. done. }
    destruct (startswith ct "image/"); mstep.
    2: { intros [= <- <-]. by left. }
    destruct (predict_gender_try E file) as [[v' | e'] t']; mstep; [done|].
    intros [= <- <-]. right. left. exists e'. split; [done|].
    cbn [snd]. by rewrite last_snoc.
Qed.

(** ** The batch against the single request *)

(** Closes an equation between two runs whose results agree and whose traces
    differ by empty tails. *)
Ltac same_run :=
  apply (f_equal2 pair); [reflexivity|]; cbn [app];
  repeat (apply (f_equal2 cons); [reflexivity|]);
  first [reflexivity | apply app_nil_r | symmetry; apply app_nil_r].

(** X8. Whenever POST /predict returns a payload for an upload, the batch
    gives the same upload an entry with the same prediction, confidence and
    person_count, does the same things on the way, and reports an error
    exactly when the payload does; the entry never has the probabilities. *)
Theorem batch_entry_agrees_with_predict
    (E : env) (file : upload_file) (d : gmap string value) (results : list value) :
  fst (predict_gender E file) = Ok (VDict d) ->
  exists entry,
    batch_step E results file
      = (Ok (results ++ [VDict entry]), snd (predict_gender E file)) /\
    entry !! "filename" = Some (value_of_name (filename file)) /\
    entry !! "prediction" = d !! "prediction" /\
    entry !! "confidence" = d !! "confidence" /\
    entry !! "person_count" = d !! "person_count" /\
    (entry !! "error" = Some VNone <-> d !! "error" = Some VNone) /\
    entry !! "probabilities" = None.
Proof.
  destruct (predict_gender E file) as [r t] eqn:Hrun. cbn [fst snd]. intros ->.
  destruct (predict_gender_payloads E file _ t Hrun)
    as (ct & data & img & n & tc & Hct & Hsw & Hr & Ho & Hc & Hpos & Hcase).
  unfold batch_step, batch_item, content_type_is_image.
  rewrite Hct. mstep. rewrite Hsw. mstep. rewrite Hr. mstep. rewrite Ho. mstep.
  rewrite Hc. mstep.
  destruct Hcase as [(-> & -> & Hv) | [(Hn & -> & Hv) | (-> & -> & Hv)]].
  - injection Hv as ->. change (0 =? 1) with false. mstep.
    eexists. split; [same_run|].
    repeat split; simplify_map_eq; done.
  - injection Hv as ->. destruct (Z.eqb_spec n 1) as [|_]; [lia|]. mstep.
    eexists. split; [same_run|].
    repeat split; simplify_map_eq; done.
  - destruct Hv as (probs & k & conf & lbl & p0 & p1 & Hcl & Hk & Hm & Hlbl & _ & _ & Hv).
    injection Hv as ->. change (1 =? 1) with true. mstep.
    rewrite Hcl. mstep. rewrite Hk. mstep. rewrite Hm. mstep.
    unfold dict_getitem. rewrite Hlbl. mstep.
    eexists. split; [same_run|].
    repeat split; simplify_map_eq; done.
Qed.

(** X9. The converse fails on a classifier with a single class.  The batch
    never indexes the row, so it reports the prediction; POST /predict reads
    the row's second probability, which raises, and answers 500. *)
Theorem single_class_model_diverges
    (E : env) (file : upload_file) img p lbl results :
  reaches_count E file img 1 -> classifier E img = Ok [p] ->
  id2label E !! 0 = Some lbl ->
  fst (batch_step E results file)
    = Ok (results ++
            [VDict {[ "filename" := value_of_name (filename file);
                      "prediction" := VStr lbl;
                      "confidence" := VFloat p;
                      "person_count" := VInt 1;
                      "error" := VNone ]}])
  /\ respond (fst (predict_gender E file))
     = Response 500
         (VDict {[ "detail" :=
                     VStr "Prediction failed: index 1 is out of bounds for dimension 0 with size 1" ]}).
Proof.
  intros Hreach Hcl Hlbl. split.
  - by apply (batch_step_single_person E file img [p] 0 p lbl).
  - destruct Hreach as (ct & data & Hct & Hsw & Hr & Ho & Hc).
    unfold predict_gender, content_type_is_image, predict_gender_try.
    rewrite Hct, Hsw, Hr. mstep. rewrite Ho. mstep.
    destruct (count_people_in_image E img) as [r t]. cbn [fst] in Hc. subst r. mstep.
    change (1 =? 0) with false. change (1 >? 1) with false. cbn iota.
    rewrite Hcl. mstep. unfold dict_getitem. cbn [tensor_argmax max_from fst].
    rewrite Hlbl. reflexivity.
Qed.

(** ** Failures inside a batch *)

(** X10. What fails on a file of a batch stays in that file's entry, which
    holds the exception's message and no person_count; the turn of the loop
    returns and logs nothing.  A file of a declared type that is not an image
    type is not read; a failed read stops before the decoder, a failed decode
    before the detector, and a failed classifier after the count of one. *)
Theorem batch_failure_entries
    (E : env) (file : upload_file) (results : list value) ct :
  content_type file = Some ct ->
  (startswith ct "image/" = false ->
     batch_step E results file
       = (Ok (results ++ [failure_entry file "File must be an image"]), []))
  /\ (startswith ct "image/" = true ->
      (forall e, file_read file = Raise e ->
         batch_step E results file
           = (Ok (results ++ [failure_entry file (str_exn e)]), [CallRead file]))
      /\ (forall data e, file_read file = Ok data -> image_open E data = Raise e ->
            batch_step E results file
              = (Ok (results ++ [failure_entry file (str_exn e)]),
                 [CallRead file; CallImageOpen data]))
      /\ (forall data img e,
            file_read file = Ok data -> image_open E data = Ok img ->
            fst (count_people_in_image E img) = Ok 1 -> classifier E img = Raise e ->
            batch_step E results file
              = (Ok (results ++ [failure_entry file (str_exn e)]),
                 [CallRead file; CallImageOpen data]
                   ++ snd (count_people_in_image E img) ++ [CallClassifier img]))).
Proof.
  intros Hct. unfold batch_step, batch_item, content_type_is_image, failure_entry.
  rewrite Hct. mstep. split; [by intros ->|]. intros ->. mstep.
  split; [|split].
  - intros e ->. reflexivity.
  - intros data e -> . mstep. intros ->. reflexivity.
  - intros data img e ->. mstep. intros ->. mstep.
    destruct (count_people_in_image E img) as [r t]. cbn [fst snd]. intros ->. mstep.
    change (1 =? 1) with true. mstep. intros ->. mstep. same_run.
Qed.

(** ** A batch as the sum of its parts *)

Lemma batch_step_entry_unique (E : env) (file : upload_file) (e1 e2 : gmap string value) :
  (forall results, batch_step E results file = (Ok (results ++ [VDict e1]), item_trace E file)) ->
  (forall results, batch_step E results file = (Ok (results ++ [VDict e2]), item_trace E file)) ->
  e1 = e2.
Proof.
  intros H1 H2. specialize (H1 []). rewrite (H2 []) in H1. by injection H1.
Qed.

Lemma results_of_batch (E : env) (files : list upload_file) (rs : list value) :
  (length files <= 10)%nat ->
  fst (predict_batch E files) = Ok (VDict {[ "results" := VList rs ]}) ->
  for_each files [] (batch_step E) = (Ok rs, snd (predict_batch E files)).
Proof.
  intros Hlen. unfold predict_batch.
  destruct (Z.gtb_spec (Z.of_nat (length files)) 10) as [Hgt|_]; [lia|].
  destruct (for_each_batch_step E files []) as (entries & -> & _).
  cbn [bind ret fst snd app]. intros H.
  apply (f_equal (fun r => match r with
                           | Ok (VDict m) => m !! "results"
                           | _ => None
                           end)) in H.
  cbn beta iota in H. simplify_map_eq. by rewrite app_nil_r.
Qed.

Lemma for_each_batch_step_from (E : env) (files : list upload_file) (rs : list value) t :
  for_each files [] (batch_step E) = (Ok rs, t) ->
  forall acc, for_each files acc (batch_step E) = (Ok (acc ++ rs), t).
Proof.
  intros Hrun acc.
  destruct (for_each_batch_step E files []) as (e0 & H0 & Hall0).
  destruct (for_each_batch_step E files acc) as (e1 & H1 & Hall1).
  rewrite H0 in Hrun. injection Hrun as <- <-. rewrite H1.
  assert (e1 = e0) as ->; [|reflexivity].
  clear H0 H1. revert e1 Hall1.
  induction Hall0 as [| file entry files entries [_ Hstep] _ IH]; intros e1 Hall1.
  - by inversion Hall1.
  - inversion Hall1 as [| ? entry' ? entries' [_ Hstep'] Htail]; subst.
    rewrite (IH _ Htail).
    by rewrite (batch_step_entry_unique E file entry' entry Hstep' Hstep).
Qed.

Lemma for_each_app {A S} (xs ys : list A) (body : S -> A -> M S) : forall acc,
  for_each (xs ++ ys) acc body
  = let* acc' := for_each xs acc body in for_each ys acc' body.
Proof.
  induction xs as [| x xs IH]; intros acc; cbn [for_each app].
  - unfold ret, bind. by destruct (for_each ys acc body).
  - unfold bind at 1 3. destruct (body acc x) as [[a | e] t]; [|reflexivity].
    rewrite IH. unfold bind.
    destruct (for_each xs a body) as [[a' | e'] t']; [|reflexivity].
    destruct (for_each ys a' body) as [r t'']. by rewrite app_assoc.
Qed.

(** X11. A batch is the sum of its parts: the answer to two lists of files
    sent as one batch holds the entries of the first batch followed by those
    of the second, and does what the two batches do, one after the other.
    A file's entry does not depend on the files around it. *)
Theorem predict_batch_app (E : env) (xs ys : list upload_file) (rx ry : list value) :
  (length (xs ++ ys) <= 10)%nat ->
  fst (predict_batch E xs) = Ok (VDict {[ "results" := VList rx ]}) ->
  fst (predict_batch E ys) = Ok (VDict {[ "results" := VList ry ]}) ->
  predict_batch E (xs ++ ys)
  = (Ok (VDict {[ "results" := VList (rx ++ ry) ]}),
     snd (predict_batch E xs) ++ snd (predict_batch E ys)).
Proof.
  rewrite length_app. intros Hlen Hx Hy.
  apply results_of_batch in Hx; [|lia]. apply results_of_batch in Hy; [|lia].
  unfold predict_batch at 1. rewrite length_app.
  destruct (Z.gtb_spec (Z.of_nat (length xs + length ys)) 10) as [Hgt|_]; [lia|].
  rewrite for_each_app, Hx. cbn [bind].
  rewrite (for_each_batch_step_from E ys ry _ Hy rx). cbn [bind ret app].
  by rewrite app_nil_r.
Qed.

(** * Loading the models at startup *)

Ltac io_step :=
  cbv beta delta [io_bind io_ret io_raise io_try note logger_info logger_error_io outcome
                  loading path_exists set_processor set_model set_person_detector];
  cbn [fs journal globals the_processor the_model the_person_detector fst snd].

Lemma basename_no_sep (p : string) : str_in "/" (basename p) = false.
Proof.
  induction p as [| c p IH]; [reflexivity|]. cbn [basename].
  destruct (str_in "/" p) eqn:Hin; [exact IH|].
  destruct (Ascii.eqb_spec c "/") as [-> | Hc]; [exact Hin|].
  cbn [str_in startswith]. rewrite Hin.
  destruct (Ascii.eqb_spec "/" c) as [<- | _]; [done|reflexivity].
Qed.

Lemma path_join_model_dir (name : string) :
  str_in "/" name = false -> path_join model_dir name = "./model/" +:+ name.
Proof.
  intros Hname. unfold path_join.
  destruct name as [| c name]; [reflexivity|].
  cbn [str_in startswith] in Hname. cbn [startswith].
  destruct (Ascii.eqb "/" c); [discriminate Hname|]. reflexivity.
Qed.

Lemma local_path_under_model_dir (key : string) :
  path_join model_dir (basename key) = "./model/" +:+ basename key.
Proof. apply path_join_model_dir, basename_no_sep. Qed.

Lemma adds_refl (w : world) : adds_under_model_dir w w.
Proof. split; [done|]. split; [done|]. intros path. by left. Qed.

Lemma adds_trans (w1 w2 w3 : world) :
  adds_under_model_dir w1 w2 -> adds_under_model_dir w2 w3 -> adds_under_model_dir w1 w3.
Proof.
  intros (Hg & Hj & Hf) (Hg' & Hj' & Hf'). split; [congruence|].
  split; [by etrans|]. intros path.
  destruct (Hf' path) as [-> | H]; [apply Hf | by right].
Qed.

Lemma adds_note (w : world) (ef : effect) :
  adds_under_model_dir w (World (fs w) (journal w ++ [ef]) (globals w)).
Proof.
  split; [done|]. split; [by apply prefix_app_r|]. intros path. by left.
Qed.

Lemma adds_write (w : world) (name : string) (x : node) :
  str_in "/" name = false ->
  adds_under_model_dir w (World (<[ "./model/" +:+ name := x ]> (fs w)) (journal w) (globals w)).
Proof.
  intros Hname. split; [done|]. split; [done|]. intros path. cbn [fs].
  destruct (decide (path = "./model/" +:+ name)) as [-> | Hne].
  - right. rewrite lookup_insert_eq. split; [by eexists|]. right. by exists name.
  - left. by rewrite lookup_insert_ne.
Qed.

Lemma download_object_adds (O : outside) (bucket key : string) (w : world) :
  adds_under_model_dir w (snd (download_object O bucket key w)).
Proof.
  unfold download_object. destruct (endswith key "/"); cbn [negb]; [apply adds_refl|].
  unfold s3_download_file. rewrite local_path_under_model_dir. io_step.
  destruct (download_file O bucket key _); cbn [snd].
  - eapply adds_trans; [apply adds_note|].
    eapply adds_trans; [apply adds_write, basename_no_sep|]. apply adds_note.
  - apply adds_note.
Qed.

Lemma io_for_adds {A} (body : A -> IO unit) (xs : list A) :
  (forall x w, adds_under_model_dir w (snd (body x w))) ->
  forall w, adds_under_model_dir w (snd (io_for xs body w)).
Proof.
  intros Hbody. induction xs as [| x xs IH]; intros w; cbn [io_for].
  - apply adds_refl.
  - unfold io_bind. pose proof (Hbody x w) as Hx.
    destruct (body x w) as [[[] | e] w1]; cbn [snd] in *; [|done].
    eapply adds_trans; [exact Hx | apply IH].
Qed.

Lemma download_page_adds (O : outside) (bucket : string) (pg : page) (w : world) :
  adds_under_model_dir w (snd (download_page O bucket pg w)).
Proof.
  destruct pg as [contents|]; cbn [download_page]; [|apply adds_refl].
  apply io_for_adds. intros key w0. apply download_object_adds.
Qed.

Lemma download_present (O : outside) (w : world) :
  is_Some (fs w !! model_dir) -> download_model_from_s3 O w = (Ok model_dir, w).
Proof.
  intros [x Hx]. unfold download_model_from_s3. io_step. by rewrite Hx.
Qed.

Lemma adds_keeps (w w' : world) (path : string) :
  adds_under_model_dir w w' -> is_Some (fs w !! path) -> is_Some (fs w' !! path).
Proof.
  intros (_ & _ & Hf) Hsome. destruct (Hf path) as [-> | [H _]]; done.
Qed.

(** The download on a world without the model directory, when the client
    and the directory can be made: the loop over the pages runs on the
    opened world, and the outcome is the loop's, or the listing's failure. *)
Lemma download_absent_opened (O : outside) (w : world) pages failure :
  fs w !! model_dir = None ->
  boto3_client O = Ok tt -> makedirs O model_dir = Ok tt ->
  paginate O (getenv O "MODEL_BUCKET" "your-bucket-name")
             (getenv O "MODEL_PREFIX" "models/gender-classification-final/")
    = (pages, failure) ->
  download_model_from_s3 O w
  = match io_for pages (download_page O (getenv O "MODEL_BUCKET" "your-bucket-name"))
                 (opened O w) with
    | (Ok _, w4) =>
        match failure with
        | Some e => (Raise e, w4)
        | None => (Ok model_dir,
                   World (fs w4) (journal w4 ++ [Logged INFO "Model download completed!"])
                         (globals w4))
        end
    | (Raise e, w4) => (Raise e, w4)
    end.
Proof.
  intros Hfs Hclient Hmk Hpages.
  unfold download_model_from_s3, os_makedirs, opened. io_step.
  rewrite Hfs, Hclient. cbn [negb]. io_step. rewrite Hfs, Hmk. io_step.
  rewrite Hpages. io_step. rewrite <- !app_assoc. cbn [app].
  destruct (io_for pages _ _) as [[[]|e] w4]; [|reflexivity].
  destruct failure; reflexivity.
Qed.

Lemma download_absent (O : outside) (w : world) :
  fs w !! model_dir = None ->
  boto3_client O = Ok tt -> makedirs O model_dir = Ok tt ->
  exists w3 pages failure,
    paginate O (getenv O "MODEL_BUCKET" "your-bucket-name")
               (getenv O "MODEL_PREFIX" "models/gender-classification-final/")
      = (pages, failure)
    /\ fs w3 = <[model_dir := Dir]> (fs w)
    /\ adds_under_model_dir w w3
    /\ download_model_from_s3 O w
       = match io_for pages (download_page O (getenv O "MODEL_BUCKET" "your-bucket-name")) w3 with
         | (Ok _, w4) =>
             match failure with
             | Some e => (Raise e, w4)
             | None => (Ok model_dir,
                        World (fs w4) (journal w4 ++ [Logged INFO "Model download completed!"])
                              (globals w4))
             end
         | (Raise e, w4) => (Raise e, w4)
         end.
Proof.
  intros Hfs Hclient Hmk.
  destruct (paginate O (getenv O "MODEL_BUCKET" "your-bucket-name")
                       (getenv O "MODEL_PREFIX" "models/gender-classification-final/"))
    as [pages failure] eqn:Hpages.
  exists (opened O w), pages, failure.
  split; [reflexivity|]. split; [reflexivity|]. split.
  - split; [done|]. cbn [opened journal fs]. split; [by apply prefix_app_r|].
    intros path. destruct (decide (path = model_dir)) as [-> | Hne].
    + right. rewrite lookup_insert_eq. split; [by eexists | by left].
    + left. by rewrite lookup_insert_ne.
  - by apply download_absent_opened.
Qed.

Lemma adds_journal (w : world) (j : list effect) :
  adds_under_model_dir w (World (fs w) (journal w ++ j) (globals w)).
Proof.
  split; [done|]. split; [by apply prefix_app_r|]. intros path. by left.
Qed.

Lemma download_adds (O : outside) (w : world) :
  adds_under_model_dir w (snd (download_model_from_s3 O w)).
Proof.
  destruct (fs w !! model_dir) as [x|] eqn:Hfs.
  { rewrite download_present by (by eexists). apply adds_refl. }
  destruct (boto3_client O) as [[]|e] eqn:Hclient.
  2: { unfold download_model_from_s3. io_step. rewrite Hfs, Hclient. cbn [negb snd].
       rewrite <- !app_assoc. apply adds_journal. }
  destruct (makedirs O model_dir) as [[]|e] eqn:Hmk.
  2: { unfold download_model_from_s3, os_makedirs. io_step.
       rewrite Hfs, Hclient. cbn [negb]. io_step. rewrite Hfs, Hmk. cbn [snd].
       rewrite <- !app_assoc. apply adds_journal. }
  destruct (download_absent O w Hfs Hclient Hmk)
    as (w3 & pages & failure & _ & _ & H3 & ->).
  pose proof (io_for_adds (download_page O (getenv O "MODEL_BUCKET" "your-bucket-name")) pages
                (download_page_adds O _) w3) as H4.
  destruct (io_for pages _ w3) as [[[]|e] w4]; cbn [snd] in *.
  - destruct failure as [e|]; cbn [snd].
    + by eapply adds_trans.
    + eapply adds_trans; [exact H3|]. eapply adds_trans; [exact H4|]. apply adds_note.
  - by eapply adds_trans.
Qed.

(** X12. With the model directory in place (or a file of that name), the
    download does nothing at all: it returns the path, calls nothing and
    logs nothing. *)
Theorem download_skips_existing_dir (O : outside) (w : world) :
  is_Some (fs w !! model_dir) ->
  download_model_from_s3 O w = (Ok model_dir, w).
Proof. apply download_present. Qed.

Lemma download_not_repeated_aux (O : outside) (w w' : world) (r : result string) :
  boto3_client O = Ok tt -> makedirs O model_dir = Ok tt ->
  download_model_from_s3 O w = (r, w') ->
  is_Some (fs w' !! model_dir).
Proof.
  intros Hclient Hmk Hrun.
  destruct (fs w !! model_dir) as [x|] eqn:Hfs.
  { rewrite download_present in Hrun by (by eexists). injection Hrun as _ <-. by eexists. }
  destruct (download_absent O w Hfs Hclient Hmk)
    as (w3 & pages & failure & _ & Hfs3 & _ & Heq).
  rewrite Heq in Hrun. clear Heq.
  pose proof (io_for_adds (download_page O (getenv O "MODEL_BUCKET" "your-bucket-name")) pages
                (download_page_adds O _) w3) as H4.
  assert (is_Some (fs w3 !! model_dir)) as H3.
  { rewrite Hfs3, lookup_insert_eq. by eexists. }
  destruct (io_for pages _ w3) as [[[]|e] w4]; cbn [snd] in H4;
    pose proof (adds_keeps _ _ _ H4 H3) as Hkeep.
  - destruct failure; injection Hrun as _ <-; exact Hkeep.
  - injection Hrun as _ <-. exact Hkeep.
Qed.

(** X13. A download that got as far as making the directory is never
    repeated: however it ended, also with an exception after some of the
    files, the next call finds the directory and returns at once, whatever
    S3 would answer then. *)
Theorem download_not_repeated (O O' : outside) (w w' : world) (r : result string) :
  boto3_client O = Ok tt -> makedirs O model_dir = Ok tt ->
  download_model_from_s3 O w = (r, w') ->
  download_model_from_s3 O' w' = (Ok model_dir, w').
Proof.
  intros Hclient Hmk Hrun. apply download_present.
  by eapply download_not_repeated_aux.
Qed.

(** X14. Whatever the listing holds and however the download ends, it
    writes only the model directory and files directly inside it: every
    other path of the file system is as before, nothing is removed, and the
    globals are not touched. *)
Theorem download_writes_only_model_dir (O : outside) (w w' : world) (r : result string) :
  download_model_from_s3 O w = (r, w') ->
  globals w' = globals w
  /\ (forall path, is_Some (fs w !! path) -> is_Some (fs w' !! path))
  /\ (forall path, path <> model_dir -> (forall name, path <> "./model/" +:+ name) ->
        fs w' !! path = fs w !! path)
  /\ (forall name, str_in "/" name = true ->
        fs w' !! ("./model/" +:+ name) = fs w !! ("./model/" +:+ name)).
Proof.
  intros Hrun. pose proof (download_adds O w) as Hadds. rewrite Hrun in Hadds.
  cbn [snd] in Hadds. split; [apply Hadds|]. split; [|split].
  - intros path. by apply adds_keeps.
  - intros path Hne Hnot. destruct Hadds as (_ & _ & Hf).
    destruct (Hf path) as [-> | (_ & [-> | (name & -> & _)])]; [done|done|].
    by destruct (Hnot name).
  - intros name Hname. destruct Hadds as (_ & _ & Hf).
    destruct (Hf ("./model/" +:+ name)) as [-> | (_ & [H | (name' & H & Hno)])]; [done| |].
    + discriminate H.
    + cbv [String.append] in H. injection H as ->. congruence.
Qed.

(** ** The files a completed download leaves *)

Lemma download_objects_ok (O : outside) (bucket : string) (keys : list string) :
  forall w w',
    io_for keys (download_object O bucket) w = (Ok tt, w') ->
    fs w' = foldl (stored O bucket) (fs w)
                  (List.filter (fun key => negb (endswith key "/")) keys)
    /\ Forall (fun key => exists body,
                 download_file O bucket key (path_join model_dir (basename key)) = Ok body)
              (List.filter (fun key => negb (endswith key "/")) keys).
Proof.
  induction keys as [| key keys IH]; intros w w'; cbn [io_for List.filter].
  - intros [= <-]. by split.
  - unfold io_bind at 1. unfold download_object at 1.
    destruct (endswith key "/"); cbn [negb].
    + io_step. apply IH.
    + unfold s3_download_file. io_step.
      destruct (download_file O bucket key _) as [body|e] eqn:Hdl; [|done].
      intros Hrun. apply IH in Hrun as [Hfs Hall]. cbn [fs] in Hfs.
      cbn [foldl]. unfold stored at 2. rewrite Hdl. split; [exact Hfs|].
      constructor; [by exists body | exact Hall].
Qed.

Lemma download_pages_ok (O : outside) (bucket : string) (pages : list page) :
  forall w w',
    io_for pages (download_page O bucket) w = (Ok tt, w') ->
    fs w' = foldl (stored O bucket) (fs w) (listed_keys pages)
    /\ Forall (fun key => exists body,
                 download_file O bucket key (path_join model_dir (basename key)) = Ok body)
              (listed_keys pages).
Proof.
  unfold listed_keys.
  induction pages as [| pg pages IH]; intros w w'; cbn [io_for].
  - intros [= <-]. by split.
  - unfold io_bind at 1.
    destruct (download_page O bucket pg w) as [[[]|e] w1] eqn:Hpg; [|done].
    intros Hrest. apply IH in Hrest as [Hfs Hall].
    destruct pg as [contents|]; cbn [download_page] in Hpg.
    + apply download_objects_ok in Hpg as [Hfs1 Hall1].
      cbn [omap list_omap id concat]. rewrite List.filter_app, foldl_app, <- Hfs1.
      split; [exact Hfs|]. by apply Forall_app.
    + injection Hpg as <-. cbn [omap list_omap id]. by split.
Qed.

Lemma stored_elsewhere (O : outside) (bucket : string) (keys : list string) (path : string) :
  forall files,
    (forall key, key ∈ keys -> path_join model_dir (basename key) <> path) ->
    foldl (stored O bucket) files keys !! path = files !! path.
Proof.
  induction keys as [| key keys IH]; intros files Hother; [reflexivity|].
  cbn [foldl]. rewrite IH by (intros k Hk; apply Hother; by right).
  unfold stored. destruct (download_file O bucket key _); [|reflexivity].
  rewrite lookup_insert_ne; [reflexivity|]. apply Hother. by left.
Qed.

(** The last key of a list with a given base name. *)
Lemma last_with_basename (keys : list string) (key : string) :
  key ∈ keys ->
  exists before winner after,
    keys = before ++ winner :: after /\ basename winner = basename key /\
    forall k, k ∈ after -> basename k <> basename key.
Proof.
  induction keys as [| k keys IH] using rev_ind; [by intros ?%elem_of_nil|].
  intros Hin. destruct (decide (basename k = basename key)) as [Heq | Hne].
  - exists keys, k, []. split; [reflexivity|]. split; [exact Heq|].
    by intros ? ?%elem_of_nil.
  - apply elem_of_app in Hin as [Hin | Hin].
    + destruct (IH Hin) as (before & winner & after & -> & Hw & Hafter).
      exists before, winner, (after ++ [k]). split; [by rewrite <- app_assoc|].
      split; [exact Hw|]. intros k' [Hk' | Hk']%elem_of_app; [by apply Hafter|].
      apply list_elem_of_singleton in Hk' as ->. exact Hne.
    + apply list_elem_of_singleton in Hin as ->. done.
Qed.

Lemma local_path_inj (a b : string) :
  path_join model_dir (basename a) = path_join model_dir (basename b) ->
  basename a = basename b.
Proof.
  rewrite !local_path_under_model_dir. cbv [String.append]. by intros [= H].
Qed.

(** A download that returns on a world without the directory had its client
    and its directory. *)
Lemma download_returned (O : outside) (w w' : world) (dir : string) :
  fs w !! model_dir = None ->
  download_model_from_s3 O w = (Ok dir, w') ->
  boto3_client O = Ok tt /\ makedirs O model_dir = Ok tt.
Proof.
  intros Hfs. unfold download_model_from_s3, os_makedirs. io_step.
  rewrite Hfs. cbn [negb]. io_step.
  destruct (boto3_client O) as [[]|e]; [|done]. rewrite Hfs.
  destruct (makedirs O model_dir) as [[]|e]; [|done]. done.
Qed.

(** X15. After a download that returns, every listed key has its file
    directly in the model directory, under the key's base name; the
    prefixes of the keys are dropped.  Where several keys share a base name
    the file holds the object of the last of them in the listing. *)
Theorem download_flattens_keys (O : outside) (w w' : world) (dir key : string) :
  fs w !! model_dir = None ->
  download_model_from_s3 O w = (Ok dir, w') ->
  key ∈ listed_keys (fst (paginate O (getenv O "MODEL_BUCKET" "your-bucket-name")
                                     (getenv O "MODEL_PREFIX"
                                             "models/gender-classification-final/"))) ->
  exists before winner after body,
    listed_keys (fst (paginate O (getenv O "MODEL_BUCKET" "your-bucket-name")
                                 (getenv O "MODEL_PREFIX"
                                         "models/gender-classification-final/")))
      = before ++ winner :: after
    /\ basename winner = basename key
    /\ (forall k, k ∈ after -> basename k <> basename key)
    /\ download_file O (getenv O "MODEL_BUCKET" "your-bucket-name") winner
                     ("./model/" +:+ basename key) = Ok body
    /\ fs w' !! ("./model/" +:+ basename key) = Some (File body).
Proof.
  intros Hfs Hrun Hkey.
  destruct (download_returned O w w' dir Hfs Hrun) as [Hclient Hmk].
  destruct (download_absent O w Hfs Hclient Hmk)
    as (w3 & pages & failure & Hpages & Hfs3 & _ & Heq).
  rewrite Heq in Hrun. clear Heq. rewrite Hpages in *. cbn [fst] in *.
  destruct (io_for pages _ w3) as [[[]|e] w4] eqn:Hloop; [|done].
  apply download_pages_ok in Hloop as [Hfs4 Hall].
  assert (fs w' = fs w4) as -> by (destruct failure; by injection Hrun as _ <-).
  destruct (last_with_basename _ _ Hkey) as (before & winner & after & Hsplit & Hw & Hafter).
  rewrite Hsplit in Hall. apply Forall_app in Hall as [_ Hall].
  apply Forall_cons in Hall as [[body Hbody] _].
  exists before, winner, after, body. split; [exact Hsplit|]. split; [exact Hw|].
  split; [exact Hafter|].
  rewrite <- Hw, <- local_path_under_model_dir. split; [exact Hbody|].
  rewrite Hfs4, Hsplit, foldl_app. cbn [foldl].
  rewrite stored_elsewhere.
  - unfold stored. rewrite Hbody. apply lookup_insert_eq.
  - intros k Hk Heq. apply local_path_inj in Heq. apply (Hafter k Hk). congruence.
Qed.

(** ** The calls of a completed download *)

Lemma download_objects_journal (O : outside) (bucket : string) (keys : list string) :
  forall w w',
    io_for keys (download_object O bucket) w = (Ok tt, w') ->
    journal w' = journal w ++ flat_map (transfer bucket)
                                (List.filter (fun key => negb (endswith key "/")) keys).
Proof.
  induction keys as [| key keys IH]; intros w w'; cbn [io_for List.filter].
  - intros [= <-]. cbn [flat_map]. by rewrite app_nil_r.
  - unfold io_bind at 1. unfold download_object at 1.
    destruct (endswith key "/"); cbn [negb].
    + io_step. apply IH.
    + unfold s3_download_file. rewrite local_path_under_model_dir. io_step.
      destruct (download_file O bucket key _) as [body|e]; [|done].
      intros Hrun. apply IH in Hrun. cbn [journal] in Hrun.
      rewrite Hrun. cbn [flat_map transfer]. rewrite <- !app_assoc. reflexivity.
Qed.

Lemma download_pages_journal (O : outside) (bucket : string) (pages : list page) :
  forall w w',
    io_for pages (download_page O bucket) w = (Ok tt, w') ->
    journal w' = journal w ++ flat_map (transfer bucket) (listed_keys pages).
Proof.
  unfold listed_keys.
  induction pages as [| pg pages IH]; intros w w'; cbn [io_for].
  - intros [= <-]. cbn. by rewrite app_nil_r.
  - unfold io_bind at 1.
    destruct (download_page O bucket pg w) as [[[]|e] w1] eqn:Hpg; [|done].
    intros Hrest. apply IH in Hrest. rewrite Hrest.
    destruct pg as [contents|]; cbn [download_page] in Hpg.
    + apply download_objects_journal in Hpg. rewrite Hpg.
      cbn [omap list_omap id concat].
      by rewrite List.filter_app, flat_map_app, <- app_assoc.
    + injection Hpg as <-. reflexivity.
Qed.

(** X16. A download that returns asked for every listed object exactly once
    and in the order of the listing, each to the file of its base name, and
    logged each transfer after it; keys that end in a slash and pages without
    contents are passed over.  Nothing else was called. *)
Theorem download_calls_in_listing_order (O : outside) (w w' : world) (dir : string) :
  fs w !! model_dir = None ->
  download_model_from_s3 O w = (Ok dir, w') ->
  dir = model_dir
  /\ journal w'
     = journal (opened O w)
       ++ flat_map (transfer (getenv O "MODEL_BUCKET" "your-bucket-name"))
            (listed_keys
               (fst (paginate O (getenv O "MODEL_BUCKET" "your-bucket-name")
                              (getenv O "MODEL_PREFIX"
                                      "models/gender-classification-final/"))))
       ++ [Logged INFO "Model download completed!"]
  /\ snd (paginate O (getenv O "MODEL_BUCKET" "your-bucket-name")
                   (getenv O "MODEL_PREFIX" "models/gender-classification-final/"))
     = None.
Proof.
  intros Hfs Hrun.
  destruct (download_returned O w w' dir Hfs Hrun) as [Hclient Hmk].
  destruct (paginate O (getenv O "MODEL_BUCKET" "your-bucket-name")
                       (getenv O "MODEL_PREFIX" "models/gender-classification-final/"))
    as [pages failure] eqn:Hpages.
  rewrite (download_absent_opened O w pages failure Hfs Hclient Hmk Hpages) in Hrun.
  cbn [fst snd].
  destruct (io_for pages _ (opened O w)) as [[[]|e] w4] eqn:Hloop; [|done].
  apply download_pages_journal in Hloop.
  destruct failure as [e|]; [done|]. injection Hrun as <- <-.
  split; [reflexivity|]. split; [|reflexivity].
  cbn [journal]. rewrite Hloop. by rewrite <- app_assoc.
Qed.

(** ** Loading *)

(** How the body of [load_models] ends: with the three globals assigned and
    the closing record, or with an exception that left the detector as it
    was, and the classifier as it was unless the processor was assigned
    too. *)
Lemma load_models_try_cases (O : outside) (w : world) :
  exists r w',
    load_models_try O w = (r, w') /\
    ((r = Ok tt
      /\ is_Some (the_processor (globals w'))
      /\ is_Some (the_model (globals w'))
      /\ is_Some (the_person_detector (globals w'))
      /\ last (journal w') = Some (Logged INFO "All models loaded successfully!"))
     \/ (exists e, r = Raise e
         /\ the_person_detector (globals w') = the_person_detector (globals w)
         /\ (the_model (globals w') = the_model (globals w)
             \/ is_Some (the_model (globals w')) /\ is_Some (the_processor (globals w')))
         /\ (the_processor (globals w') = the_processor (globals w)
             \/ is_Some (the_processor (globals w'))))).
Proof.
  unfold load_models_try. unfold io_bind at 1.
  pose proof (download_adds O w) as (Hg & _ & _).
  destruct (download_model_from_s3 O w) as [[dir|e] w1]; cbn [snd] in Hg.
  2: { eexists _, _. split; [reflexivity|]. right. exists e. rewrite Hg. auto. }
  rewrite <- Hg. clear Hg w. io_step.
  destruct (processor_from_pretrained O dir (fs w1)) as [[p|e] c1]; io_step.
  2: { eexists _, _. split; [reflexivity|]. right. exists e. cbn [globals]. auto. }
  destruct (model_from_pretrained O dir _) as [[m|e] c2]; io_step.
  2: { eexists _, _. split; [reflexivity|]. right. exists e.
       cbn [globals the_processor the_model the_person_detector]. eauto 6. }
  destruct (pipeline O "object-detection" "facebook/detr-resnet-50" _) as [[d|e] c3]; io_step.
  2: { eexists _, _. split; [reflexivity|]. right. exists e.
       cbn [globals the_processor the_model the_person_detector]. eauto 8. }
  eexists _, _. split; [reflexivity|]. left.
  cbn [globals journal the_processor the_model the_person_detector].
  rewrite last_snoc. eauto 8.
Qed.

(** X17. [load_models] ends in one of two ways.  It returns with the three
    globals assigned and "All models loaded successfully!" as its last
    record; or it raises the exception that stopped it, unchanged, after
    logging it as its last record. *)
Theorem load_models_outcomes (O : outside) (w : world) :
  (fst (load_models O w) = Ok tt
   /\ globals (snd (load_models O w)) <> Models None None None
   /\ is_Some (the_processor (globals (snd (load_models O w))))
   /\ is_Some (the_model (globals (snd (load_models O w))))
   /\ is_Some (the_person_detector (globals (snd (load_models O w))))
   /\ last (journal (snd (load_models O w)))
      = Some (Logged INFO "All models loaded successfully!"))
  \/ (exists e,
        fst (load_models O w) = Raise e
        /\ fst (load_models_try O w) = Raise e
        /\ last (journal (snd (load_models O w)))
           = Some (Logged ERROR ("Error loading models: " +:+ str_exn e))).
Proof.
  unfold load_models, io_try.
  destruct (load_models_try_cases O w) as (r & w' & -> & [H | (e & -> & _)]).
  - destruct H as (-> & Hp & Hm & Hd & Hlast). left. cbn [fst snd].
    split; [done|]. split; [|done]. intros Heq. rewrite Heq in Hp. by destruct Hp.
  - right. exists e. io_step. cbn [fst snd journal]. by rewrite last_snoc.
Qed.

(** X18. GET /health after startup in a fresh process.  The status reads
    "healthy" however startup ended.  [detector_loaded] is true exactly when
    [load_models] returned; the detector is never loaded without the
    classifier, nor the classifier without the processor. *)
Theorem health_after_startup (O : outside) (w w' : world) (r : result unit) :
  globals w = Models None None None ->
  startup_event O w = (r, w') ->
  health_check w' !! "status" = Some (HStr "healthy")
  /\ (health_check w' !! "detector_loaded" = Some (HBool true) <-> r = Ok tt)
  /\ (health_check w' !! "detector_loaded" = Some (HBool true) ->
      health_check w' !! "model_loaded" = Some (HBool true))
  /\ (health_check w' !! "model_loaded" = Some (HBool true) ->
      health_check w' !! "processor_loaded" = Some (HBool true)).
Proof.
  intros Hfresh. unfold startup_event, load_models, io_try, health_check.
  destruct (load_models_try_cases O w) as (r0 & w0 & -> & Hcase).
  rewrite Hfresh in Hcase. cbn [the_processor the_model the_person_detector] in Hcase.
  destruct Hcase as [(-> & [p Hp] & [m Hm] & [d Hd] & _) | (e & -> & Hd & Hm & Hp)].
  - intros [= <- <-]. rewrite Hp, Hm, Hd. cbn [is_not_none].
    split; [by simplify_map_eq|]. split; [split; [done|by simplify_map_eq]|].
    split; intros _; by simplify_map_eq.
  - io_step. intros [= <- <-]. cbn [globals]. rewrite Hd. cbn [is_not_none].
    split; [by simplify_map_eq|]. split; [split; intros H; by simplify_map_eq|].
    split; [intros H; by simplify_map_eq|].
    destruct Hm as [-> | [[m ->] [p ->]]]; cbn [is_not_none].
    + intros H. by simplify_map_eq.
    + intros _. by simplify_map_eq.
Qed.


(** X20. Once a load got as far as making the model directory, no later
    load in the same file system goes to S3 again: it goes straight to the
    loaders, which get the directory as the earlier load left it, complete
    or not; when the processor cannot be loaded from it, the load fails
    with the loader's exception. *)
Theorem reload_never_downloads (O O' : outside) (w w' : world) (r : result unit) :
  boto3_client O = Ok tt -> makedirs O model_dir = Ok tt ->
  load_models O w = (r, w') ->
  exists later,
    journal (snd (load_models O' w')) = journal w' ++ later
    /\ Forall (fun ef => is_s3_call ef = false) later
    /\ head later = Some (Logged INFO "Loading gender classification model...")
    /\ (forall e, fst (processor_from_pretrained O' model_dir (fs w')) = Raise e ->
          fst (load_models O' w') = Raise e).
Proof.
  intros Hclient Hmk Hrun.
  assert (is_Some (fs w' !! model_dir)) as Hdir.
  { revert Hrun. unfold load_models, io_try, load_models_try. unfold io_bind at 1.
    destruct (download_model_from_s3 O w) as [[dir|e] w1] eqn:Hdl;
      pose proof (download_not_repeated_aux O w w1 _ Hclient Hmk Hdl) as H1.
    2: { io_step. by intros [= <- <-]. }
    io_step.
    destruct (processor_from_pretrained O dir (fs w1)) as [[p|e] c1]; io_step;
      [destruct (model_from_pretrained O dir _) as [[m|e] c2]; io_step;
        [destruct (pipeline O "object-detection" "facebook/detr-resnet-50" _)
           as [[d|e] c3]; io_step|]|];
      intros [= <- <-]; cbn [fs]; rewrite !lookup_union_is_Some; auto. }
  destruct (load_models O' w') as [r' w''] eqn:Hrun'. cbn [fst snd]. revert Hrun'.
  unfold load_models, io_try, load_models_try. unfold io_bind at 1.
  rewrite (download_present O' w' Hdir). io_step.
  destruct (processor_from_pretrained O' model_dir (fs w')) as [[p|e] c1]; io_step;
    [destruct (model_from_pretrained O' model_dir _) as [[m|e] c2]; io_step;
      [destruct (pipeline O' "object-detection" "facebook/detr-resnet-50" _)
         as [[d|e] c3]; io_step|]|];
    intros [= <- <-]; eexists; cbn [journal]; rewrite <- !app_assoc;
    (split; [reflexivity|]); (split; [by repeat constructor|]);
    (split; [reflexivity|]); cbn [fst]; congruence.
Qed.

(** ** The handlers before the models are loaded *)

(** X21. While the globals are still [None], POST /predict answers every
    upload that decodes with the 500 of a failed prediction.  The detector
    call fails and is counted as one person, so the classifier stage is
    entered and fails in turn; both failures are logged.  The batch reports
    the same message in the file's entry. *)
Theorem predict_before_startup
    (decode : list Z -> result image) (file : upload_file) ct data img results :
  content_type file = Some ct -> startswith ct "image/" = true ->
  file_read file = Ok data -> decode data = Ok img ->
  predict_gender (before_startup decode) file
    = (Raise (HTTPException 500 "Prediction failed: 'NoneType' object is not callable"),
       [CallRead file; CallImageOpen data; CallDetector img;
        LogError "Error in person detection: 'NoneType' object is not callable";
        CallClassifier img;
        LogError "Error in prediction: 'NoneType' object is not callable"])
  /\ batch_step (before_startup decode) results file
     = (Ok (results ++ [failure_entry file "'NoneType' object is not callable"]),
        [CallRead file; CallImageOpen data; CallDetector img;
         LogError "Error in person detection: 'NoneType' object is not callable";
         CallClassifier img]).
Proof.
  intros Hct Hsw Hr Ho. split.
  - unfold predict_gender, content_type_is_image, predict_gender_try.
    rewrite Hct, Hsw, Hr. mstep. cbn [image_open before_startup]. rewrite Ho. reflexivity.
  - unfold batch_step, batch_item, content_type_is_image.
    rewrite Hct, Hsw, Hr. mstep. cbn [image_open before_startup]. rewrite Ho. reflexivity.
Qed.

(** * The further properties at work *)

Lemma count_people_at_most_labelled_witness :
  exists n t,
    count_people_in_image E_crowd img_100 = (Ok n, t) /\
    0 <= n <= Z.of_nat (length (List.filter person_label crowd)).
Proof. apply (count_people_at_most_labelled E_crowd img_100 crowd). reflexivity. Defined.

Lemma count_people_on_empty_image_witness :
  count_people_in_image E_crowd img_flat
  = if existsb person_label crowd
    then (Ok 1, [CallDetector img_flat;
                 LogError "Error in person detection: division by zero"])
    else (Ok 0, [CallDetector img_flat]).
Proof.
  apply (count_people_on_empty_image E_crowd img_flat crowd).
  - reflexivity.
  - reflexivity.
Defined.

Lemma count_people_order_independent_witness :
  count_people_in_image E_crowd img_100 = count_people_in_image E_crowd_reversed img_100.
Proof.
  apply (count_people_order_independent E_crowd E_crowd_reversed img_100 crowd (reverse crowd)).
  - reflexivity.
  - reflexivity.
  - symmetry. apply reverse_Permutation.
Defined.

Lemma predict_payload_kinds_witness :
  exists d n,
    VDict {[ "error" := VStr "No person detected in image";
             "person_count" := VInt 0;
             "prediction" := VNone;
             "confidence" := VFloat lit_0_0 ]} = VDict d
    /\ d !! "person_count" = Some (VInt n) /\ 0 <= n /\
    ((n = 1 /\ d !! "error" = Some VNone /\
      (exists lbl, d !! "prediction" = Some (VStr lbl)) /\
      (exists conf, d !! "confidence" = Some (VFloat conf)) /\
      (exists probs, d !! "probabilities" = Some (VDict probs)))
     \/ (n <> 1 /\ (exists msg, d !! "error" = Some (VStr msg)) /\
         d !! "prediction" = Some VNone /\
         d !! "confidence" = Some (VFloat lit_0_0) /\
         d !! "probabilities" = None)).
Proof. apply (predict_payload_kinds E_empty (jpeg "nobody.jpg")). reflexivity. Defined.

Lemma predict_after_detector_failure_witness :
  predict_gender E_down (jpeg "one.jpg")
  = (Ok (VDict {[ "prediction" := VStr "male";
                  "confidence" := VFloat (float_literal 9 10);
                  "person_count" := VInt 1;
                  "probabilities" := VDict {[ "male" := VFloat (float_literal 9 10);
                                              "female" := VFloat (float_literal 1 10) ]};
                  "error" := VNone ]}),
     [CallRead (jpeg "one.jpg"); CallImageOpen []; CallDetector img_100;
      LogError ("Error in person detection: " +:+ str_exn detector_down);
      CallClassifier img_100]).
Proof.
  apply (proj2 (proj2 (proj2 (predict_after_detector_failure
                                E_down (jpeg "one.jpg") "image/jpeg" [] img_100 detector_down
                                eq_refl eq_refl eq_refl eq_refl eq_refl)))
           probs_9_1 0 (float_literal 9 10) "male" (float_literal 9 10) (float_literal 1 10)).
  - reflexivity.
  - reflexivity.
  - reflexivity.
  - reflexivity.
  - reflexivity.
  - reflexivity.
Defined.

Lemma undeclared_content_type_witness :
  predict_gender E_single untyped
    = (Raise (PyError "AttributeError" "'NoneType' object has no attribute 'startswith'"), [])
  /\ respond (fst (predict_gender E_single untyped)) = Response 500 (VStr "Internal Server Error")
  /\ forall results,
       batch_step E_single results untyped
       = (Ok (results ++
                [VDict {[ "filename" := value_of_name (filename untyped);
                          "error" := VStr "'NoneType' object has no attribute 'startswith'";
                          "prediction" := VNone;
                          "confidence" := VFloat lit_0_0 ]}]),
          []).
Proof. apply (undeclared_content_type E_single untyped). reflexivity. Defined.

Lemma batch_entry_agrees_with_predict_witness :
  exists entry,
    batch_step E_pair [] (jpeg "pair.jpg")
      = (Ok ([] ++ [VDict entry]), snd (predict_gender E_pair (jpeg "pair.jpg"))) /\
    entry !! "filename" = Some (value_of_name (filename (jpeg "pair.jpg"))) /\
    entry !! "prediction" = Some VNone /\
    entry !! "confidence" = Some (VFloat lit_0_0) /\
    entry !! "person_count" = Some (VInt 2).
Proof.
  destruct (batch_entry_agrees_with_predict E_pair (jpeg "pair.jpg")
              {[ "error" := VStr "Multiple people detected (2 people). Please use single-person images.";
                 "person_count" := VInt 2;
                 "prediction" := VNone;
                 "confidence" := VFloat lit_0_0 ]} [] eq_refl)
    as (entry & Hstep & Hname & Hp & Hc & Hn & _).
  exists entry. split; [exact Hstep|]. split; [exact Hname|].
  split; [exact Hp|]. split; [exact Hc | exact Hn].
Defined.

Lemma single_class_model_diverges_witness :
  fst (batch_step E_one_class [] (jpeg "one.jpg"))
    = Ok ([] ++
            [VDict {[ "filename" := value_of_name (filename (jpeg "one.jpg"));
                      "prediction" := VStr "person";
                      "confidence" := VFloat (float_of_int 1);
                      "person_count" := VInt 1;
                      "error" := VNone ]}])
  /\ respond (fst (predict_gender E_one_class (jpeg "one.jpg")))
     = Response 500
         (VDict {[ "detail" :=
                     VStr "Prediction failed: index 1 is out of bounds for dimension 0 with size 1" ]}).
Proof.
  apply (single_class_model_diverges E_one_class (jpeg "one.jpg") img_100 (float_of_int 1)
           "person" []).
  - apply reaches_count_jpeg; reflexivity.
  - reflexivity.
  - reflexivity.
Defined.

Lemma batch_failure_entries_witness :
  batch_step E_single [] notes = (Ok ([] ++ [failure_entry notes "File must be an image"]), [])
  /\ batch_step E_undecodable [] (jpeg "broken.jpg")
     = (Ok ([] ++ [failure_entry (jpeg "broken.jpg") (str_exn cannot_identify)]),
        [CallRead (jpeg "broken.jpg"); CallImageOpen []]).
Proof.
  split.
  - apply (proj1 (batch_failure_entries E_single notes [] "text/plain" eq_refl)).
    reflexivity.
  - apply (proj1 (proj2 (proj2 (batch_failure_entries
                                  E_undecodable (jpeg "broken.jpg") [] "image/jpeg" eq_refl)
                                eq_refl))
             [] cannot_identify).
    + reflexivity.
    + reflexivity.
Defined.

Lemma predict_batch_app_witness :
  predict_batch E_mixed ([portrait] ++ [landscape])
  = (Ok (VDict {[ "results" :=
          VList ([VDict {[ "filename" := VStr "portrait.jpg";
                           "prediction" := VStr "male";
                           "confidence" := VFloat (float_literal 9 10);
                           "person_count" := VInt 1;
                           "error" := VNone ]}]
                 ++ [VDict {[ "filename" := VStr "landscape.jpg";
                              "error" := VStr "Expected 1 person, found 0";
                              "person_count" := VInt 0;
                              "prediction" := VNone;
                              "confidence" := VFloat lit_0_0 ]}]) ]}),
     snd (predict_batch E_mixed [portrait]) ++ snd (predict_batch E_mixed [landscape])).
Proof.
  apply (predict_batch_app E_mixed [portrait] [landscape]).
  - simpl. lia.
  - vm_compute. reflexivity.
  - vm_compute. reflexivity.
Defined.

Lemma download_skips_existing_dir_witness :
  download_model_from_s3 O_bucket (fresh {[ "./model" := Dir ]})
  = (Ok model_dir, fresh {[ "./model" := Dir ]}).
Proof.
  apply (download_skips_existing_dir O_bucket (fresh {[ "./model" := Dir ]})).
  exists Dir. reflexivity.
Defined.

(** The listing broke after the configuration was fetched; the next call,
    with the bucket in reach, leaves the directory without the model. *)
Lemma download_not_repeated_witness :
  fst (download_model_from_s3 O_cut_off (fresh ∅)) = Raise connection_lost
  /\ download_model_from_s3 O_bucket (snd (download_model_from_s3 O_cut_off (fresh ∅)))
     = (Ok model_dir, snd (download_model_from_s3 O_cut_off (fresh ∅)))
  /\ fs (snd (download_model_from_s3 O_cut_off (fresh ∅))) !! "./model/model.safetensors"
     = None.
Proof.
  split; [vm_compute; reflexivity|]. split; [|vm_compute; reflexivity].
  apply (download_not_repeated O_cut_off O_bucket (fresh ∅) _
           (fst (download_model_from_s3 O_cut_off (fresh ∅)))).
  - reflexivity.
  - reflexivity.
  - apply surjective_pairing.
Defined.

Lemma download_writes_only_model_dir_witness :
  fs (snd (download_model_from_s3 O_bucket (fresh elsewhere))) !! "./app.py"
  = fs (fresh elsewhere) !! "./app.py".
Proof.
  apply (proj1 (proj2 (proj2 (download_writes_only_model_dir
                                O_bucket (fresh elsewhere) _ _
                                (surjective_pairing _))))).
  - discriminate.
  - intros name. cbv [String.append]. discriminate.
Defined.

(** The two configurations of the bucket land on the same file; the older
    checkpoint's, listed last, is the one that stays. *)
Lemma download_flattens_keys_witness :
  exists before winner after body,
    listed_keys
      (fst (paginate O_bucket (getenv O_bucket "MODEL_BUCKET" "your-bucket-name")
                     (getenv O_bucket "MODEL_PREFIX" "models/gender-classification-final/")))
      = before ++ winner :: after
    /\ basename winner = basename "models/gender-classification-final/config.json"
    /\ (forall k, k ∈ after ->
          basename k <> basename "models/gender-classification-final/config.json")
    /\ download_file O_bucket (getenv O_bucket "MODEL_BUCKET" "your-bucket-name") winner
         ("./model/" +:+ basename "models/gender-classification-final/config.json") = Ok body
    /\ fs (snd (download_model_from_s3 O_bucket (fresh ∅)))
       !! ("./model/" +:+ basename "models/gender-classification-final/config.json")
       = Some (File body).
Proof.
  apply (download_flattens_keys O_bucket (fresh ∅) _ model_dir).
  - reflexivity.
  - vm_compute. reflexivity.
  - apply (list_elem_of_lookup_2 _ 0%nat). vm_compute. reflexivity.
Defined.

Lemma download_calls_in_listing_order_witness :
  journal (snd (download_model_from_s3 O_bucket (fresh ∅)))
  = journal (opened O_bucket (fresh ∅))
    ++ flat_map (transfer "your-bucket-name")
         [ "models/gender-classification-final/config.json";
           "models/gender-classification-final/model.safetensors";
           "models/gender-classification-final/checkpoint-10/config.json" ]
    ++ [Logged INFO "Model download completed!"].
Proof.
  refine (proj1 (proj2 (download_calls_in_listing_order
                          O_bucket (fresh ∅) (snd (download_model_from_s3 O_bucket (fresh ∅)))
                          model_dir _ _))).
  - reflexivity.
  - vm_compute. reflexivity.
Defined.

Lemma health_after_startup_witness :
  health_check (snd (startup_event O_cut_off (fresh ∅))) !! "status" = Some (HStr "healthy")
  /\ (health_check (snd (startup_event O_cut_off (fresh ∅))) !! "detector_loaded"
      = Some (HBool true)
      <-> fst (startup_event O_cut_off (fresh ∅)) = Ok tt)
  /\ (health_check (snd (startup_event O_cut_off (fresh ∅))) !! "detector_loaded"
      = Some (HBool true) ->
      health_check (snd (startup_event O_cut_off (fresh ∅))) !! "model_loaded"
      = Some (HBool true))
  /\ (health_check (snd (startup_event O_cut_off (fresh ∅))) !! "model_loaded"
      = Some (HBool true) ->
      health_check (snd (startup_event O_cut_off (fresh ∅))) !! "processor_loaded"
      = Some (HBool true)).
Proof.
  apply (health_after_startup O_cut_off (fresh ∅)).
  - reflexivity.
  - apply surjective_pairing.
Defined.


(** Startup failed on the broken listing; a second load in the same
    process, with the bucket in reach, goes straight to the loaders. *)
Lemma reload_never_downloads_witness :
  exists later,
    journal (snd (load_models O_bucket (snd (load_models O_cut_off (fresh ∅)))))
      = journal (snd (load_models O_cut_off (fresh ∅))) ++ later
    /\ Forall (fun ef => is_s3_call ef = false) later
    /\ head later = Some (Logged INFO "Loading gender classification model...")
    /\ (forall e,
          fst (processor_from_pretrained O_bucket model_dir
                 (fs (snd (load_models O_cut_off (fresh ∅))))) = Raise e ->
          fst (load_models O_bucket (snd (load_models O_cut_off (fresh ∅)))) = Raise e).
Proof.
  apply (reload_never_downloads O_cut_off O_bucket (fresh ∅) _
           (fst (load_models O_cut_off (fresh ∅)))).
  - reflexivity.
  - reflexivity.
  - apply surjective_pairing.
Defined.

Lemma predict_before_startup_witness :
  predict_gender (before_startup (fun _ => Ok img_100)) (jpeg "one.jpg")
    = (Raise (HTTPException 500 "Prediction failed: 'NoneType' object is not callable"),
       [CallRead (jpeg "one.jpg"); CallImageOpen []; CallDetector img_100;
        LogError "Error in person detection: 'NoneType' object is not callable";
        CallClassifier img_100;
        LogError "Error in prediction: 'NoneType' object is not callable"])
  /\ batch_step (before_startup (fun _ => Ok img_100)) [] (jpeg "one.jpg")
     = (Ok ([] ++ [failure_entry (jpeg "one.jpg") "'NoneType' object is not callable"]),
        [CallRead (jpeg "one.jpg"); CallImageOpen []; CallDetector img_100;
         LogError "Error in person detection: 'NoneType' object is not callable";
         CallClassifier img_100]).
Proof.
  apply (predict_before_startup (fun _ => Ok img_100) (jpeg "one.jpg") "image/jpeg" [] img_100 []).
  - reflexivity.
  - reflexivity.
  - reflexivity.
  - reflexivity.
Defined.

(** A whole startup against the bucket: the models load, and the health
    payload says so. *)
Example startup_on_bucket :
  fst (startup_event O_bucket (fresh ∅)) = Ok tt
  /\ health_check (snd (startup_event O_bucket (fresh ∅)))
     = {[ "status" := HStr "healthy";
          "model_loaded" := HBool true;
          "processor_loaded" := HBool true;
          "detector_loaded" := HBool true ]}
  /\ fs (snd (startup_event O_bucket (fresh ∅))) !! "./model/config.json"
     = Some (File [60])
  /\ dom (fs (snd (startup_event O_bucket (fresh ∅))))
     = {[ "./model"; "./model/config.json"; "./model/model.safetensors";
          "/home/app/.cache/huggingface/hub/facebook/detr-resnet-50" ]}.
Proof. vm_compute. done. Qed.
